(** * Directus MCP server: toolset filter, HTTP resource client, tool wrappers

    A shallow embedding of the TypeScript sources
    - [index.ts]            ([parseToolsets], [filterToolsByToolsets]),
    - [index.test.ts]       (the copies of the two functions the test suite
                             recreates and exercises),
    - [directus-client.ts]  ([DirectusClient]: constructor, [request],
                             [buildQueryString]; the revision with the
                             resource-method factory, whose encoder knows
                             the [export] key; [createResourceMethods],
                             the public methods, [authenticate],
                             [createDirectusClient]; and the public
                             methods of the earlier revision),
    - [tools/tool-helpers.ts] ([createTool], [createActionTool]),
    - [index.ts]            (the list and call handlers, [getZodType]),
    - [tools/schema-tools.ts], [tools/flow-tools.ts] (the handlers of
                             [create_collection], [delete_relation],
                             [get_schema_snapshot], [get_schema_diff],
                             [trigger_flow]),
    together with the part of the JavaScript run-time they rely on
    (truthiness, [ToString], property access, [JSON.stringify],
    [URLSearchParams]).

    Conventions.  A JavaScript string is a Rocq [string], read as the UTF-8
    bytes of the text.  A JavaScript number is an integer [Z] (no fractions,
    [NaN] or infinities; magnitudes below 10^21, where [ToString] is the plain
    decimal numeral).  An object is the association list of its own
    enumerable properties, in enumeration order, with pairwise distinct
    keys; a value holds no function and no cycle. *)

From Stdlib Require Import String Ascii List ZArith Bool Lia.
From Stdlib Require Import Decimal DecimalString DecimalZ.
Import ListNotations.
Open Scope list_scope.
Open Scope string_scope.
Set Warnings "-register-all".

(* ================================================================== *)
(** * The JavaScript run-time used by the sources *)
(* ================================================================== *)

Module JS.

(** The double-quote character. *)
Definition dq : ascii := "034"%char.
Definition dqs : string := String dq EmptyString.

(** ** Values *)

(** [VError name message extra] is an instance of [Error] (or of a subclass
    called [name]) whose [message] is [message] and whose further own
    enumerable properties are [extra]. *)
Inductive value : Type :=
| VUndefined
| VNull
| VBool (b : bool)
| VNum (n : Z)
| VStr (s : string)
| VArr (xs : list value)
| VObj (props : list (string * value))
| VError (name : string) (message : string) (extra : list (string * value)).

(** Result of evaluating a piece of code: a value, or a thrown value.  For
    asynchronous code the two cases are the fulfilment and the rejection of
    the awaited promise. *)
Inductive Completion (A : Type) : Type :=
| Normal (a : A)
| Throw (e : value).
Arguments Normal {A} a.
Arguments Throw {A} e.

(** ** Strings *)

(** [String.prototype.split(sep)] for a one-character separator. *)
Fixpoint split (sep : ascii) (s : string) : list string :=
  match s with
  | EmptyString => [EmptyString]
  | String c rest =>
      if Ascii.eqb c sep then EmptyString :: split sep rest
      else match split sep rest with
           | [] => [String c EmptyString]
           | piece :: pieces => String c piece :: pieces
           end
  end.

(** [String.prototype.includes(needle)]. *)
Fixpoint str_includes (needle hay : string) : bool :=
  if String.prefix needle hay then true
  else match hay with
       | EmptyString => false
       | String _ rest => str_includes needle rest
       end.

(** [Array.prototype.includes] on an array of strings. *)
Definition includes (xs : list string) (x : string) : bool :=
  existsb (String.eqb x) xs.

(** [Array.prototype.join(sep)] on an array of strings. *)
Definition join (sep : string) (xs : list string) : string :=
  String.concat sep xs.

(** ASCII instances of [String.prototype.trim] and
    [String.prototype.toLowerCase]: they agree with the host's functions on
    every string made of ASCII characters. *)
Definition is_ascii_space (c : ascii) : bool :=
  let n := nat_of_ascii c in
  (Nat.eqb n 32) || ((Nat.leb 9 n) && (Nat.leb n 13)).

Fixpoint trimStart (s : string) : string :=
  match s with
  | EmptyString => EmptyString
  | String c rest => if is_ascii_space c then trimStart rest else s
  end.

Fixpoint trimEnd (s : string) : string :=
  match s with
  | EmptyString => EmptyString
  | String c rest =>
      match trimEnd rest with
      | EmptyString => if is_ascii_space c then EmptyString
                       else String c EmptyString
      | kept => String c kept
      end
  end.

Definition ascii_trim (s : string) : string := trimEnd (trimStart s).

Definition lower_char (c : ascii) : ascii :=
  let n := nat_of_ascii c in
  if (Nat.leb 65 n) && (Nat.leb n 90) then ascii_of_nat (n + 32) else c.

Fixpoint ascii_toLowerCase (s : string) : string :=
  match s with
  | EmptyString => EmptyString
  | String c rest => String (lower_char c) (ascii_toLowerCase rest)
  end.

(** ** Truthiness, [ToString], property access *)

Definition truthy (v : value) : bool :=
  match v with
  | VUndefined | VNull => false
  | VBool b => b
  | VNum n => negb (Z.eqb n 0)
  | VStr s => negb (String.eqb s "")
  | VArr _ | VObj _ | VError _ _ _ => true
  end.

(** [a || b]. *)
Definition or_else (a b : value) : value := if truthy a then a else b.

(** [Number.prototype.toString] on an integer. *)
Definition num_to_string (n : Z) : string :=
  NilZero.string_of_int (Z.to_int n).

(** [Error.prototype.toString]. *)
Definition error_to_string (name message : string) : string :=
  if String.eqb name "" then message
  else if String.eqb message "" then name
  else name ++ ": " ++ message.

(** [ToString(v)]: what [String(v)], a template literal and
    [URLSearchParams.append] apply to [v].  For an array it is
    [Array.prototype.join(",")], which prints [undefined] and [null]
    elements as the empty string. *)
Fixpoint to_string (v : value) : string :=
  match v with
  | VUndefined => "undefined"
  | VNull => "null"
  | VBool true => "true"
  | VBool false => "false"
  | VNum n => num_to_string n
  | VStr s => s
  | VArr xs =>
      join "," (map (fun x => match x with
                              | VUndefined | VNull => ""
                              | _ => to_string x
                              end) xs)
  | VObj _ => "[object Object]"
  | VError name message _ => error_to_string name message
  end.

(** [xs.join(',')] on an array of values. *)
Definition array_join (xs : list value) : string := to_string (VArr xs).

(** [Array.isArray]. *)
Definition isArray (v : value) : bool :=
  match v with VArr _ => true | _ => false end.

Fixpoint assoc (k : string) (props : list (string * value)) : value :=
  match props with
  | [] => VUndefined
  | (k', x) :: rest => if String.eqb k k' then x else assoc k rest
  end.

Definition nullish (v : value) : bool :=
  match v with VUndefined | VNull => true | _ => false end.

(** [v.k] for a [v] that is neither [undefined] nor [null] and a property
    name [k] that is neither an array index nor the name of a property
    that arrays, strings, numbers or booleans inherit (the sources read
    [errors] and [message], and the keys of the query parameter bag on an
    object). *)
Definition get (v : value) (k : string) : value :=
  match v with
  | VObj props => assoc k props
  | VError name message extra =>
      if String.eqb k "message" then VStr message
      else if String.eqb k "name" then VStr name
      else assoc k extra
  | _ => VUndefined
  end.

(** [v[0]] for a [v] that is neither [undefined] nor [null]. *)
Definition get0 (v : value) : value :=
  match v with
  | VArr xs => nth 0 xs VUndefined
  | VObj props => assoc "0" props
  | VError _ _ extra => assoc "0" extra
  | VStr (String c _) => VStr (String c EmptyString)
  | _ => VUndefined
  end.

(** Optional chaining: [v?.k] and [v?.[0]]. *)
Definition opt_get (v : value) (k : string) : value :=
  if nullish v then VUndefined else get v k.

Definition opt_get0 (v : value) : value :=
  if nullish v then VUndefined else get0 v.

(** The [TypeError] raised by a property read on [undefined] or [null], and
    by a call of something that is not a function. *)
Definition TypeError (msg : string) : value := VError "TypeError" msg [].

(** [v.k], which throws on [undefined] and [null]. *)
Definition get_strict (v : value) (k : string) : Completion value :=
  if nullish v
  then Throw (TypeError ("Cannot read properties of " ++ to_string v
                         ++ " (reading '" ++ k ++ "')"))
  else Normal (get v k).

(** [new Error(msg)]. *)
Definition new_Error (msg : string) : value := VError "Error" msg [].



(** ** [JSON.stringify] *)

Definition nl : string := String "010"%char EmptyString.
Definition backslash : string := String "092"%char EmptyString.

Definition hex_lower (n : nat) : string :=
  String.substring n 1 "0123456789abcdef".

Definition hex_upper (n : nat) : string :=
  String.substring n 1 "0123456789ABCDEF".

(** The value of a hexadecimal digit. *)
Definition hex_value (c : ascii) : option nat :=
  let n := nat_of_ascii c in
  if Nat.leb 48 n && Nat.leb n 57 then Some (n - 48)
  else if Nat.leb 65 n && Nat.leb n 70 then Some (n - 55)
  else if Nat.leb 97 n && Nat.leb n 102 then Some (n - 87)
  else None.

(** One character of [QuoteJSONString]. *)
Definition quote_char (c : ascii) : string :=
  let n := nat_of_ascii c in
  if Nat.eqb n 34 then backslash ++ dqs
  else if Nat.eqb n 92 then backslash ++ backslash
  else if Nat.eqb n 8 then backslash ++ "b"
  else if Nat.eqb n 9 then backslash ++ "t"
  else if Nat.eqb n 10 then backslash ++ "n"
  else if Nat.eqb n 12 then backslash ++ "f"
  else if Nat.eqb n 13 then backslash ++ "r"
  else if Nat.ltb n 32
       then backslash ++ "u00" ++ hex_lower (n / 16) ++ hex_lower (n mod 16)
  else String c EmptyString.

Fixpoint quote_body (s : string) : string :=
  match s with
  | EmptyString => EmptyString
  | String c rest => quote_char c ++ quote_body rest
  end.

Definition QuoteJSONString (s : string) : string :=
  dqs ++ quote_body s ++ dqs.

(** The brackets of [SerializeJSONArray] and [SerializeJSONObject] around
    the serialized elements [partial]; [stepback] is the indentation outside
    and [indent] the indentation inside. *)
Definition bracket (opening closing gap stepback indent : string)
    (partial : list string) : string :=
  match partial with
  | [] => opening ++ closing
  | _ =>
      if String.eqb gap ""
      then opening ++ join "," partial ++ closing
      else opening ++ nl ++ indent
             ++ join ("," ++ nl ++ indent) partial
             ++ nl ++ stepback ++ closing
  end.

(** [SerializeJSONProperty]: [None] is the result [undefined].  An [Error]
    instance serializes as the object of its enumerable own properties. *)
Fixpoint serialize (gap indent : string) (v : value) {struct v}
  : option string :=
  let member (kx : string * value) : list string :=
    match serialize gap (indent ++ gap) (snd kx) with
    | Some s =>
        [(QuoteJSONString (fst kx) ++ ":"
            ++ (if String.eqb gap "" then "" else " ") ++ s)%string]
    | None => []
    end in
  match v with
  | VUndefined => None
  | VNull => Some "null"
  | VBool true => Some "true"
  | VBool false => Some "false"
  | VNum n => Some (num_to_string n)
  | VStr s => Some (QuoteJSONString s)
  | VArr xs =>
      Some (bracket "[" "]" gap indent (indent ++ gap)
              (map (fun x => match serialize gap (indent ++ gap) x with
                             | Some s => s
                             | None => "null"
                             end) xs))
  | VObj props =>
      Some (bracket "{" "}" gap indent (indent ++ gap) (flat_map member props))
  | VError _ _ extra =>
      Some (bracket "{" "}" gap indent (indent ++ gap) (flat_map member extra))
  end.

Fixpoint spaces (n : nat) : string :=
  match n with
  | O => EmptyString
  | S k => String " "%char (spaces k)
  end.

(** [JSON.stringify(v)] and [JSON.stringify(v, null, space)]. *)
Definition JSON_stringify (v : value) : option string :=
  serialize "" "" v.

Definition JSON_stringify_indent (v : value) (space : nat) : option string :=
  serialize (spaces (Nat.min 10 space)) "" v.

(** A string-or-[undefined] result as a value. *)
Definition of_option (o : option string) : value :=
  match o with
  | Some s => VStr s
  | None => VUndefined
  end.

(** ** [URLSearchParams] *)

Definition URLSearchParams : Type := list (string * string).

(** [queryParams.append(name, value)]; the caller has applied [ToString]. *)
Definition append (qp : URLSearchParams) (name val : string)
  : URLSearchParams :=
  (qp ++ [(name, val)])%list.

(** Bytes the application/x-www-form-urlencoded serializer leaves as they
    are: ASCII letters and digits, [*], [-], [.] and [_]. *)
Definition urlencoded_safe (c : ascii) : bool :=
  let n := nat_of_ascii c in
  (Nat.leb 48 n && Nat.leb n 57) || (Nat.leb 65 n && Nat.leb n 90)
  || (Nat.leb 97 n && Nat.leb n 122)
  || Nat.eqb n 42 || Nat.eqb n 45 || Nat.eqb n 46 || Nat.eqb n 95.

Definition urlencode_byte (c : ascii) : string :=
  let n := nat_of_ascii c in
  if Nat.eqb n 32 then "+"
  else if urlencoded_safe c then String c EmptyString
  else "%" ++ hex_upper (n / 16) ++ hex_upper (n mod 16).

Fixpoint urlencode (s : string) : string :=
  match s with
  | EmptyString => EmptyString
  | String c rest => urlencode_byte c ++ urlencode rest
  end.

(** [queryParams.toString()]. *)
Definition URLSearchParams_toString (qp : URLSearchParams) : string :=
  join "&"
    (map (fun nv => (urlencode (fst nv) ++ "=" ++ urlencode (snd nv))%string)
         qp).

End JS.

(* ================================================================== *)
(** * Effects: the network, the argument objects, the event trace *)
(* ================================================================== *)

Module Effects.
Import JS.

(** The [RequestInit] passed to [fetch]. *)
Record RequestInit : Type := mkInit {
  method : string;
  headers : list (string * string);
  body : option string
}.

(** What the client reads of a [Response]: [ok], [status], [statusText],
    and what the promise returned by [json()] settles to. *)
Record Response : Type := mkResponse {
  ok : bool;
  status : Z;
  statusText : string;
  json : Completion value
}.

(** The Fetch standard's [ok] getter: the status is in the range 200-299. *)
Definition ok_status (st : Z) : bool := (200 <=? st)%Z && (st <=? 299)%Z.

Inductive Event : Type :=
| EvFetch (url : string) (options : RequestInit)
| EvJson (response : Response)
| EvSuccessMessage (args : value).

(** [transport] is the mock transport: what the successive calls of [fetch]
    settle to.  [heap] holds the argument objects handed to tool handlers,
    which JavaScript passes by reference.  [trace] records, oldest first,
    the calls of [fetch], of [response.json()] and of [successMessage]. *)
Record World : Type := mkWorld {
  transport : list (Completion Response);
  heap : list value;
  trace : list Event
}.

Definition M (A : Type) : Type := World -> Completion A * World.

Definition ret {A} (a : A) : M A := fun w => (Normal a, w).

Definition throw {A} (e : value) : M A := fun w => (Throw e, w).

Definition bind {A B} (m : M A) (k : A -> M B) : M B :=
  fun w =>
    match m w with
    | (Normal a, w') => k a w'
    | (Throw e, w') => (Throw e, w')
    end.

(** [try { m } catch (error) { handler error }], and [promise.catch(handler)]. *)
Definition try_catch {A} (m : M A) (handler : value -> M A) : M A :=
  fun w =>
    match m w with
    | (Normal a, w') => (Normal a, w')
    | (Throw e, w') => handler e w'
    end.

Definition lift {A} (c : Completion A) : M A := fun w => (c, w).

Definition emit (ev : Event) : M unit :=
  fun w => (Normal tt,
            mkWorld (transport w) (heap w) (trace w ++ [ev])%list).

Definition network_failure : value := VError "TypeError" "fetch failed" [].

(** [await fetch(url, options)]. *)
Definition fetch (url : string) (options : RequestInit) : M Response :=
  fun w =>
    let tr := (trace w ++ [EvFetch url options])%list in
    match transport w with
    | [] => (Throw network_failure, mkWorld [] (heap w) tr)
    | outcome :: later => (outcome, mkWorld later (heap w) tr)
    end.

(** [await response.json()]. *)
Definition response_json (response : Response) : M value :=
  bind (emit (EvJson response)) (fun _ => lift (json response)).

(** Argument objects: a reference is an index into the heap. *)
Definition ref : Type := nat.

Definition read (r : ref) : M value :=
  fun w => (Normal (nth r (heap w) VUndefined), w).

Fixpoint update (r : ref) (v : value) (h : list value) : list value :=
  match h, r with
  | [], _ => []
  | _ :: rest, O => v :: rest
  | x :: rest, S r' => x :: update r' v rest
  end.

Definition write (r : ref) (v : value) : M unit :=
  fun w => (Normal tt, mkWorld (transport w) (update r v (heap w)) (trace w)).

End Effects.

Declare Scope js_scope.
Delimit Scope js_scope with js.
Notation "x <- m ;; k" := (Effects.bind m (fun x => k))
  (at level 61, m at next level, right associativity) : js_scope.

(* ================================================================== *)
(** * directus-client.ts *)
(* ================================================================== *)

Module Client.
Import JS Effects.

Record DirectusConfig : Type := mkConfig {
  url : string;
  token : option string;
  email : option string;
  password : option string
}.

(** The client handle built by the Directus SDK:
    [createDirectus(url).with(rest()).with(staticToken(token))] or
    [createDirectus(url).with(rest()).with(authentication('json'))].
    [createDirectus(url)] evaluates [new URL(url)], which throws when the
    text is not an absolute URL; the rest is a composition of plain
    objects.  No request is sent. *)
Inductive SdkClient : Type :=
| SdkStaticToken (url token : string)
| SdkAuthentication (url mode : string).

Record DirectusClient : Type := mkClient {
  config : DirectusConfig;
  baseUrl : string;
  authHeaders : list (string * string);
  client : SdkClient
}.

(** Truthiness of an optional string property: present and not empty. *)
Definition supplied (field : option string) : bool :=
  match field with
  | Some s => negb (String.eqb s "")
  | None => false
  end.

Definition text_of (field : option string) : string :=
  match field with
  | Some s => s
  | None => "undefined"
  end.

(** [config.url.replace(/\/$/, '')]. *)
Fixpoint strip_trailing_slash (s : string) : string :=
  match s with
  | EmptyString => EmptyString
  | String c EmptyString =>
      if Ascii.eqb c "/" then EmptyString else s
  | String c rest => String c (strip_trailing_slash rest)
  end.

Definition configuration_error : value :=
  new_Error
    "Authentication configuration required: provide either token or email/password".

(** [initializeClient()]: the SDK client, together with the [authHeaders]
    it leaves on the instance.  Its first statement,
    [createDirectus(this.config.url).with(rest())], runs before the
    credentials are looked at; [new_URL] is the host's [new URL(text)]:
    it returns, or throws what the host throws for a text that is not an
    absolute URL. *)
Definition initializeClient (new_URL : string -> Completion unit)
    (cfg : DirectusConfig)
  : Completion (list (string * string) * SdkClient) :=
  match new_URL (url cfg) with
  | Throw e => Throw e
  | Normal _ =>
      if supplied (token cfg)
      then Normal ([("Authorization", "Bearer " ++ text_of (token cfg))],
                   SdkStaticToken (url cfg) (text_of (token cfg)))
      else if supplied (email cfg) && supplied (password cfg)
      then Normal ([], SdkAuthentication (url cfg) "json")
      else Throw configuration_error
  end.

(** [new DirectusClient(config)]. *)
Definition new_DirectusClient (new_URL : string -> Completion unit)
    (cfg : DirectusConfig) : M DirectusClient :=
  let base := strip_trailing_slash (url cfg) in
  (made <- lift (initializeClient new_URL cfg) ;;
   ret (mkClient cfg base (fst made) (snd made)))%js.

(** [error.message.includes('Directus API error:')]: the method exists on
    strings and on arrays. *)
Definition call_includes (receiver : value) (needle : string)
  : Completion bool :=
  match receiver with
  | VStr s => Normal (str_includes needle s)
  | VArr xs =>
      Normal (existsb (fun x => match x with
                                | VStr s => String.eqb s needle
                                | _ => false
                                end) xs)
  | VUndefined | VNull =>
      Throw (TypeError ("Cannot read properties of " ++ to_string receiver
                        ++ " (reading 'includes')"))
  | _ => Throw (TypeError "error.message.includes is not a function")
  end.

Definition api_prefix : string := "Directus API error: ".

(** [e?.errors?.[0]?.message || e?.message || fallback]. *)
Definition best_message (e fallback : value) : value :=
  or_else (opt_get (opt_get0 (opt_get e "errors")) "message")
          (or_else (opt_get e "message") fallback).

Definition sends_body (m : string) : bool :=
  String.eqb m "POST" || String.eqb m "PATCH" || String.eqb m "PUT".

(** The [catch (error)] block of [request]. *)
Definition request_catch (error : value) : M value :=
  (message <- lift (get_strict error "message") ;;
   wrapped <- lift (call_includes message "Directus API error:") ;;
   if (wrapped : bool)
   then throw error
   else
     let errorMessage := best_message error (VStr (to_string error)) in
     throw (new_Error (api_prefix ++ to_string errorMessage)))%js.

(** What [fetch] is called with. *)
Definition request_options (this : DirectusClient) (meth : string)
    (data : value) : RequestInit :=
  mkInit meth (("Content-Type", "application/json") :: authHeaders this)
    (if truthy data && sends_body meth then JSON_stringify data
     else if truthy data && String.eqb meth "DELETE" && isArray data
          then JSON_stringify data
     else None).

(** [request(method, endpoint, data)]; an omitted [data] is [VUndefined]. *)
Definition request (this : DirectusClient) (meth endpoint : string)
    (data : value) : M value :=
  try_catch
    (response <- fetch (baseUrl this ++ endpoint)
                       (request_options this meth data) ;;
     if negb (ok response)
     then
       (errorData <- try_catch (response_json response)
                               (fun _ => ret (VObj [])) ;;
        let errorMessage :=
          best_message errorData (VStr (statusText response)) in
        throw (new_Error (api_prefix ++ to_string errorMessage)))
     else if Z.eqb (status response) 204
     then ret (VObj [("success", VBool true)])
     else response_json response)%js
    request_catch.

(** [Array.isArray(v) ? v.join(',') : v], then the [ToString] of [append]. *)
Definition comma_joined (v : value) : string :=
  match v with
  | VArr xs => array_join xs
  | _ => to_string v
  end.

(** One guarded [queryParams.append(name, text)]. *)
Definition append_if (present : bool) (name text : string)
    (qp : URLSearchParams) : URLSearchParams :=
  if present then append qp name text else qp.

Definition json_text (v : value) : string :=
  to_string (of_option (JSON_stringify v)).

Definition is_defined (v : value) : bool :=
  match v with VUndefined => false | _ => true end.

(** The [queryParams] of [buildQueryString] after its twelve guarded
    [append]s, for a [params] that is neither [undefined] nor [null]. *)
Definition collect (params : value) : URLSearchParams :=
  let p := get params in
  let qp : URLSearchParams := [] in
  let qp := append_if (truthy (p "fields")) "fields"
                      (comma_joined (p "fields")) qp in
  let qp := append_if (truthy (p "filter")) "filter"
                      (json_text (p "filter")) qp in
  let qp := append_if (truthy (p "search")) "search"
                      (to_string (p "search")) qp in
  let qp := append_if (truthy (p "sort")) "sort"
                      (comma_joined (p "sort")) qp in
  let qp := append_if (is_defined (p "limit")) "limit"
                      (to_string (p "limit")) qp in
  let qp := append_if (is_defined (p "offset")) "offset"
                      (to_string (p "offset")) qp in
  let qp := append_if (is_defined (p "page")) "page"
                      (to_string (p "page")) qp in
  let qp := append_if (truthy (p "aggregate")) "aggregate"
                      (json_text (p "aggregate")) qp in
  let qp := append_if (truthy (p "groupBy")) "groupBy"
                      (comma_joined (p "groupBy")) qp in
  let qp := append_if (truthy (p "deep")) "deep"
                      (json_text (p "deep")) qp in
  let qp := append_if (truthy (p "meta")) "meta"
                      (to_string (p "meta")) qp in
  append_if (truthy (p "export")) "export" (to_string (p "export")) qp.

(** [buildQueryString(params)]; reading [params.fields] throws when
    [params] is [undefined] or [null]. *)
Definition buildQueryString (params : value) : Completion string :=
  if nullish params
  then Throw (TypeError ("Cannot read properties of " ++ to_string params
                         ++ " (reading 'fields')"))
  else
    let query := URLSearchParams_toString (collect params) in
    Normal (if negb (String.eqb query "") then "?" ++ query else "").

End Client.

(* ================================================================== *)
(** * tools/tool-helpers.ts *)
(* ================================================================== *)

Definition Toolset : Type := string.

Module ToolHelpers.
Import JS Effects Client.

(** A handler receives the client and the argument object (a reference). *)
Definition Handler : Type := DirectusClient -> ref -> M value.

Section Tools.
(** The type of zod schemas, which the helpers only pass along. *)
Variable Schema : Type.

Record MCPTool : Type := mkMCPTool {
  name : string;
  description : string;
  inputSchema : Schema;
  toolsets : option (list Toolset);
  handler : Handler
}.

(** The [config] argument of [createTool]. *)
Record ToolConfig : Type := mkToolConfig {
  cfg_name : string;
  cfg_description : string;
  cfg_inputSchema : Schema;
  cfg_toolsets : option (list Toolset);
  cfg_handler : Handler
}.

(** The [config] argument of [createActionTool]. *)
Record ActionToolConfig : Type := mkActionToolConfig {
  act_name : string;
  act_description : string;
  act_inputSchema : Schema;
  act_toolsets : option (list Toolset);
  act_handler : Handler;
  act_successMessage : value -> string
}.

(** [{ content: [{ type: 'text', text }] }]. *)
Definition text_content (text : value) : value :=
  VObj [("content", VArr [VObj [("type", VStr "text"); ("text", text)]])].

Definition createTool (cfg : ToolConfig) : MCPTool :=
  mkMCPTool (cfg_name cfg) (cfg_description cfg) (cfg_inputSchema cfg)
    (cfg_toolsets cfg)
    (fun client args =>
       (result <- cfg_handler cfg client args ;;
        ret (text_content (of_option (JSON_stringify_indent result 2))))%js).

(** [config.successMessage(args)] reads the argument object as it is when
    the call is made. *)
Definition createActionTool (cfg : ActionToolConfig) : MCPTool :=
  mkMCPTool (act_name cfg) (act_description cfg) (act_inputSchema cfg)
    (act_toolsets cfg)
    (fun client args =>
       (_ <- act_handler cfg client args ;;
        current <- read args ;;
        _ <- emit (EvSuccessMessage current) ;;
        ret (text_content (VStr (act_successMessage cfg current))))%js).
End Tools.

Arguments name {Schema} _.
Arguments description {Schema} _.
Arguments inputSchema {Schema} _.
Arguments toolsets {Schema} _.
Arguments handler {Schema} _.
Arguments cfg_name {Schema} _.
Arguments cfg_description {Schema} _.
Arguments cfg_inputSchema {Schema} _.
Arguments cfg_toolsets {Schema} _.
Arguments cfg_handler {Schema} _.
Arguments act_name {Schema} _.
Arguments act_description {Schema} _.
Arguments act_inputSchema {Schema} _.
Arguments act_toolsets {Schema} _.
Arguments act_handler {Schema} _.
Arguments act_successMessage {Schema} _.
Arguments mkMCPTool {Schema} _ _ _ _ _.
Arguments mkToolConfig {Schema} _ _ _ _ _.
Arguments mkActionToolConfig {Schema} _ _ _ _ _ _.
Arguments createTool {Schema} cfg.
Arguments createActionTool {Schema} cfg.

End ToolHelpers.

(* ================================================================== *)
(** * index.ts: toolset selection *)
(* ================================================================== *)

Module Index.
Import JS ToolHelpers.

Section Parser.
(** The host's [String.prototype.trim] and [String.prototype.toLowerCase]. *)
Variable trim : string -> string.
Variable toLowerCase : string -> string.

Definition validToolsets : list Toolset :=
  ["default"; "schema"; "content"; "flow"; "collections"; "fields";
   "relations"].

(** [envValue.split(',').map(t => t.trim().toLowerCase())
            .filter(t => t.length > 0)] *)
Definition requestedToolsets (envValue : string) : list string :=
  filter (fun t => Nat.ltb 0 (String.length t))
         (map (fun t => toLowerCase (trim t)) (split "," envValue)).

Definition warn_none_valid (envValue : string) : string :=
  "Warning: No valid toolsets found in MCP_TOOLSETS=" ++ dqs ++ envValue
    ++ dqs ++ ". Defaulting to 'default' toolset.".

Definition warn_invalid (invalid : list string) : string :=
  "Warning: Invalid toolset names ignored: " ++ join ", " invalid
    ++ ". Valid toolsets are: " ++ join ", " validToolsets.

(** [parseToolsets(envValue)]: the active toolsets, and the lines written
    with [console.error]. *)
Definition parseToolsets (envValue : option string)
  : list Toolset * list string :=
  match envValue with
  | None => (["default"], [])
  | Some env =>
      if String.eqb env "" || String.eqb (trim env) ""
      then (["default"], [])
      else
        let requested := requestedToolsets env in
        let filtered := filter (fun t => includes validToolsets t) requested in
        if Nat.eqb (List.length filtered) 0
        then (["default"], [warn_none_valid env])
        else
          let invalid :=
            filter (fun t => negb (includes validToolsets t)) requested in
          (filtered,
           if Nat.ltb 0 (List.length invalid) then [warn_invalid invalid]
           else [])
  end.
End Parser.

(** [tools.filter(tool =>
       tool.toolsets?.some(toolset => toolsets.includes(toolset)) ?? false)] *)
Definition filterToolsByToolsets {Schema : Type}
    (tools : list (MCPTool Schema)) (active : list Toolset)
  : list (MCPTool Schema) :=
  filter (fun tool =>
            match toolsets tool with
            | Some ts => existsb (fun toolset => includes active toolset) ts
            | None => false
            end) tools.

End Index.

(* ================================================================== *)
(** * index.test.ts: the copies of the two functions the tests exercise *)
(* ================================================================== *)

Module IndexTest.
Import JS ToolHelpers.

Section Parser.
Variable trim : string -> string.
Variable toLowerCase : string -> string.

Definition validToolsets : list Toolset :=
  ["default"; "schema"; "content"; "flow"; "collections"; "fields";
   "relations"; "dashboards"; "all"].

Definition requestedToolsets (envValue : string) : list string :=
  filter (fun t => Nat.ltb 0 (String.length t))
         (map (fun t => toLowerCase (trim t)) (split "," envValue)).

Definition parseToolsets (envValue : option string) : list Toolset :=
  match envValue with
  | None => ["default"]
  | Some env =>
      if String.eqb env "" || String.eqb (trim env) ""
      then ["default"]
      else
        let requested := requestedToolsets env in
        let filtered := filter (fun t => includes validToolsets t) requested in
        if includes filtered "all" then ["all"]
        else if Nat.eqb (List.length filtered) 0 then ["default"]
        else filtered
  end.
End Parser.

Definition filterToolsByToolsets {Schema : Type}
    (tools : list (MCPTool Schema)) (active : list Toolset)
  : list (MCPTool Schema) :=
  if includes active "all" then tools
  else
    filter (fun tool =>
              match toolsets tool with
              | Some ts => existsb (fun toolset => includes active toolset) ts
              | None => false
              end) tools.

End IndexTest.


(* ================================================================== *)
(** * Structural induction on values *)
(* ================================================================== *)

(** The induction principle of [JS.value] with the hypotheses for the
    elements of an array and for the members of an object. *)
Section ValueInduction.
Import JS.
Variable P : value -> Prop.
Hypothesis HUndefined : P VUndefined.
Hypothesis HNull : P VNull.
Hypothesis HBool : forall b, P (VBool b).
Hypothesis HNum : forall n, P (VNum n).
Hypothesis HStr : forall s, P (VStr s).
Hypothesis HArr : forall xs, Forall P xs -> P (VArr xs).
Hypothesis HObj :
  forall props, Forall (fun kx => P (snd kx)) props -> P (VObj props).
Hypothesis HError :
  forall name message extra,
    Forall (fun kx => P (snd kx)) extra -> P (VError name message extra).

Fixpoint value_induction (v : value) : P v :=
  match v with
  | VUndefined => HUndefined
  | VNull => HNull
  | VBool b => HBool b
  | VNum n => HNum n
  | VStr s => HStr s
  | VArr xs =>
      HArr xs
        ((fix all (l : list value) : Forall P l :=
            match l with
            | [] => Forall_nil P
            | x :: l' => Forall_cons x (value_induction x) (all l')
            end) xs)
  | VObj props =>
      HObj props
        ((fix all (l : list (string * value))
            : Forall (fun kx => P (snd kx)) l :=
            match l with
            | [] => Forall_nil _
            | kx :: l' => Forall_cons kx (value_induction (snd kx)) (all l')
            end) props)
  | VError name message extra =>
      HError name message extra
        ((fix all (l : list (string * value))
            : Forall (fun kx => P (snd kx)) l :=
            match l with
            | [] => Forall_nil _
            | kx :: l' => Forall_cons kx (value_induction (snd kx)) (all l')
            end) extra)
  end.
End ValueInduction.

(* ================================================================== *)
(** * Reading a query string back *)
(* ================================================================== *)

(** The reading-back side of the round-trip property of the query
    encoder.  It is not code of the repository: it follows the words of the
    property (splitting on [&] and [=], percent-decoding), and adds the form
    decoding that undoes [URLSearchParams.toString()]. *)
Module QueryParsing.
Import JS.

(** Percent-decoding of a byte string: [%XX] is the byte [XX]; every other
    character stands for itself; [None] on a malformed escape. *)
Fixpoint percent_decode (s : string) : option string :=
  match s with
  | EmptyString => Some EmptyString
  | String c rest =>
      if Ascii.eqb c "%"
      then match rest with
           | String h (String l rest') =>
               match hex_value h, hex_value l, percent_decode rest' with
               | Some a, Some b, Some r =>
                   Some (String (ascii_of_nat (16 * a + b)) r)
               | _, _, _ => None
               end
           | _ => None
           end
      else option_map (String c) (percent_decode rest)
  end.

(** Form decoding: as above, after [+] has been read as a space. *)
Fixpoint form_decode (s : string) : option string :=
  match s with
  | EmptyString => Some EmptyString
  | String c rest =>
      if Ascii.eqb c "+" then option_map (String " "%char) (form_decode rest)
      else if Ascii.eqb c "%"
      then match rest with
           | String h (String l rest') =>
               match hex_value h, hex_value l, form_decode rest' with
               | Some a, Some b, Some r =>
                   Some (String (ascii_of_nat (16 * a + b)) r)
               | _, _, _ => None
               end
           | _ => None
           end
      else option_map (String c) (form_decode rest)
  end.

(** The text before and after the first [sep]. *)
Fixpoint split_first (sep : ascii) (s : string) : string * string :=
  match s with
  | EmptyString => (EmptyString, EmptyString)
  | String c rest =>
      if Ascii.eqb c sep then (EmptyString, rest)
      else let (a, b) := split_first sep rest in (String c a, b)
  end.

Definition parse_pair (decode : string -> option string) (piece : string)
  : option (string * string) :=
  let (n, v) := split_first "=" piece in
  match decode n, decode v with
  | Some n', Some v' => Some (n', v')
  | _, _ => None
  end.

Fixpoint parse_pairs (decode : string -> option string)
    (pieces : list string) : option (list (string * string)) :=
  match pieces with
  | [] => Some []
  | piece :: more =>
      match parse_pair decode piece, parse_pairs decode more with
      | Some nv, Some rest => Some (nv :: rest)
      | _, _ => None
      end
  end.

Definition strip_question (q : string) : string :=
  match q with
  | String c rest => if Ascii.eqb c "?" then rest else q
  | EmptyString => EmptyString
  end.

(** Parsing a query string back: drop the leading [?], split on [&], split
    each piece on its first [=], decode both sides. *)
Definition parse_query (decode : string -> option string) (q : string)
  : option (list (string * string)) :=
  let body := strip_question q in
  if String.eqb body "" then Some []
  else parse_pairs decode (split "&" body).

Fixpoint occurs (c : ascii) (s : string) : bool :=
  match s with
  | EmptyString => false
  | String x rest => Ascii.eqb x c || occurs c rest
  end.

(** One rendered pair of [URLSearchParams.toString()]. *)
Definition piece (nv : string * string) : string :=
  urlencode (fst nv) ++ "=" ++ urlencode (snd nv).

End QueryParsing.

(* ================================================================== *)
(** * Reading a JSON text back *)
(* ================================================================== *)

(** [JSON.parse], which the round-trip property applies to the decoded
    [filter], [aggregate] and [deep] entries.  It is not code of the
    repository either; it reads the JSON texts that have no insignificant
    white space, integer numerals only, and [\u] escapes in the ASCII range
    only. *)
Module JSONParse.
Import JS.

Definition is_digit (c : ascii) : bool :=
  let n := nat_of_ascii c in Nat.leb 48 n && Nat.leb n 57.

Fixpoint take_digits (s : string) : string * string :=
  match s with
  | EmptyString => (EmptyString, EmptyString)
  | String c rest =>
      if is_digit c
      then let (ds, r) := take_digits rest in (String c ds, r)
      else (EmptyString, s)
  end.

(** The text after a number may not continue it: no digit, and no fraction
    or exponent (numbers are integers here). *)
Definition number_end (s : string) : bool :=
  match s with
  | EmptyString => true
  | String c _ =>
      negb (is_digit c || Ascii.eqb c "." || Ascii.eqb c "e"
            || Ascii.eqb c "E")
  end.

(** A JSON numeral has no superfluous leading zero. *)
Definition leading_zero (ds : string) : bool :=
  match ds with
  | String c (String _ _) => Ascii.eqb c "0"
  | _ => false
  end.

Definition parse_digits (negative : bool) (s : string) : option (Z * string) :=
  let (ds, rest) := take_digits s in
  if String.eqb ds "" then None
  else if leading_zero ds then None
  else if negb (number_end rest) then None
  else match NilEmpty.uint_of_string ds with
       | Some u => Some (Z.of_int (if negative then Neg u else Pos u), rest)
       | None => None
       end.

Definition parse_number (s : string) : option (Z * string) :=
  match s with
  | EmptyString => None
  | String c rest =>
      if Ascii.eqb c "-" then parse_digits true rest
      else parse_digits false s
  end.

Definition hex4 (a b c d : ascii) : option nat :=
  match hex_value a, hex_value b, hex_value c, hex_value d with
  | Some x, Some y, Some z, Some w => Some (((x * 16 + y) * 16 + z) * 16 + w)
  | _, _, _, _ => None
  end.

(** The character behind a two-character escape. *)
Definition unescape (e : ascii) : option ascii :=
  if Ascii.eqb e dq then Some dq
  else if Ascii.eqb e "092" then Some "092"%char
  else if Ascii.eqb e "/" then Some "/"%char
  else if Ascii.eqb e "b" then Some "008"%char
  else if Ascii.eqb e "t" then Some "009"%char
  else if Ascii.eqb e "n" then Some "010"%char
  else if Ascii.eqb e "f" then Some "012"%char
  else if Ascii.eqb e "r" then Some "013"%char
  else None.

Definition cons_char (c : ascii) (r : option (string * string))
  : option (string * string) :=
  match r with
  | Some (str, rest) => Some (String c str, rest)
  | None => None
  end.

(** The characters of a string literal after its opening quote, up to and
    including the closing quote.  An escape [\uXXXX] is accepted for the
    ASCII range only. *)
Fixpoint parse_string_body (s : string) : option (string * string) :=
  match s with
  | EmptyString => None
  | String c rest =>
      if Ascii.eqb c dq then Some (EmptyString, rest)
      else if Ascii.eqb c "092"
      then match rest with
           | EmptyString => None
           | String e rest1 =>
               if Ascii.eqb e "u"
               then match rest1 with
                    | String h1 (String h2 (String h3 (String h4 rest2))) =>
                        match hex4 h1 h2 h3 h4 with
                        | Some code =>
                            if Nat.ltb code 128
                            then cons_char (ascii_of_nat code)
                                   (parse_string_body rest2)
                            else None
                        | None => None
                        end
                    | _ => None
                    end
               else match unescape e with
                    | Some x => cons_char x (parse_string_body rest1)
                    | None => None
                    end
           end
      else if Nat.ltb (nat_of_ascii c) 32 then None
      else cons_char c (parse_string_body rest)
  end.

Fixpoint strip_prefix (word s : string) : option string :=
  match word with
  | EmptyString => Some s
  | String a word' =>
      match s with
      | EmptyString => None
      | String b rest => if Ascii.eqb a b then strip_prefix word' rest else None
      end
  end.

Definition literal (word : string) (v : value) (s : string)
  : option (value * string) :=
  option_map (pair v) (strip_prefix word s).

Fixpoint parse_value (fuel : nat) (s : string) {struct fuel}
  : option (value * string) :=
  match fuel with
  | O => None
  | S fuel' =>
      match s with
      | EmptyString => None
      | String c rest =>
          if Ascii.eqb c "n" then literal "ull" VNull rest
          else if Ascii.eqb c "t" then literal "rue" (VBool true) rest
          else if Ascii.eqb c "f" then literal "alse" (VBool false) rest
          else if Ascii.eqb c dq
          then match parse_string_body rest with
               | Some (str, r) => Some (VStr str, r)
               | None => None
               end
          else if Ascii.eqb c "["
          then match rest with
               | EmptyString => None
               | String c' r' =>
                   if Ascii.eqb c' "]" then Some (VArr [], r')
                   else match parse_elements fuel' rest with
                        | Some (vs, r) => Some (VArr vs, r)
                        | None => None
                        end
               end
          else if Ascii.eqb c "{"
          then match rest with
               | EmptyString => None
               | String c' r' =>
                   if Ascii.eqb c' "}" then Some (VObj [], r')
                   else match parse_members fuel' rest with
                        | Some (kvs, r) => Some (VObj kvs, r)
                        | None => None
                        end
               end
          else match parse_number s with
               | Some (n, r) => Some (VNum n, r)
               | None => None
               end
      end
  end

with parse_elements (fuel : nat) (s : string) {struct fuel}
  : option (list value * string) :=
  match fuel with
  | O => None
  | S fuel' =>
      match parse_value fuel' s with
      | Some (v, String c r) =>
          if Ascii.eqb c ","
          then match parse_elements fuel' r with
               | Some (vs, r') => Some (v :: vs, r')
               | None => None
               end
          else if Ascii.eqb c "]" then Some ([v], r)
          else None
      | _ => None
      end
  end

with parse_members (fuel : nat) (s : string) {struct fuel}
  : option (list (string * value) * string) :=
  match fuel with
  | O => None
  | S fuel' =>
      match s with
      | EmptyString => None
      | String q rest =>
          if Ascii.eqb q dq
          then match parse_string_body rest with
               | Some (k, String colon r) =>
                   if Ascii.eqb colon ":"
                   then match parse_value fuel' r with
                        | Some (v, String c r') =>
                            if Ascii.eqb c ","
                            then match parse_members fuel' r' with
                                 | Some (kvs, r'') => Some ((k, v) :: kvs, r'')
                                 | None => None
                                 end
                            else if Ascii.eqb c "}" then Some ([(k, v)], r')
                            else None
                        | _ => None
                        end
                   else None
               | _ => None
               end
          else None
      end
  end.

(** [JSON.parse] on a text without insignificant white space; [None] for a
    syntax error and for a text outside this fragment. *)
Definition JSON_parse (text : string) : option value :=
  match parse_value (S (String.length text)) text with
  | Some (v, EmptyString) => Some v
  | _ => None
  end.

(** Values that JSON represents: no [undefined] and no [Error] instance,
    at any depth. *)
Fixpoint json_clean (v : value) : bool :=
  match v with
  | VUndefined => false
  | VError _ _ _ => false
  | VArr xs => forallb json_clean xs
  | VObj props => forallb (fun kx => json_clean (snd kx)) props
  | _ => true
  end.

(** The compact text of an array element ([undefined] prints as [null]). *)
Definition elem_text (x : value) : string :=
  match serialize "" "" x with
  | Some s => s
  | None => "null"
  end.

(** The compact text of an object member. *)
Definition member_text (kx : string * value) : string :=
  QuoteJSONString (fst kx) ++ String ":" (elem_text (snd kx)).

(** Numerals without superfluous zeros: 0, or a first digit that is not 0. *)
Definition canonical (u : uint) : Prop :=
  u = D0 Nil \/ (nzhead u = u /\ u <> Nil).

(** What parsing the text of [v] must give, whatever follows it. *)
Definition parses (v : value) : Prop :=
  forall rest fuel,
    number_end rest = true ->
    String.length (elem_text v) < fuel ->
    parse_value fuel (elem_text v ++ rest) = Some (v, rest).

End JSONParse.

(* ================================================================== *)
(** * Vocabulary of the statements *)
(* ================================================================== *)

(** The configuration is absent, empty or blank. *)
Definition unset (trim : string -> string) (envValue : option string) : bool :=
  match envValue with
  | None => true
  | Some env => String.eqb env "" || String.eqb (trim env) ""
  end.

Definition env_text (envValue : option string) : string :=
  match envValue with
  | Some env => env
  | None => ""
  end.

(** The tokens of the configuration that belong to [vocabulary], after
    splitting on commas, trimming, lowercasing and dropping the empty ones. *)
Definition valid_tokens (trim toLowerCase : string -> string)
    (vocabulary : list Toolset) (envValue : option string) : list Toolset :=
  filter (fun t => JS.includes vocabulary t)
    (filter (fun t => Nat.ltb 0 (String.length t))
       (map (fun t => toLowerCase (trim t))
            (JS.split "," (env_text envValue)))).

(** The declared membership of [tool] meets the active set. *)
Definition intersects {Schema : Type} (tool : ToolHelpers.MCPTool Schema)
    (active : list Toolset) : Prop :=
  exists ts t, ToolHelpers.toolsets tool = Some ts /\ In t ts /\ In t active.

(** The body the error branch of [request] reads: the parsed body, or [{}]
    when [response.json()] rejects. *)
Definition error_body (response : Effects.Response) : JS.value :=
  match Effects.json response with
  | JS.Normal v => v
  | JS.Throw _ => JS.VObj []
  end.

(** The keys [buildQueryString] knows, in the order it appends them. *)
Definition query_keys : list string :=
  ["fields"; "filter"; "search"; "sort"; "limit"; "offset"; "page";
   "aggregate"; "groupBy"; "deep"; "meta"; "export"].

Definition numeric_keys : list string := ["limit"; "offset"; "page"].

Definition list_keys : list string := ["fields"; "sort"; "groupBy"].

Definition json_keys : list string := ["filter"; "aggregate"; "deep"].

Definition truthy_keys : list string :=
  ["fields"; "filter"; "search"; "sort"; "aggregate"; "groupBy"; "deep";
   "meta"; "export"].

(** The presence test [buildQueryString] applies to key [k]. *)
Definition emitted (params : JS.value) (k : string) : bool :=
  if JS.includes numeric_keys k then Client.is_defined (JS.get params k)
  else JS.truthy (JS.get params k).

(** The text [buildQueryString] appends for key [k]. *)
Definition rendered (params : JS.value) (k : string) : string :=
  if JS.includes list_keys k then Client.comma_joined (JS.get params k)
  else if JS.includes json_keys k then Client.json_text (JS.get params k)
  else JS.to_string (JS.get params k).

(** The round trip with plain percent-decoding: the parsed-back keys are
    those of the bag, and each array-valued key carries its comma-joined
    elements. *)
Definition percent_round_trip (bag : list (string * JS.value)) : Prop :=
  exists q pairs,
    Client.buildQueryString (JS.VObj bag) = JS.Normal q
    /\ QueryParsing.parse_query QueryParsing.percent_decode q = Some pairs
    /\ (forall k, In k (map fst pairs) <-> In k (map fst bag))
    /\ (forall k xs, In k list_keys -> JS.assoc k bag = JS.VArr xs ->
                     In (k, JS.array_join xs) pairs).

(** The text of an action tool computed from the arguments as they were
    before the inner handler ran. *)
Definition message_of_original_arguments {Schema : Type}
    (cfg : ToolHelpers.ActionToolConfig Schema)
    (client : Client.DirectusClient) (args : Effects.ref)
    (w : Effects.World) : Prop :=
  forall v w1,
    ToolHelpers.act_handler cfg client args w = (JS.Normal v, w1) ->
    fst (ToolHelpers.handler (ToolHelpers.createActionTool cfg) client args w)
    = JS.Normal
        (ToolHelpers.text_content
           (JS.VStr (ToolHelpers.act_successMessage cfg
                       (nth args (Effects.heap w) JS.VUndefined)))).
(* ================================================================== *)
(** * Concrete inputs used below *)
(* ================================================================== *)

Module Demo.
Import JS Effects Client ToolHelpers.

(** The host's [new URL(text)] on the texts used below: a text with an
    [http://] or [https://] prefix followed by a host name is an absolute
    URL, a text without a scheme is not (the instance decides by the
    prefix alone). *)
Definition new_URL (text : string) : Completion unit :=
  if String.prefix "http://" text || String.prefix "https://" text
  then Normal tt
  else Throw (VError "TypeError" "Invalid URL" []).


Definition token_config : DirectusConfig :=
  mkConfig "https://directus.example.com/" (Some "test-token") None None.

Definition login_config : DirectusConfig :=
  mkConfig "https://directus.example.com" None (Some "test@example.com")
    (Some "test-password").


Definition token_client : DirectusClient :=
  mkClient token_config "https://directus.example.com"
    [("Authorization", "Bearer test-token")]
    (SdkStaticToken "https://directus.example.com/" "test-token").

(** HTTP 404 with body [{errors: [{message: 'Not found'}]}]. *)
Definition not_found : Response :=
  mkResponse false 404 "Not Found"
    (Normal (VObj [("errors", VArr [VObj [("message", VStr "Not found")]])])).

(** HTTP 204, whose [json()] rejects: there is no body to parse. *)
Definition no_content : Response :=
  mkResponse true 204 "No Content"
    (Throw (VError "SyntaxError" "Unexpected end of JSON input" [])).

Definition mock (outcome : Completion Response) : World :=
  mkWorld [outcome] [] [].

(** Tool [X] with toolsets [default, schema], tool [Y] with [default]. *)
Definition idle : Handler := fun _ _ => ret VUndefined.

Definition toolX : MCPTool unit :=
  mkMCPTool (Schema := unit) "X" "tool X" tt (Some ["default"; "schema"]) idle.


(** A data tool whose handler resolves to [{id: 1, name: 'Test Item'}]. *)
Definition get_test : ToolConfig unit :=
  mkToolConfig "get_test" "Get test data" tt (Some ["default"])
    (fun _ _ => ret (VObj [("id", VNum 1); ("name", VStr "Test Item")])).

Definition deleted_message (args : value) : string :=
  "Deleted item " ++ to_string (get args "id").

(** An action tool whose handler leaves its arguments alone. *)
Definition delete_tool : ActionToolConfig unit :=
  mkActionToolConfig "delete_tool" "Delete an item" tt
    (Some ["default"]) idle deleted_message.

(** An action tool whose handler fails. *)
Definition error_tool : ActionToolConfig unit :=
  mkActionToolConfig "error_tool" "Error tool" tt (Some ["default"])
    (fun _ _ => throw (new_Error "Handler failed")) deleted_message.

(** An action tool whose handler assigns [args.id = 2] before it
    resolves. *)
Definition renumbering_tool : ActionToolConfig unit :=
  mkActionToolConfig "renumber" "Renumber an item" tt
    (Some ["default"])
    (fun _ args =>
       (current <- read args ;;
        _ <- write args (VObj [("id", VNum 2)]) ;;
        ret VUndefined)%js)
    deleted_message.

(** A world whose heap holds the argument object [{id: 1}] at address 0. *)
Definition with_args : World := mkWorld [] [VObj [("id", VNum 1)]] [].
(** The bag [{fields: ['id', 'title'], limit: 10,
    filter: {status: {_eq: 'published'}}}]. *)
Definition published_titles : list (string * value) :=
  [("fields", VArr [VStr "id"; VStr "title"]);
   ("limit", VNum 10);
   ("filter", VObj [("status", VObj [("_eq", VStr "published")])])].

(** The bag [{fields: [], limit: 0, search: ''}]. *)
Definition zero_limit : list (string * value) :=
  [("fields", VArr []); ("limit", VNum 0); ("search", VStr "")].
End Demo.

(* ================================================================== *)
(** * directus-client.ts: the resource factory and the client's methods *)
(* ================================================================== *)

Module Resources.
Import JS Effects Client.

(** A method of a resource object, [(client, ...args) => Promise<any>].
    A parameter for which no argument was passed reads as [undefined]. *)
Definition Method : Type := DirectusClient -> list value -> M value.

Definition arg (n : nat) (args : list value) : value := nth n args VUndefined.

(** A resource object: its own properties in enumeration order. *)
Definition Resource : Type := list (string * Method).

(** Defining a property of an object literal: a key that is already there
    keeps its place and takes the new value. *)
Fixpoint define (k : string) (m : Method) (o : Resource) : Resource :=
  match o with
  | [] => [(k, m)]
  | (k', m') :: rest =>
      if String.eqb k k' then (k, m) :: rest
      else (k', m') :: define k m rest
  end.

(** [{ ...o, ...extra }] *)
Definition spread (o extra : Resource) : Resource :=
  fold_left (fun acc km => define (fst km) (snd km) acc) extra o.

Fixpoint lookup (k : string) (o : Resource) : option Method :=
  match o with
  | [] => None
  | (k', m) :: rest => if String.eqb k k' then Some m else lookup k rest
  end.

(** [o.k(client, ...args)] *)
Definition invoke (o : Resource) (k : string) (client : DirectusClient)
    (args : list value) : M value :=
  match lookup k o with
  | Some m => m client args
  | None => throw (TypeError (k ++ " is not a function"))
  end.

(** [params ? client.buildQueryString(params) : ''] *)
Definition queryString (params : value) : M string :=
  if truthy params then lift (buildQueryString params) else ret "".

(** The [options] argument of [createResourceMethods]; an absent property
    is [None]. *)
Record ResourceOptions : Type := mkOptions {
  supportsBulk : option bool;
  specialMethods : option Resource
}.

Definition no_options : ResourceOptions := mkOptions None None.

Definition normalizedBasePath (basePath : string) : string :=
  if String.prefix "/" basePath then basePath else "/" ++ basePath.

Definition standardMethods (base : string) : Resource :=
  [("list", fun client args =>
      (qs <- queryString (arg 0 args) ;;
       request client "GET" (base ++ qs) VUndefined)%js);
   ("get", fun client args =>
      (qs <- queryString (arg 1 args) ;;
       request client "GET" (base ++ "/" ++ to_string (arg 0 args) ++ qs)
         VUndefined)%js);
   ("create", fun client args => request client "POST" base (arg 0 args));
   ("update", fun client args =>
      request client "PATCH" (base ++ "/" ++ to_string (arg 0 args))
        (arg 1 args));
   ("delete", fun client args =>
      request client "DELETE" (base ++ "/" ++ to_string (arg 0 args))
        VUndefined)].

Definition bulkMethods (base : string) : Resource :=
  [("bulkCreate", fun client args => request client "POST" base (arg 0 args));
   ("bulkUpdate", fun client args =>
      request client "PATCH" base (arg 0 args));
   ("bulkDelete", fun client args =>
      request client "DELETE" base (arg 0 args))].

(** [createResourceMethods(basePath, options)] *)
Definition createResourceMethods (basePath : string)
    (options : ResourceOptions) : Resource :=
  let bulk := match supportsBulk options with
              | Some b => b
              | None => false
              end in
  let special := match specialMethods options with
                 | Some o => o
                 | None => []
                 end in
  let base := normalizedBasePath basePath in
  spread
    (spread (standardMethods base) (if bulk then bulkMethods base else []))
    (map (fun entry =>
            (fst entry, fun client args => snd entry client args))
         special).

(** The resource objects of the class. *)
Definition collections : Resource :=
  createResourceMethods "collections" no_options.

Definition relations : Resource :=
  createResourceMethods "relations" no_options.

Definition items : Resource :=
  createResourceMethods ""
    (mkOptions (Some true) (Some
      [("query", fun client args =>
          (qs <- queryString (arg 1 args) ;;
           request client "GET" ("/items/" ++ to_string (arg 0 args) ++ qs)
             VUndefined)%js);
       ("get", fun client args =>
          (qs <- queryString (arg 2 args) ;;
           request client "GET"
             ("/items/" ++ to_string (arg 0 args) ++ "/"
              ++ to_string (arg 1 args) ++ qs) VUndefined)%js);
       ("create", fun client args =>
          request client "POST" ("/items/" ++ to_string (arg 0 args))
            (arg 1 args));
       ("update", fun client args =>
          request client "PATCH"
            ("/items/" ++ to_string (arg 0 args) ++ "/"
             ++ to_string (arg 1 args)) (arg 2 args));
       ("delete", fun client args =>
          request client "DELETE"
            ("/items/" ++ to_string (arg 0 args) ++ "/"
             ++ to_string (arg 1 args)) VUndefined);
       ("bulkCreate", fun client args =>
          request client "POST" ("/items/" ++ to_string (arg 0 args))
            (arg 1 args));
       ("bulkUpdate", fun client args =>
          request client "PATCH" ("/items/" ++ to_string (arg 0 args))
            (arg 1 args));
       ("bulkDelete", fun client args =>
          request client "DELETE" ("/items/" ++ to_string (arg 0 args))
            (arg 1 args))])).

(** The [triggerFlow] special method of the flows resource. *)
Definition flows_triggerFlow : Method :=
  fun client args =>
    (qs <- queryString (arg 3 args) ;;
     let endpoint := "/flows/trigger/" ++ to_string (arg 1 args) ++ qs in
     match arg 0 args with
     | VStr "POST" => request client "POST" endpoint (arg 2 args)
     | _ => request client "GET" endpoint VUndefined
     end)%js.

Definition flows : Resource :=
  createResourceMethods "flows"
    (mkOptions (Some true) (Some
      [("list", fun client args =>
          (qs <- queryString (arg 0 args) ;;
           request client "GET" ("/flows" ++ qs) VUndefined)%js);
       ("get", fun client args =>
          (qs <- queryString (arg 1 args) ;;
           request client "GET" ("/flows/" ++ to_string (arg 0 args) ++ qs)
             VUndefined)%js);
       ("create", fun client args => request client "POST" "/flows"
                                       (arg 0 args));
       ("createFlows", fun client args => request client "POST" "/flows"
                                            (arg 0 args));
       ("update", fun client args =>
          request client "PATCH" ("/flows/" ++ to_string (arg 0 args))
            (arg 1 args));
       ("updateFlows", fun client args => request client "PATCH" "/flows"
                                            (arg 0 args));
       ("delete", fun client args =>
          request client "DELETE" ("/flows/" ++ to_string (arg 0 args))
            VUndefined);
       ("deleteFlows", fun client args => request client "DELETE" "/flows"
                                            (arg 0 args));
       ("triggerFlow", flows_triggerFlow)])).

Definition operations : Resource :=
  createResourceMethods "operations"
    (mkOptions (Some true) (Some
      [("list", fun client args =>
          (qs <- queryString (arg 0 args) ;;
           request client "GET" ("/operations" ++ qs) VUndefined)%js);
       ("get", fun client args =>
          (qs <- queryString (arg 1 args) ;;
           request client "GET"
             ("/operations/" ++ to_string (arg 0 args) ++ qs)
             VUndefined)%js);
       ("create", fun client args => request client "POST" "/operations"
                                       (arg 0 args));
       ("createOperations", fun client args =>
          request client "POST" "/operations" (arg 0 args));
       ("update", fun client args =>
          request client "PATCH" ("/operations/" ++ to_string (arg 0 args))
            (arg 1 args));
       ("updateOperations", fun client args =>
          request client "PATCH" "/operations" (arg 0 args));
       ("delete", fun client args =>
          request client "DELETE" ("/operations/" ++ to_string (arg 0 args))
            VUndefined);
       ("deleteOperations", fun client args =>
          request client "DELETE" "/operations" (arg 0 args))])).

(** The public methods of [DirectusClient]; an omitted optional argument
    is passed as [VUndefined]. *)
Section Methods.
Variable this : DirectusClient.

Definition getCollections : M value := invoke collections "list" this [].

Definition getCollection (name : value) : M value :=
  invoke collections "get" this [name].

Definition createCollection (data : value) : M value :=
  invoke collections "create" this [data].

Definition updateCollection (name data : value) : M value :=
  invoke collections "update" this [name; data].

Definition deleteCollection (name : value) : M value :=
  invoke collections "delete" this [name].

Definition getFields (collection : value) : M value :=
  request this "GET" ("/fields/" ++ to_string collection) VUndefined.

Definition getField (collection field : value) : M value :=
  request this "GET"
    ("/fields/" ++ to_string collection ++ "/" ++ to_string field) VUndefined.

Definition createField (collection data : value) : M value :=
  request this "POST" ("/fields/" ++ to_string collection) data.

Definition updateField (collection field data : value) : M value :=
  request this "PATCH"
    ("/fields/" ++ to_string collection ++ "/" ++ to_string field) data.

Definition deleteField (collection field : value) : M value :=
  request this "DELETE"
    ("/fields/" ++ to_string collection ++ "/" ++ to_string field) VUndefined.

Definition getRelations : M value := invoke relations "list" this [].

Definition getRelation (id : value) : M value :=
  invoke relations "get" this [id].

Definition createRelation (data : value) : M value :=
  invoke relations "create" this [data].

Definition updateRelation (id data : value) : M value :=
  invoke relations "update" this [id; data].

Definition deleteRelation (id : value) : M value :=
  invoke relations "delete" this [id].

Definition getSchemaSnapshot (params : value) : M value :=
  (qs <- queryString params ;;
   request this "GET" ("/schema/snapshot" ++ qs) VUndefined)%js.


Definition applySchemaDiff (diff : value) : M value :=
  request this "POST" "/schema/apply" diff.

Definition queryItems (collection params : value) : M value :=
  invoke items "query" this [collection; params].

Definition getItem (collection id params : value) : M value :=
  invoke items "get" this [collection; id; params].

Definition createItem (collection data : value) : M value :=
  invoke items "create" this [collection; data].

Definition updateItem (collection id data : value) : M value :=
  invoke items "update" this [collection; id; data].

Definition deleteItem (collection id : value) : M value :=
  invoke items "delete" this [collection; id].

Definition bulkCreateItems (collection items' : value) : M value :=
  invoke items "bulkCreate" this [collection; items'].

Definition bulkUpdateItems (collection items' : value) : M value :=
  invoke items "bulkUpdate" this [collection; items'].

Definition bulkDeleteItems (collection ids : value) : M value :=
  invoke items "bulkDelete" this [collection; ids].

Definition listFlows (params : value) : M value :=
  invoke flows "list" this [params].

Definition getFlow (id params : value) : M value :=
  invoke flows "get" this [id; params].

Definition createFlow (data : value) : M value :=
  invoke flows "create" this [data].

Definition createFlows (flows' : value) : M value :=
  invoke flows "createFlows" this [flows'].

Definition updateFlow (id data : value) : M value :=
  invoke flows "update" this [id; data].

Definition updateFlows (flows' : value) : M value :=
  invoke flows "updateFlows" this [flows'].

Definition deleteFlow (id : value) : M value :=
  invoke flows "delete" this [id].

Definition deleteFlows (ids : value) : M value :=
  invoke flows "deleteFlows" this [ids].

Definition triggerFlow (method' id bodyData queryParams : value) : M value :=
  invoke flows "triggerFlow" this [method'; id; bodyData; queryParams].

Definition listOperations (params : value) : M value :=
  invoke operations "list" this [params].

Definition getOperation (id params : value) : M value :=
  invoke operations "get" this [id; params].

Definition createOperation (data : value) : M value :=
  invoke operations "create" this [data].

Definition createOperations (operations' : value) : M value :=
  invoke operations "createOperations" this [operations'].

Definition updateOperation (id data : value) : M value :=
  invoke operations "update" this [id; data].

Definition updateOperations (operations' : value) : M value :=
  invoke operations "updateOperations" this [operations'].

Definition deleteOperation (id : value) : M value :=
  invoke operations "delete" this [id].

Definition deleteOperations (ids : value) : M value :=
  invoke operations "deleteOperations" this [ids].

End Methods.

(** [this.client.login(email, password)].  Only the client composed with
    [authentication('json')] has a [login] method; what the login exchange
    settles to is the SDK's business, given here as [login]. *)
Definition client_login (login : string -> string -> M unit)
    (sdk : SdkClient) (email' password' : string) : M unit :=
  match sdk with
  | SdkAuthentication _ _ => login email' password'
  | SdkStaticToken _ _ =>
      throw (TypeError "this.client.login is not a function")
  end.

(** [error instanceof Error ? error.message : String(error)] *)
Definition failure_text (error : value) : string :=
  match error with
  | VError _ message _ => message
  | _ => to_string error
  end.

(** [authenticate()] *)
Definition authenticate (login : string -> string -> M unit)
    (this : DirectusClient) : M unit :=
  if supplied (email (config this)) && supplied (password (config this))
  then
    try_catch
      (client_login login (client this) (text_of (email (config this)))
         (text_of (password (config this))))
      (fun error =>
         throw (new_Error ("Authentication failed: " ++ failure_text error)))
  else ret tt.

(** [createDirectusClient(config)] *)
Definition createDirectusClient (new_URL : string -> Completion unit)
    (login : string -> string -> M unit) (cfg : DirectusConfig)
  : M DirectusClient :=
  (client <- new_DirectusClient new_URL cfg ;;
   _ <- authenticate login client ;;
   ret client)%js.

End Resources.

(* ================================================================== *)
(** * directus-client.ts before the resource factory was introduced *)
(* ================================================================== *)

(** The methods of the earlier revision of the class, which call
    [this.request] directly. *)
Module Legacy.
Import JS Effects Client.

(** The [queryParams] of the earlier [buildQueryString] after its eleven
    guarded [append]s: this revision does not know the [export] key. *)
Definition collect (params : value) : URLSearchParams :=
  let p := get params in
  let qp : URLSearchParams := [] in
  let qp := append_if (truthy (p "fields")) "fields"
                      (comma_joined (p "fields")) qp in
  let qp := append_if (truthy (p "filter")) "filter"
                      (json_text (p "filter")) qp in
  let qp := append_if (truthy (p "search")) "search"
                      (to_string (p "search")) qp in
  let qp := append_if (truthy (p "sort")) "sort"
                      (comma_joined (p "sort")) qp in
  let qp := append_if (is_defined (p "limit")) "limit"
                      (to_string (p "limit")) qp in
  let qp := append_if (is_defined (p "offset")) "offset"
                      (to_string (p "offset")) qp in
  let qp := append_if (is_defined (p "page")) "page"
                      (to_string (p "page")) qp in
  let qp := append_if (truthy (p "aggregate")) "aggregate"
                      (json_text (p "aggregate")) qp in
  let qp := append_if (truthy (p "groupBy")) "groupBy"
                      (comma_joined (p "groupBy")) qp in
  let qp := append_if (truthy (p "deep")) "deep"
                      (json_text (p "deep")) qp in
  append_if (truthy (p "meta")) "meta" (to_string (p "meta")) qp.

(** [buildQueryString(params)] of the earlier revision. *)
Definition buildQueryString (params : value) : Completion string :=
  if nullish params
  then Throw (TypeError ("Cannot read properties of " ++ to_string params
                         ++ " (reading 'fields')"))
  else
    let query := URLSearchParams_toString (collect params) in
    Normal (if negb (String.eqb query "") then "?" ++ query else "").

Section Methods.
Variable this : DirectusClient.

(** [params ? this.buildQueryString(params) : ''] *)
Definition queryString (params : value) : M string :=
  if truthy params then lift (buildQueryString params) else ret "".

Definition getCollections : M value :=
  request this "GET" "/collections" VUndefined.

Definition getCollection (name : value) : M value :=
  request this "GET" ("/collections/" ++ to_string name) VUndefined.

Definition createCollection (data : value) : M value :=
  request this "POST" "/collections" data.

Definition updateCollection (name data : value) : M value :=
  request this "PATCH" ("/collections/" ++ to_string name) data.

Definition deleteCollection (name : value) : M value :=
  request this "DELETE" ("/collections/" ++ to_string name) VUndefined.

Definition getFields (collection : value) : M value :=
  request this "GET" ("/fields/" ++ to_string collection) VUndefined.

Definition getField (collection field : value) : M value :=
  request this "GET"
    ("/fields/" ++ to_string collection ++ "/" ++ to_string field) VUndefined.

Definition createField (collection data : value) : M value :=
  request this "POST" ("/fields/" ++ to_string collection) data.

Definition updateField (collection field data : value) : M value :=
  request this "PATCH"
    ("/fields/" ++ to_string collection ++ "/" ++ to_string field) data.

Definition deleteField (collection field : value) : M value :=
  request this "DELETE"
    ("/fields/" ++ to_string collection ++ "/" ++ to_string field) VUndefined.

Definition getRelations : M value :=
  request this "GET" "/relations" VUndefined.

Definition getRelation (id : value) : M value :=
  request this "GET" ("/relations/" ++ to_string id) VUndefined.

Definition createRelation (data : value) : M value :=
  request this "POST" "/relations" data.

Definition updateRelation (id data : value) : M value :=
  request this "PATCH" ("/relations/" ++ to_string id) data.

Definition deleteRelation (id : value) : M value :=
  request this "DELETE" ("/relations/" ++ to_string id) VUndefined.

Definition getSchemaSnapshot : M value :=
  request this "GET" "/schema/snapshot" VUndefined.

Definition queryItems (collection params : value) : M value :=
  (qs <- queryString params ;;
   request this "GET" ("/items/" ++ to_string collection ++ qs)
     VUndefined)%js.

Definition getItem (collection id params : value) : M value :=
  (qs <- queryString params ;;
   request this "GET"
     ("/items/" ++ to_string collection ++ "/" ++ to_string id ++ qs)
     VUndefined)%js.

Definition createItem (collection data : value) : M value :=
  request this "POST" ("/items/" ++ to_string collection) data.

Definition updateItem (collection id data : value) : M value :=
  request this "PATCH"
    ("/items/" ++ to_string collection ++ "/" ++ to_string id) data.

Definition deleteItem (collection id : value) : M value :=
  request this "DELETE"
    ("/items/" ++ to_string collection ++ "/" ++ to_string id) VUndefined.

Definition bulkCreateItems (collection items : value) : M value :=
  request this "POST" ("/items/" ++ to_string collection) items.

Definition bulkUpdateItems (collection items : value) : M value :=
  request this "PATCH" ("/items/" ++ to_string collection) items.

Definition bulkDeleteItems (collection ids : value) : M value :=
  request this "DELETE" ("/items/" ++ to_string collection) ids.

Definition listFlows (params : value) : M value :=
  (qs <- queryString params ;;
   request this "GET" ("/flows" ++ qs) VUndefined)%js.

Definition getFlow (id params : value) : M value :=
  (qs <- queryString params ;;
   request this "GET" ("/flows/" ++ to_string id ++ qs) VUndefined)%js.

Definition createFlow (data : value) : M value :=
  request this "POST" "/flows" data.

Definition createFlows (flows : value) : M value :=
  request this "POST" "/flows" flows.

Definition updateFlow (id data : value) : M value :=
  request this "PATCH" ("/flows/" ++ to_string id) data.

Definition updateFlows (flows : value) : M value :=
  request this "PATCH" "/flows" flows.

Definition deleteFlow (id : value) : M value :=
  request this "DELETE" ("/flows/" ++ to_string id) VUndefined.

Definition deleteFlows (ids : value) : M value :=
  request this "DELETE" "/flows" ids.

Definition triggerFlow (method' id bodyData queryParams : value) : M value :=
  (qs <- queryString queryParams ;;
   let endpoint := "/flows/trigger/" ++ to_string id ++ qs in
   match method' with
   | VStr "POST" => request this "POST" endpoint bodyData
   | _ => request this "GET" endpoint VUndefined
   end)%js.

End Methods.
End Legacy.

(* ================================================================== *)
(** * index.ts: the tool listing and the tool call handler *)
(* ================================================================== *)

Module Server.
Import JS Effects Client ToolHelpers.

(** What the server reads of a zod schema object: [_def.typeName],
    [description], [_def.innerType] (the wrapped schema of a
    [ZodOptional]), [_def.options] (the alternatives of a [ZodUnion], [[]]
    for the other kinds) and [shape] (the entries of a [ZodObject], in
    enumeration order; [None] for the other kinds). *)
Inductive Zod : Type :=
  mkZod (typeName : string) (description : option string)
        (innerType : option Zod) (options : list Zod)
        (shape : option (list (string * Zod))).

Definition typeName (z : Zod) : string :=
  match z with mkZod t _ _ _ _ => t end.

Definition description (z : Zod) : option string :=
  match z with mkZod _ d _ _ _ => d end.

Definition innerType (z : Zod) : option Zod :=
  match z with mkZod _ _ i _ _ => i end.

Definition options (z : Zod) : list Zod :=
  match z with mkZod _ _ _ o _ => o end.

Definition shape (z : Zod) : option (list (string * Zod)) :=
  match z with mkZod _ _ _ _ s => s end.

(** Reading [zodSchema._def] of [undefined]. *)
Definition no_schema : value :=
  TypeError "Cannot read properties of undefined (reading '_def')".

(** [getZodType(zodSchema)] *)
Fixpoint getZodType (zodSchema : Zod) : Completion string :=
  match zodSchema with
  | mkZod typeName _ innerType options _ =>
      if String.eqb typeName "ZodString" then Normal "string"
      else if String.eqb typeName "ZodNumber" then Normal "number"
      else if String.eqb typeName "ZodBoolean" then Normal "boolean"
      else if String.eqb typeName "ZodArray" then Normal "array"
      else if String.eqb typeName "ZodObject" then Normal "object"
      else if String.eqb typeName "ZodOptional" then
        match innerType with
        | Some inner => getZodType inner
        | None => Throw no_schema
        end
      else if String.eqb typeName "ZodUnion" then
        match options with
        | first :: _ => getZodType first
        | [] => Throw no_schema
        end
      else if String.eqb typeName "ZodRecord" then Normal "object"
      else Normal "string"
  end.

(** [{ type: getZodType(value), description: value.description || '' }] *)
Definition property_schema (value' : Zod) : Completion value :=
  match getZodType value' with
  | Normal type =>
      Normal (VObj [("type", VStr type);
                    ("description",
                     VStr match description value' with
                          | Some d => d
                          | None => ""
                          end)])
  | Throw e => Throw e
  end.

(** [Object.entries(shape).reduce((acc, [key, value]) => { acc[key] = ...;
    return acc }, {})] *)
Fixpoint properties (entries : list (string * Zod))
  : Completion (list (string * value)) :=
  match entries with
  | [] => Normal []
  | (key, value') :: rest =>
      match property_schema value' with
      | Throw e => Throw e
      | Normal p =>
          match properties rest with
          | Throw e => Throw e
          | Normal ps => Normal ((key, p) :: ps)
          end
      end
  end.

(** [Object.entries(shape)
       .filter(([_, value]) => value._def?.typeName !== 'ZodOptional')
       .map(([key]) => key)] *)
Definition required (entries : list (string * Zod)) : list string :=
  map fst
    (filter (fun entry => negb (String.eqb (typeName (snd entry))
                                           "ZodOptional"))
            entries).

(** One element of the [tools] array of the listing. *)
Definition tool_entry (tool : MCPTool Zod) : Completion value :=
  match
    match shape (inputSchema tool) with
    | Some entries => properties entries
    | None => Normal []
    end
  with
  | Throw e => Throw e
  | Normal props =>
      Normal
        (VObj [("name", VStr (name tool));
               ("description", VStr (ToolHelpers.description tool));
               ("inputSchema",
                VObj [("type", VStr "object");
                      ("properties", VObj props);
                      ("required",
                       VArr (map VStr
                               match shape (inputSchema tool) with
                               | Some entries => required entries
                               | None => []
                               end))])])
  end.

Fixpoint tool_entries (tools : list (MCPTool Zod))
  : Completion (list value) :=
  match tools with
  | [] => Normal []
  | tool :: rest =>
      match tool_entry tool with
      | Throw e => Throw e
      | Normal entry =>
          match tool_entries rest with
          | Throw e => Throw e
          | Normal entries => Normal (entry :: entries)
          end
      end
  end.

(** A fresh object: its reference is the next free address of the heap. *)
Definition alloc (v : value) : M ref :=
  fun w => (Normal (List.length (heap w)),
            mkWorld (transport w) (heap w ++ [v])%list (trace w)).

(** [tools.find(t => t.name === name)] *)
Definition find_tool (tools : list (MCPTool Zod)) (name' : string)
  : option (MCPTool Zod) :=
  find (fun t => String.eqb (name t) name') tools.

(** [error.errors.map(e => e.message)] *)
Fixpoint messages (issues : list value) : Completion (list value) :=
  match issues with
  | [] => Normal []
  | e :: rest =>
      match get_strict e "message" with
      | Throw err => Throw err
      | Normal m =>
          match messages rest with
          | Throw err => Throw err
          | Normal ms => Normal (m :: ms)
          end
      end
  end.

(** [xs.join(', ')]: [undefined] and [null] elements give the empty
    string. *)
Definition join_values (sep : string) (xs : list value) : string :=
  join sep (map (fun x => if nullish x then "" else to_string x) xs).

(** The [catch (error)] block of the call handler. *)
Definition call_catch (error : value) : M value :=
  (name' <- lift (get_strict error "name") ;;
   match name' with
   | VStr "ZodError" =>
       match get error "errors" with
       | VArr issues =>
           (ms <- lift (messages issues) ;;
            throw (new_Error ("Invalid arguments: " ++ join_values ", " ms)))
       | VUndefined | VNull =>
           throw (TypeError
                    ("Cannot read properties of "
                     ++ to_string (get error "errors") ++ " (reading 'map')"))
       | _ => throw (TypeError "error.errors.map is not a function")
       end
   | _ =>
       throw (new_Error ("Tool execution failed: "
                         ++ to_string (get error "message")))
   end)%js.

Section Handlers.
(** [schema.parse(args)] of zod: the validated arguments, or a thrown
    [ZodError]. *)
Variable parse : Zod -> value -> Completion value.
Variable allTools : list (MCPTool Zod).
Variable enabledToolsets : list Toolset.
Variable directusClient : DirectusClient.

Definition enabledTools : list (MCPTool Zod) :=
  Index.filterToolsByToolsets allTools enabledToolsets.

(** The handler of [ListToolsRequestSchema]. *)
Definition listTools : M value :=
  (entries <- lift (tool_entries enabledTools) ;;
   ret (VObj [("tools", VArr entries)]))%js.

Definition not_available (name' : string) (declared : list Toolset)
  : string :=
  "Tool " ++ dqs ++ name' ++ dqs
  ++ " is not available. It belongs to toolsets: " ++ join ", " declared
  ++ ". Enabled toolsets: " ++ join ", " enabledToolsets.

(** The handler of [CallToolRequestSchema], for
    [request.params = { name, arguments: args }]. *)
Definition callTool (name' : string) (args : value) : M value :=
  match find_tool enabledTools name' with
  | None =>
      match find_tool allTools name' with
      | Some toolExists =>
          match toolsets toolExists with
          | Some declared => throw (new_Error (not_available name' declared))
          | None => throw (new_Error ("Tool not found: " ++ name'))
          end
      | None => throw (new_Error ("Tool not found: " ++ name'))
      end
  | Some tool =>
      try_catch
        (validatedArgs <- lift (parse (inputSchema tool) args) ;;
         arguments <- alloc validatedArgs ;;
         handler tool directusClient arguments)%js
        call_catch
  end.
End Handlers.

End Server.

(* ================================================================== *)
(** * tools/schema-tools.ts and tools/flow-tools.ts: handlers with logic *)
(* ================================================================== *)

Module Tools.
Import JS Effects Client ToolHelpers Resources.

(** Assigning [o[k] = v] on the properties of a plain object: an existing
    key keeps its place. *)
Fixpoint put (k : string) (v : value) (props : list (string * value))
  : list (string * value) :=
  match props with
  | [] => [(k, v)]
  | (k', v') :: rest =>
      if String.eqb k k' then (k, v) :: rest
      else (k', v') :: put k v rest
  end.

(** [target.k = v] in strict-mode code, for a [target] that is a plain
    object or a primitive (assignment to a property of a primitive
    throws). *)
Definition assign (target : value) (k : string) (v : value)
  : Completion value :=
  match target with
  | VObj props => Normal (VObj (put k v props))
  | VUndefined | VNull =>
      Throw (TypeError ("Cannot set properties of " ++ to_string target
                        ++ " (setting '" ++ k ++ "')"))
  | _ => Throw (TypeError ("Cannot create property '" ++ k ++ "'"))
  end.

(** [a === b] where at most one side is an object just read from a
    response: two distinct objects are never strictly equal. *)
Definition strict_equals (a b : value) : bool :=
  match a, b with
  | VUndefined, VUndefined => true
  | VNull, VNull => true
  | VBool x, VBool y => Bool.eqb x y
  | VNum x, VNum y => Z.eqb x y
  | VStr x, VStr y => String.eqb x y
  | _, _ => false
  end.

(** The handler of [create_collection]:
    [if (!args.schema) args.schema = { name: args.collection };
     else if (!args.schema.name) args.schema.name = args.collection;
     return client.createCollection(args)]. *)
Definition create_collection : Handler :=
  fun client args =>
    (a <- read args ;;
     schema <- lift (get_strict a "schema") ;;
     _ <- (if negb (truthy schema)
           then
             (updated <- lift (assign a "schema"
                                 (VObj [("name", get a "collection")])) ;;
              write args updated)
           else if negb (truthy (get schema "name"))
           then
             (named <- lift (assign schema "name" (get a "collection")) ;;
              updated <- lift (assign a "schema" named) ;;
              write args updated)
           else ret tt) ;;
     current <- read args ;;
     createCollection client current)%js.

(** [relations.data?.find(r => r.collection === args.collection
                               && r.field === args.field)] on an array. *)
Fixpoint find_relation (a : value) (rs : list value) : Completion value :=
  match rs with
  | [] => Normal VUndefined
  | r :: rest =>
      match get_strict r "collection" with
      | Throw e => Throw e
      | Normal rc =>
          match get_strict a "collection" with
          | Throw e => Throw e
          | Normal ac =>
              if strict_equals rc ac
                 && strict_equals (get r "field") (get a "field")
              then Normal r
              else find_relation a rest
          end
      end
  end.

Definition relation_not_found (a : value) : Completion string :=
  match get_strict a "collection" with
  | Throw e => Throw e
  | Normal c =>
      Normal ("Relation not found for " ++ to_string c ++ "."
              ++ to_string (get a "field"))
  end.

(** The inner handler of [delete_relation]. *)
Definition delete_relation : Handler :=
  fun client args =>
    (relations <- getRelations client ;;
     a <- read args ;;
     data <- lift (get_strict relations "data") ;;
     relation <-
       match data with
       | VUndefined | VNull => ret VUndefined
       | VArr rs => lift (find_relation a rs)
       | _ => throw (TypeError "relations.data?.find is not a function")
       end ;;
     if negb (truthy relation)
     then
       (text <- lift (relation_not_found a) ;;
        throw (new_Error text))
     else
       deleteRelation client
         (or_else (get relation "id")
                  (opt_get (get relation "meta") "id")))%js.

(** [Relation for "<collection>.<field>" deleted successfully] *)
Definition delete_relation_message (a : value) : string :=
  "Relation for " ++ dqs ++ to_string (get a "collection") ++ "."
  ++ to_string (get a "field") ++ dqs ++ " deleted successfully".

Definition delete_relation_tool {Schema : Type} (schema : Schema)
  : MCPTool Schema :=
  createActionTool
    (mkActionToolConfig "delete_relation"
       "Delete a relation. Specify the collection and field that contains the relation."
       schema (Some ["default"; "relations"]) delete_relation
       delete_relation_message).

(** The handler of [get_schema_snapshot]:
    [params = args.export ? { export: args.export } : undefined]. *)
Definition get_schema_snapshot : Handler :=
  fun client args =>
    (a <- read args ;;
     export <- lift (get_strict a "export") ;;
     getSchemaSnapshot client
       (if truthy export then VObj [("export", export)] else VUndefined))%js.





End Tools.

(* ================================================================== *)
(** * More concrete inputs *)
(* ================================================================== *)

Module Samples.
Import JS Effects Client ToolHelpers Server.

Definition z_string (d : option string) : Zod :=
  mkZod "ZodString" d None [] None.

Definition z_number (d : option string) : Zod :=
  mkZod "ZodNumber" d None [] None.

Definition z_enum (d : option string) : Zod :=
  mkZod "ZodEnum" d None [] None.

Definition z_optional (inner : Zod) (d : option string) : Zod :=
  mkZod "ZodOptional" d (Some inner) [] None.

Definition z_default (inner : Zod) (d : option string) : Zod :=
  mkZod "ZodDefault" d (Some inner) [] None.

Definition z_object (entries : list (string * Zod)) : Zod :=
  mkZod "ZodObject" None None [] (Some entries).

(** [z.object({ id: z.string().describe('Flow ID'),
                method: z.enum(['GET', 'POST']).optional().default('GET'),
                limit: z.number().optional() })] *)
Definition trigger_schema : Zod :=
  z_object
    [("id", z_string (Some "Flow ID"));
     ("method", z_default (z_optional (z_enum None) None) None);
     ("limit", z_optional (z_number None) None)].

Definition respond (v : value) : Handler := fun _ _ => ret v.

Definition trigger_tool : MCPTool Zod :=
  mkMCPTool "trigger_flow" "Trigger a flow" trigger_schema
    (Some ["flow"]) (respond (VStr "triggered")).

Definition get_snapshot : MCPTool Zod :=
  mkMCPTool "get_schema_snapshot" "Get a schema snapshot" (z_object [])
    (Some ["schema"]) (respond (VStr "snapshot")).

Definition failing : MCPTool Zod :=
  mkMCPTool "failing" "Always fails" (z_object [])
    (Some ["default"])
    (fun client _ => Client.request client "GET" "/items/articles"
                       VUndefined).

Definition registry : list (MCPTool Zod) :=
  [trigger_tool; get_snapshot; failing].

(** A validator that accepts every argument object as it is. *)
Definition accept : Zod -> value -> Completion value := fun _ v => Normal v.

(** The issues zod reports for [{collection: 5}] against
    [z.object({collection: z.string(), field: z.string()})]. *)
Definition zod_issues : list value :=
  [VObj [("code", VStr "invalid_type"); ("expected", VStr "string");
         ("received", VStr "number"); ("path", VArr [VStr "collection"]);
         ("message", VStr "Expected string, received number")];
   VObj [("code", VStr "invalid_type"); ("expected", VStr "string");
         ("received", VStr "undefined"); ("path", VArr [VStr "field"]);
         ("message", VStr "Required")]].

(** The [ZodError] carrying them: its message is their JSON text, and
    [errors] reads its [issues]. *)
Definition zod_error : value :=
  VError "ZodError"
    (to_string (of_option (JSON_stringify_indent (VArr zod_issues) 2)))
    [("issues", VArr zod_issues); ("errors", VArr zod_issues)].

(** A validator that rejects with these two issues. *)
Definition reject : Zod -> value -> Completion value :=
  fun _ _ => Throw zod_error.


(** A login exchange that the server refuses with the SDK's error object
    (not an [Error] instance). *)
Definition refused : string -> string -> M unit :=
  fun _ _ => throw (VObj [("errors",
                           VArr [VObj [("message",
                                        VStr "Invalid user credentials.")]])]).

Definition accepted : string -> string -> M unit := fun _ _ => ret tt.

(** HTTP 200 whose body parses to [v]. *)
Definition ok_json (v : value) : Response :=
  mkResponse true 200 "OK" (Normal v).

(** The body [{data: [{collection: 'articles', field: 'author',
    meta: {id: 7}}, {id: 3, collection: 'articles', field: 'category'}]}]. *)
Definition relation_rows : value :=
  VObj [("data",
         VArr [VObj [("collection", VStr "articles");
                     ("field", VStr "author");
                     ("meta", VObj [("id", VNum 7)])];
               VObj [("id", VNum 3);
                     ("collection", VStr "articles");
                     ("field", VStr "category")]])].
End Samples.

(* ================================================================== *)
(** * More vocabulary of the statements *)
(* ================================================================== *)

(** What [request] adds to the trace after its [fetch] event: nothing, or
    the one call of [json()] on the response it received. *)
Definition exchange (w : Effects.World) (rest : list Effects.Event) : Prop :=
  rest = []
  \/ exists response later,
       Effects.transport w = JS.Normal response :: later
       /\ rest = [Effects.EvJson response].

(** The [fetch] calls recorded in a trace, oldest first. *)
Fixpoint fetches (events : list Effects.Event)
  : list (string * Effects.RequestInit) :=
  match events with
  | [] => []
  | Effects.EvFetch url options :: rest => (url, options) :: fetches rest
  | _ :: rest => fetches rest
  end.

(** The headers every request carries. *)
Definition json_headers : list (string * string) :=
  [("Content-Type", "application/json")].

(** The JSON Schema type names the listing uses. *)
Definition json_types : list string :=
  ["string"; "number"; "boolean"; "array"; "object"].

(** A schema as zod builds it: every [ZodOptional] wraps a schema and
    every [ZodUnion] has a first alternative, in the schema and in all its
    parts. *)
Fixpoint zod_built (z : Server.Zod) : bool :=
  match z with
  | Server.mkZod typeName _ innerType options shape =>
      (if String.eqb typeName "ZodOptional"
       then match innerType with Some _ => true | None => false end
       else true)
      && (if String.eqb typeName "ZodUnion"
          then match options with _ :: _ => true | [] => false end
          else true)
      && match innerType with Some inner => zod_built inner | None => true end
      && forallb zod_built options
      && match shape with
         | Some entries => forallb (fun entry => zod_built (snd entry)) entries
         | None => true
         end
  end.

(** Every character of [s] satisfies [p]. *)
Fixpoint every_char (p : ascii -> bool) (s : string) : bool :=
  match s with
  | EmptyString => true
  | String c rest => p c && every_char p rest
  end.

(** The characters of a rendered query string: the unreserved ones of the
    form encoding, the escapes' [%] and [+], and the separators. *)
Definition query_char (c : ascii) : bool :=
  JS.urlencoded_safe c
  || JS.includes ["%"; "+"; "="; "&"; "?"] (String c EmptyString).

(** The two bags agree on every key [buildQueryString] knows. *)
Definition same_query_keys (bag bag' : list (string * JS.value)) : Prop :=
  forall k, In k query_keys -> JS.assoc k bag = JS.assoc k bag'.

(** The callback of [delete_relation]: the relation [r] is the one of the
    arguments [a]. *)
Definition relation_of (a r : JS.value) : bool :=
  Tools.strict_equals (JS.get r "collection") (JS.get a "collection")
  && Tools.strict_equals (JS.get r "field") (JS.get a "field").

(** An element the callback can inspect and does not select. *)
Definition other_relation (a r : JS.value) : Prop :=
  JS.nullish r = false /\ relation_of a r = false.

(** A validation issue the [catch] block can read, with its message: an
    object (of any shape: zod's issues also carry [code], [path] and
    more) whose [message] is the string [text]. *)
Definition issue_message (issue : JS.value) (text : string) : Prop :=
  JS.nullish issue = false /\ JS.get issue "message" = JS.VStr text.
(* ================================================================== *)
(** * Properties of the toolset filter *)
(* ================================================================== *)

Section ToolsetFacts.
Import JS ToolHelpers.
Variable trim : string -> string.
Variable toLowerCase : string -> string.

Lemma valid_tokens_Index (env : string) :
  valid_tokens trim toLowerCase Index.validToolsets (Some env)
  = filter (fun t => includes Index.validToolsets t)
           (Index.requestedToolsets trim toLowerCase env).
Proof. reflexivity. Qed.

Lemma valid_tokens_IndexTest (env : string) :
  valid_tokens trim toLowerCase IndexTest.validToolsets (Some env)
  = filter (fun t => includes IndexTest.validToolsets t)
           (IndexTest.requestedToolsets trim toLowerCase env).
Proof. reflexivity. Qed.

(** [index.ts]: without a valid token the active set is [default]. *)
Lemma Index_parseToolsets_default (envValue : option string) :
  unset trim envValue = true \/ valid_tokens trim toLowerCase Index.validToolsets envValue = [] ->
  fst (Index.parseToolsets trim toLowerCase envValue) = ["default"].
Proof.
  intros H. destruct envValue as [env|]; [|reflexivity].
  unfold Index.parseToolsets. unfold unset in H.
  destruct (String.eqb env "" || String.eqb (trim env) "") eqn:E.
  - reflexivity.
  - destruct H as [H|H]; [discriminate|].
    rewrite valid_tokens_Index in H. cbv zeta. rewrite H. reflexivity.
Qed.

(** [index.ts]: otherwise the active set is the list of valid tokens, in
    the order of the configuration. *)
Lemma Index_parseToolsets_tokens (envValue : option string) :
  unset trim envValue = false ->
  valid_tokens trim toLowerCase Index.validToolsets envValue <> [] ->
  fst (Index.parseToolsets trim toLowerCase envValue)
  = valid_tokens trim toLowerCase Index.validToolsets envValue.
Proof.
  intros U V. destruct envValue as [env|]; [|discriminate].
  unfold Index.parseToolsets. unfold unset in U. rewrite U.
  rewrite valid_tokens_Index in *. cbv zeta.
  destruct (filter _ (Index.requestedToolsets trim toLowerCase env))
    as [|t ts] eqn:E.
  - contradiction.
  - reflexivity.
Qed.


(** [index.test.ts]: the copy of the parser splits, trims, lowercases,
    drops empty and unknown tokens; it answers [default] when no valid
    token remains, [all] alone when [all] is among the valid tokens, and
    the valid tokens otherwise. *)
Lemma IndexTest_parseToolsets_spec (envValue : option string) :
  let valid := valid_tokens trim toLowerCase IndexTest.validToolsets envValue in
  (unset trim envValue = true \/ valid = [] ->
   IndexTest.parseToolsets trim toLowerCase envValue = ["default"])
  /\ (unset trim envValue = false -> In "all" valid ->
      IndexTest.parseToolsets trim toLowerCase envValue = ["all"])
  /\ (unset trim envValue = false -> valid <> [] -> ~ In "all" valid ->
      IndexTest.parseToolsets trim toLowerCase envValue = valid).
Proof.
  destruct envValue as [env|]; cbv zeta.
  - rewrite valid_tokens_IndexTest. unfold IndexTest.parseToolsets, unset.
    destruct (String.eqb env "" || String.eqb (trim env) "") eqn:E.
    + repeat split; intros; try reflexivity; discriminate.
    + cbv zeta.
      set (valid := filter _ (IndexTest.requestedToolsets _ _ _)).
      repeat split.
      * intros [H|H]; [discriminate|]. rewrite H. reflexivity.
      * intros _ H.
        assert (I : includes valid "all" = true).
        { apply existsb_exists. exists "all". split; [exact H|reflexivity]. }
        rewrite I. reflexivity.
      * intros _ NE NA.
        assert (I : includes valid "all" = false).
        { destruct (includes valid "all") eqn:I; [|reflexivity].
          exfalso. apply NA. apply existsb_exists in I.
          destruct I as [x [Hx Hq]]. apply String.eqb_eq in Hq.
          subst x. exact Hx. }
        rewrite I. destruct valid; [contradiction|reflexivity].
  - repeat split; intros; try reflexivity; discriminate.
Qed.
End ToolsetFacts.

Section FilterFacts.
Import JS ToolHelpers.
Variable Schema : Type.

Lemma includes_In (xs : list string) (x : string) :
  includes xs x = true <-> In x xs.
Proof.
  unfold includes. rewrite existsb_exists. split.
  - intros [y [Hy E]]. apply String.eqb_eq in E. subst. exact Hy.
  - intros H. exists x. split; [exact H|apply String.eqb_refl].
Qed.

Lemma membership_test (tool : MCPTool Schema) (active : list Toolset) :
  match toolsets tool with
  | Some ts => existsb (fun toolset => includes active toolset) ts
  | None => false
  end = true <-> intersects tool active.
Proof.
  unfold intersects. destruct (toolsets tool) as [ts|].
  - rewrite existsb_exists. split.
    + intros [t [Ht I]]. apply includes_In in I. exists ts, t. auto.
    + intros [ts' [t [E [Ht I]]]]. inversion E; subst ts'.
      exists t. split; [exact Ht|]. apply includes_In. exact I.
  - split; [discriminate|]. intros [ts [t [E _]]]. discriminate.
Qed.

(** [index.ts]: a tool is exposed iff its membership meets the active set. *)
Lemma Index_filter_spec (tools : list (MCPTool Schema))
    (active : list Toolset) (tool : MCPTool Schema) :
  In tool (Index.filterToolsByToolsets tools active)
  <-> In tool tools /\ intersects tool active.
Proof.
  unfold Index.filterToolsByToolsets. rewrite filter_In.
  rewrite membership_test. reflexivity.
Qed.

(** [index.test.ts]: a tool is exposed iff [all] is active or its
    membership meets the active set. *)
Lemma IndexTest_filter_spec (tools : list (MCPTool Schema))
    (active : list Toolset) (tool : MCPTool Schema) :
  In tool (IndexTest.filterToolsByToolsets tools active)
  <-> In tool tools /\ (In "all" active \/ intersects tool active).
Proof.
  unfold IndexTest.filterToolsByToolsets.
  destruct (includes active "all") eqn:A.
  - apply includes_In in A. tauto.
  - rewrite filter_In, membership_test.
    assert (N : ~ In "all" active).
    { intros H. apply includes_In in H. congruence. }
    tauto.
Qed.
End FilterFacts.

(* ================================================================== *)
(** * Properties of the resource client *)
(* ================================================================== *)

Section ClientFacts.
Import JS Effects Client.

Lemma api_prefix_included (text : string) :
  str_includes "Directus API error:" (api_prefix ++ text) = true.
Proof. reflexivity. Qed.

(** The [catch] block of [request] rethrows an error made by [request]. *)
Lemma catch_rethrows_api_error (text : string) (w : World) :
  request_catch (new_Error (api_prefix ++ text)) w
  = (Throw (new_Error (api_prefix ++ text)), w).
Proof.
  unfold request_catch, Effects.bind, lift, new_Error, get_strict.
  cbn [nullish get String.eqb Ascii.eqb Bool.eqb]. cbn [call_includes].
  rewrite api_prefix_included. reflexivity.
Qed.

Lemma request_error_status (this : DirectusClient) (meth endpoint : string)
    (data : value) (w : World) (response : Response)
    (later : list (Completion Response)) :
  transport w = Normal response :: later ->
  ok response = false ->
  request this meth endpoint data w
  = (Throw (new_Error
              (api_prefix
               ++ to_string (best_message (error_body response)
                               (VStr (statusText response))))),
     mkWorld later (heap w)
       (trace w ++ [EvFetch (baseUrl this ++ endpoint)
                      (request_options this meth data);
                    EvJson response])%list).
Proof.
  intros T K. unfold request, try_catch at 1. unfold Effects.bind at 1.
  unfold fetch. rewrite T. rewrite K. cbn [negb].
  unfold Effects.bind at 1. unfold try_catch, response_json.
  unfold Effects.bind at 1. unfold emit, lift, error_body.
  cbn [transport heap trace].
  destruct (json response) as [v|e].
  - unfold ret, throw.
    rewrite catch_rethrows_api_error. rewrite <- app_assoc. reflexivity.
  - unfold ret, throw.
    rewrite catch_rethrows_api_error. rewrite <- app_assoc. reflexivity.
Qed.

Lemma request_no_content (this : DirectusClient) (meth endpoint : string)
    (data : value) (w : World) (response : Response)
    (later : list (Completion Response)) :
  transport w = Normal response :: later ->
  ok response = true ->
  status response = 204%Z ->
  request this meth endpoint data w
  = (Normal (VObj [("success", VBool true)]),
     mkWorld later (heap w)
       (trace w ++ [EvFetch (baseUrl this ++ endpoint)
                      (request_options this meth data)])%list).
Proof.
  intros T K S. unfold request, try_catch. unfold Effects.bind at 1.
  unfold fetch. rewrite T, K, S. reflexivity.
Qed.

(** A transport failure whose thrown value carries a string [message]:
    rethrown as it is when the message contains the marker, wrapped
    otherwise. *)
Lemma request_transport_failure (this : DirectusClient)
    (meth endpoint : string) (data : value) (w : World) (e : value)
    (later : list (Completion Response)) (msg : string) :
  transport w = Throw e :: later ->
  nullish e = false ->
  get e "message" = VStr msg ->
  request this meth endpoint data w
  = (Throw (if str_includes "Directus API error:" msg then e
            else new_Error
                   (api_prefix
                    ++ to_string (best_message e (VStr (to_string e))))),
     mkWorld later (heap w)
       (trace w ++ [EvFetch (baseUrl this ++ endpoint)
                      (request_options this meth data)])%list).
Proof.
  intros T N G. unfold request, try_catch. unfold Effects.bind at 1.
  unfold fetch. rewrite T.
  unfold request_catch, Effects.bind, lift, get_strict. rewrite N, G.
  cbn [call_includes].
  destruct (str_includes "Directus API error:" msg); reflexivity.
Qed.
(** A transport failure whose thrown value has no [message] (a string, a
    number, a boolean, an array, an object without that property): the
    [catch] block itself fails, on [error.message.includes]. *)
Lemma request_transport_failure_without_message (this : DirectusClient)
    (meth endpoint : string) (data : value) (w : World) (e : value)
    (later : list (Completion Response)) :
  transport w = Throw e :: later ->
  nullish e = false ->
  get e "message" = VUndefined ->
  fst (request this meth endpoint data w)
  = Throw (TypeError
             "Cannot read properties of undefined (reading 'includes')").
Proof.
  intros T N G. unfold request, try_catch. unfold Effects.bind at 1.
  unfold fetch. rewrite T.
  unfold request_catch, Effects.bind, lift, get_strict. rewrite N, G.
  reflexivity.
Qed.
End ClientFacts.



(* ================================================================== *)
(** * Properties of the query encoder *)
(* ================================================================== *)

Section QueryFacts.
Import JS Client QueryParsing.

Lemma form_decode_plus (t : string) :
  form_decode (String "+" t) = option_map (String " "%char) (form_decode t).
Proof. reflexivity. Qed.

Lemma form_decode_escape (h l : ascii) (t : string) :
  form_decode (String "%" (String h (String l t)))
  = match hex_value h, hex_value l, form_decode t with
    | Some a, Some b, Some r => Some (String (ascii_of_nat (16 * a + b)) r)
    | _, _, _ => None
    end.
Proof. reflexivity. Qed.

Lemma form_decode_plain (c : ascii) (t : string) :
  Ascii.eqb c "+" = false -> Ascii.eqb c "%" = false ->
  form_decode (String c t) = option_map (String c) (form_decode t).
Proof. intros P Q. cbn [form_decode]. rewrite P, Q. reflexivity. Qed.

Ltac decode_one_byte :=
  match goal with
  | |- context [urlencode_byte ?c] =>
      let x := eval vm_compute in (urlencode_byte c) in
      change (urlencode_byte c) with x
  end;
  cbn [String.append];
  first [ rewrite form_decode_plain by reflexivity; reflexivity
        | rewrite form_decode_plus; reflexivity
        | rewrite form_decode_escape;
          match goal with
          | |- context [form_decode ?t] => destruct (form_decode t)
          end; vm_compute; reflexivity ].

Lemma form_decode_byte (c : ascii) (t : string) :
  form_decode (urlencode_byte c ++ t) = option_map (String c) (form_decode t).
Proof.
  destruct c as [[] [] [] [] [] [] [] []]; decode_one_byte.
Qed.

Lemma form_decode_urlencode (s : string) : form_decode (urlencode s) = Some s.
Proof.
  induction s as [|c s IH]; [reflexivity|].
  cbn [urlencode]. rewrite form_decode_byte, IH. reflexivity.
Qed.

Lemma occurs_app (c : ascii) (a b : string) :
  occurs c (a ++ b) = occurs c a || occurs c b.
Proof.
  induction a as [|x a IH]; [reflexivity|].
  cbn. rewrite IH. apply orb_assoc.
Qed.

Lemma urlencode_byte_clean (c : ascii) :
  occurs "&" (urlencode_byte c) = false /\ occurs "=" (urlencode_byte c) = false.
Proof. destruct c as [[] [] [] [] [] [] [] []]; split; vm_compute; reflexivity. Qed.

Lemma urlencode_clean (s : string) :
  occurs "&" (urlencode s) = false /\ occurs "=" (urlencode s) = false.
Proof.
  induction s as [|c s [IH1 IH2]]; [split; reflexivity|].
  cbn [urlencode]. rewrite !occurs_app, IH1, IH2.
  destruct (urlencode_byte_clean c) as [H1 H2]. rewrite H1, H2. split; reflexivity.
Qed.

Lemma split_first_clean (c : ascii) (a b : string) :
  occurs c a = false -> split_first c (a ++ String c b) = (a, b).
Proof.
  induction a as [|x a IH]; intros H.
  - cbn. rewrite Ascii.eqb_refl. reflexivity.
  - cbn in H. apply orb_false_iff in H. destruct H as [H1 H2].
    cbn. rewrite H1, (IH H2). reflexivity.
Qed.

Lemma split_clean (c : ascii) (a : string) :
  occurs c a = false -> split c a = [a].
Proof.
  induction a as [|x a IH]; intros H; [reflexivity|].
  cbn in H. apply orb_false_iff in H. destruct H as [H1 H2].
  cbn. rewrite H1, (IH H2). reflexivity.
Qed.

Lemma split_cons (c : ascii) (a b : string) :
  occurs c a = false -> split c (a ++ String c b) = a :: split c b.
Proof.
  induction a as [|x a IH]; intros H.
  - cbn. rewrite Ascii.eqb_refl. reflexivity.
  - cbn in H. apply orb_false_iff in H. destruct H as [H1 H2].
    cbn. rewrite H1, (IH H2). reflexivity.
Qed.

Lemma piece_clean (nv : string * string) : occurs "&" (piece nv) = false.
Proof.
  unfold piece. rewrite !occurs_app.
  destruct (urlencode_clean (fst nv)) as [H1 _].
  destruct (urlencode_clean (snd nv)) as [H2 _].
  rewrite H1, H2. reflexivity.
Qed.

Lemma toString_pieces (qp : list (string * string)) :
  URLSearchParams_toString qp = String.concat "&" (map piece qp).
Proof. reflexivity. Qed.

Lemma parse_pair_piece (nv : string * string) :
  parse_pair form_decode (piece nv) = Some nv.
Proof.
  unfold parse_pair, piece. cbn [String.append].
  rewrite split_first_clean by apply urlencode_clean.
  rewrite !form_decode_urlencode. destruct nv; reflexivity.
Qed.

Lemma parse_pairs_pieces (qp : list (string * string)) :
  qp <> [] ->
  parse_pairs form_decode (split "&" (URLSearchParams_toString qp)) = Some qp.
Proof.
  rewrite toString_pieces.
  induction qp as [|nv qp IH]; intros NE; [contradiction|].
  destruct qp as [|nv' qp].
  - cbn [map String.concat]. rewrite split_clean by apply piece_clean.
    cbn [parse_pairs]. rewrite parse_pair_piece. reflexivity.
  - change (String.concat "&" (map piece (nv :: nv' :: qp)))
      with (piece nv
            ++ String "&" (String.concat "&" (map piece (nv' :: qp)))).
    rewrite split_cons by apply piece_clean.
    cbn [parse_pairs]. rewrite parse_pair_piece, IH by discriminate.
    reflexivity.
Qed.

Lemma toString_nonempty (qp : list (string * string)) :
  qp <> [] -> String.eqb (URLSearchParams_toString qp) "" = false.
Proof.
  intros NE. destruct qp as [|nv qp]; [contradiction|].
  apply String.eqb_neq. intros E.
  assert (H : occurs "=" (URLSearchParams_toString (nv :: qp)) = true).
  { rewrite toString_pieces.
    destruct qp; cbn [map String.concat]; unfold piece; rewrite !occurs_app;
      cbn [occurs String.append]; rewrite Ascii.eqb_refl;
      rewrite ?orb_true_r; reflexivity. }
  rewrite E in H. discriminate.
Qed.

(** Parsing back what [buildQueryString] renders gives the collected pairs. *)
Lemma parse_query_render (params : value) :
  nullish params = false ->
  exists q, buildQueryString params = Normal q
            /\ parse_query form_decode q = Some (collect params).
Proof.
  intros N. unfold buildQueryString. rewrite N.
  eexists. split; [reflexivity|].
  destruct (collect params) as [|nv qp] eqn:E.
  - reflexivity.
  - rewrite toString_nonempty by discriminate. cbn [negb].
    unfold parse_query.
    change (strip_question ("?" ++ URLSearchParams_toString (nv :: qp)))
      with (URLSearchParams_toString (nv :: qp)).
    rewrite toString_nonempty by discriminate.
    apply parse_pairs_pieces. discriminate.
Qed.

End QueryFacts.

(* ================================================================== *)
(** * Properties of JSON texts *)
(* ================================================================== *)

Section JSONFacts.
Import JS JSONParse.

(** ** Strings *)

Lemma psb_quote (t : string) :
  parse_string_body (String dq t) = Some (EmptyString, t).
Proof. reflexivity. Qed.

Lemma psb_plain (c : ascii) (t : string) :
  Ascii.eqb c dq = false -> Ascii.eqb c "092" = false ->
  Nat.ltb (nat_of_ascii c) 32 = false ->
  parse_string_body (String c t) = cons_char c (parse_string_body t).
Proof. intros A B C. cbn [parse_string_body]. rewrite A, B, C. reflexivity. Qed.

Lemma psb_escape (e x : ascii) (t : string) :
  Ascii.eqb e "u" = false -> unescape e = Some x ->
  parse_string_body (String "092" (String e t))
  = cons_char x (parse_string_body t).
Proof.
  intros A B. cbn [parse_string_body].
  change (Ascii.eqb "092" dq) with false.
  change (Ascii.eqb "092" "092") with true. cbv iota.
  rewrite A, B. reflexivity.
Qed.

Lemma psb_unicode (h1 h2 h3 h4 : ascii) (code : nat) (t : string) :
  hex4 h1 h2 h3 h4 = Some code -> Nat.ltb code 128 = true ->
  parse_string_body
    (String "092" (String "u" (String h1 (String h2 (String h3 (String h4 t))))))
  = cons_char (ascii_of_nat code) (parse_string_body t).
Proof.
  intros A B. cbn [parse_string_body].
  change (Ascii.eqb "092" dq) with false.
  change (Ascii.eqb "092" "092") with true.
  change (Ascii.eqb "u" "u") with true. cbv iota.
  rewrite A, B. reflexivity.
Qed.

Ltac parse_one_char :=
  match goal with
  | |- context [quote_char ?c] =>
      let x := eval vm_compute in (quote_char c) in
      change (quote_char c) with x
  end;
  cbn [String.append];
  first [ rewrite psb_plain by reflexivity; reflexivity
        | erewrite psb_escape by reflexivity; reflexivity
        | erewrite psb_unicode by reflexivity; reflexivity ].

Lemma psb_quote_char (c : ascii) (t : string) :
  parse_string_body (quote_char c ++ t) = cons_char c (parse_string_body t).
Proof.
  destruct c as [[] [] [] [] [] [] [] []]; parse_one_char.
Qed.

Lemma append_assoc (a b c : string) : (a ++ b) ++ c = a ++ (b ++ c).
Proof. induction a as [|x a IH]; [reflexivity|]. cbn. rewrite IH. reflexivity. Qed.

Lemma psb_quote_body (s t : string) :
  parse_string_body (quote_body s ++ String dq t) = Some (s, t).
Proof.
  induction s as [|c s IH]; [reflexivity|].
  cbn [quote_body]. rewrite append_assoc, psb_quote_char, IH. reflexivity.
Qed.

Lemma QuoteJSONString_open (s t : string) :
  QuoteJSONString s ++ t = String dq (quote_body s ++ String dq t).
Proof.
  unfold QuoteJSONString, dqs. cbn [String.append].
  rewrite append_assoc. reflexivity.
Qed.

(** ** Numbers *)

Lemma take_digits_uint (u : uint) (rest : string) :
  number_end rest = true ->
  take_digits (NilEmpty.string_of_uint u ++ rest)
  = (NilEmpty.string_of_uint u, rest).
Proof.
  intros E. induction u; cbn [NilEmpty.string_of_uint String.append take_digits];
    try (change (is_digit _) with true; cbv iota; rewrite IHu; reflexivity).
  destruct rest as [|c r]; [reflexivity|].
  cbn [take_digits]. cbn [number_end] in E.
  destruct (is_digit c); [discriminate|reflexivity].
Qed.


Lemma nzhead_not_zero_headed (d d' : uint) : nzhead d <> D0 d'.
Proof. induction d; cbn [nzhead]; try discriminate. exact IHd. Qed.

Lemma canonical_text (u : uint) :
  canonical u ->
  NilZero.string_of_uint u = NilEmpty.string_of_uint u
  /\ String.eqb (NilEmpty.string_of_uint u) "" = false
  /\ leading_zero (NilEmpty.string_of_uint u) = false.
Proof.
  intros [E|[H N]].
  - subst u. repeat split.
  - destruct u; try (repeat split; destruct u; reflexivity).
    + contradiction.
    + exfalso. cbn [nzhead] in H. exact (nzhead_not_zero_headed _ _ H).
Qed.

Lemma to_int_canonical (n : Z) :
  match Z.to_int n with
  | Pos u => canonical u
  | Neg u => canonical u /\ u <> D0 Nil
  end.
Proof.
  pose proof (DecimalZ.to_of (Z.to_int n)) as H.
  rewrite DecimalZ.of_to in H.
  destruct (Z.to_int n) as [u|u]; cbn [norm] in H.
  - injection H as H. unfold unorm in H. unfold canonical.
    destruct (nzhead u) eqn:E; try (right; split; [congruence|subst u; discriminate]).
    left. exact H.
  - unfold canonical.
    destruct (nzhead u) eqn:E; try discriminate;
      injection H as H;
      (split; [right; split; [congruence|subst u; discriminate]|]);
      intros Z0; rewrite Z0 in E; discriminate.
Qed.

Lemma parse_digits_uint (negative : bool) (u : uint) (rest : string) :
  canonical u -> number_end rest = true ->
  parse_digits negative (NilEmpty.string_of_uint u ++ rest)
  = Some (Z.of_int (if negative then Neg u else Pos u), rest).
Proof.
  intros C E. unfold parse_digits.
  rewrite take_digits_uint by exact E.
  destruct (canonical_text u C) as [_ [N L]].
  rewrite N, L, E. cbn [negb]. rewrite NilEmpty.usu. reflexivity.
Qed.

Lemma parse_number_text (n : Z) (rest : string) :
  number_end rest = true ->
  parse_number (num_to_string n ++ rest) = Some (n, rest).
Proof.
  intros E. unfold num_to_string.
  pose proof (to_int_canonical n) as C.
  pose proof (DecimalZ.of_to n) as R.
  destruct (Z.to_int n) as [u|u]; cbn [NilZero.string_of_int].
  - destruct (canonical_text u C) as [T [N _]]. rewrite T.
    unfold parse_number.
    destruct (NilEmpty.string_of_uint u) as [|c s] eqn:S; [discriminate|].
    cbn [String.append].
    assert (D : Ascii.eqb c "-" = false).
    { destruct u; cbn [NilEmpty.string_of_uint] in S; try discriminate;
        injection S as <- _; reflexivity. }
    rewrite D. change (String c (s ++ rest)) with (String c s ++ rest).
    rewrite <- S, parse_digits_uint by assumption. rewrite R. reflexivity.
  - destruct C as [C _]. destruct (canonical_text u C) as [T _]. rewrite T.
    unfold parse_number. cbn [String.append].
    change (Ascii.eqb "-" "-") with true. cbv iota.
    rewrite parse_digits_uint by assumption. rewrite R. reflexivity.
Qed.

Lemma num_to_string_head (n : Z) (rest : string) :
  exists c t, num_to_string n ++ rest = String c t
              /\ (Ascii.eqb c "-" = true \/ is_digit c = true).
Proof.
  unfold num_to_string. pose proof (to_int_canonical n) as C.
  destruct (Z.to_int n) as [u|u]; cbn [NilZero.string_of_int].
  - destruct (canonical_text u C) as [T [N _]]. rewrite T.
    destruct u; cbn [NilEmpty.string_of_uint String.append] in *;
      try discriminate; eexists; eexists; (split; [reflexivity|right; reflexivity]).
  - cbn [String.append]. eexists; eexists. split; [reflexivity|left; reflexivity].
Qed.

(** ** Values *)


Lemma serialize_array (xs : list value) :
  serialize "" "" (VArr xs)
  = Some (bracket "[" "]" "" "" "" (map elem_text xs)).
Proof. reflexivity. Qed.

Lemma clean_serialize (v : value) :
  json_clean v = true -> serialize "" "" v = Some (elem_text v).
Proof.
  unfold elem_text. destruct v; try discriminate; try reflexivity.
  destruct b; reflexivity.
Qed.

Lemma members_flat_map (props : list (string * value)) :
  forallb (fun kx => json_clean (snd kx)) props = true ->
  flat_map (fun kx : string * value =>
              match serialize "" "" (snd kx) with
              | Some s => [QuoteJSONString (fst kx) ++ ":" ++ "" ++ s]
              | None => []
              end) props
  = map member_text props.
Proof.
  induction props as [|[k x] props IH]; intros C; [reflexivity|].
  cbn [forallb snd] in C. apply andb_true_iff in C. destruct C as [Cx C].
  cbn [flat_map map fst snd]. rewrite (clean_serialize x Cx), (IH C).
  reflexivity.
Qed.

Lemma serialize_object (props : list (string * value)) :
  forallb (fun kx => json_clean (snd kx)) props = true ->
  serialize "" "" (VObj props)
  = Some (bracket "{" "}" "" "" "" (map member_text props)).
Proof.
  intros C. rewrite <- (members_flat_map props C). reflexivity.
Qed.

Lemma concat_cons2 (sep a b : string) (l : list string) :
  String.concat sep (a :: b :: l) = a ++ sep ++ String.concat sep (b :: l).
Proof. reflexivity. Qed.

Lemma length_append (a b : string) :
  String.length (a ++ b) = String.length a + String.length b.
Proof. induction a as [|c a IH]; [reflexivity|]. cbn. rewrite IH. reflexivity. Qed.

Lemma append_nil_r (a : string) : a ++ "" = a.
Proof. induction a as [|c a IH]; [reflexivity|]. cbn. rewrite IH. reflexivity. Qed.

Lemma parse_value_step (fuel : nat) (c : ascii) (rest : string) :
  parse_value (S fuel) (String c rest)
  = if Ascii.eqb c "n" then literal "ull" VNull rest
    else if Ascii.eqb c "t" then literal "rue" (VBool true) rest
    else if Ascii.eqb c "f" then literal "alse" (VBool false) rest
    else if Ascii.eqb c dq
    then match parse_string_body rest with
         | Some (str, r) => Some (VStr str, r)
         | None => None
         end
    else if Ascii.eqb c "["
    then match rest with
         | EmptyString => None
         | String c' r' =>
             if Ascii.eqb c' "]" then Some (VArr [], r')
             else match parse_elements fuel rest with
                  | Some (vs, r) => Some (VArr vs, r)
                  | None => None
                  end
         end
    else if Ascii.eqb c "{"
    then match rest with
         | EmptyString => None
         | String c' r' =>
             if Ascii.eqb c' "}" then Some (VObj [], r')
             else match parse_members fuel rest with
                  | Some (kvs, r) => Some (VObj kvs, r)
                  | None => None
                  end
         end
    else match parse_number (String c rest) with
         | Some (n, r) => Some (VNum n, r)
         | None => None
         end.
Proof. reflexivity. Qed.

Lemma parse_elements_step (fuel : nat) (s : string) :
  parse_elements (S fuel) s
  = match parse_value fuel s with
    | Some (v, String c r) =>
        if Ascii.eqb c ","
        then match parse_elements fuel r with
             | Some (vs, r') => Some (v :: vs, r')
             | None => None
             end
        else if Ascii.eqb c "]" then Some ([v], r)
        else None
    | _ => None
    end.
Proof. reflexivity. Qed.

Lemma parse_members_step (fuel : nat) (rest : string) :
  parse_members (S fuel) (String dq rest)
  = match parse_string_body rest with
    | Some (k, String colon r) =>
        if Ascii.eqb colon ":"
        then match parse_value fuel r with
             | Some (v, String c r') =>
                 if Ascii.eqb c ","
                 then match parse_members fuel r' with
                      | Some (kvs, r'') => Some ((k, v) :: kvs, r'')
                      | None => None
                      end
                 else if Ascii.eqb c "}" then Some ([(k, v)], r')
                 else None
             | _ => None
             end
        else None
    | _ => None
    end.
Proof. reflexivity. Qed.

Lemma numeral_head (c : ascii) :
  Ascii.eqb c "-" = true \/ is_digit c = true ->
  Ascii.eqb c "n" = false /\ Ascii.eqb c "t" = false
  /\ Ascii.eqb c "f" = false /\ Ascii.eqb c dq = false
  /\ Ascii.eqb c "[" = false /\ Ascii.eqb c "{" = false
  /\ Ascii.eqb c "]" = false.
Proof.
  destruct c as [[] [] [] [] [] [] [] []]; vm_compute;
    intros [H|H]; try discriminate; repeat split.
Qed.

(** The text of a value does not start with a closing bracket. *)
Lemma elem_text_head (v : value) :
  exists c t, elem_text v = String c t /\ Ascii.eqb c "]" = false.
Proof.
  destruct v; try (eexists; eexists; split; reflexivity).
  - destruct b; eexists; eexists; split; reflexivity.
  - unfold elem_text. cbn [serialize].
    destruct (num_to_string_head n "") as [c [t [E H]]].
    rewrite append_nil_r in E. exists c, t. split; [exact E|].
    apply numeral_head. exact H.
  - unfold elem_text. rewrite serialize_array. unfold bracket.
    destruct (map elem_text xs); eexists; eexists; split; reflexivity.
  - unfold elem_text. cbn [serialize]. unfold bracket.
    destruct (flat_map _ props); eexists; eexists; split; reflexivity.
  - unfold elem_text. cbn [serialize]. unfold bracket.
    destruct (flat_map _ extra); eexists; eexists; split; reflexivity.
Qed.

Lemma parse_elements_texts (xs : list value) :
  Forall parses xs -> xs <> [] ->
  forall rest fuel,
    S (String.length (String.concat "," (map elem_text xs))) < fuel ->
    parse_elements fuel
      (String.concat "," (map elem_text xs) ++ String "]" rest)
    = Some (xs, rest).
Proof.
  induction 1 as [|x xs Px Pxs IH]; intros NE rest fuel L; [contradiction|].
  destruct fuel as [|fuel]; [lia|]. rewrite parse_elements_step.
  destruct xs as [|y xs].
  - cbn [map String.concat] in *.
    rewrite (Px (String "]" rest) fuel) by (reflexivity || lia).
    reflexivity.
  - cbn [map] in *. rewrite concat_cons2 in *.
    rewrite length_append in L. cbn [String.length String.append] in L.
    rewrite append_assoc. cbn [String.append].
    rewrite (Px _ fuel) by (reflexivity || lia).
    change (Ascii.eqb "," ",") with true. cbv iota.
    rewrite IH by (discriminate || lia). reflexivity.
Qed.

Lemma parse_members_texts (props : list (string * value)) :
  Forall (fun kx => parses (snd kx)) props -> props <> [] ->
  forall rest fuel,
    S (String.length (String.concat "," (map member_text props))) < fuel ->
    parse_members fuel
      (String.concat "," (map member_text props) ++ String "}" rest)
    = Some (props, rest).
Proof.
  induction 1 as [|[k x] props Px Pxs IH]; intros NE rest fuel L;
    [contradiction|].
  destruct fuel as [|fuel]; [lia|]. cbn [snd] in Px.
  destruct props as [|kx props].
  - cbn [map String.concat] in *. unfold member_text in *. cbn [fst snd] in *.
    rewrite append_assoc, QuoteJSONString_open.
    rewrite parse_members_step. rewrite psb_quote_body. cbn [String.append].
    change (Ascii.eqb ":" ":") with true. cbv iota.
    rewrite length_append in L. cbn [String.length] in L.
    rewrite (Px (String "}" rest) fuel) by (reflexivity || lia).
    reflexivity.
  - cbn [map] in *. rewrite concat_cons2 in *.
    unfold member_text at 1. unfold member_text at 1 in L. cbn [fst snd] in *.
    rewrite !length_append in L. cbn [String.length String.append] in L.
    rewrite !append_assoc, QuoteJSONString_open.
    rewrite parse_members_step. rewrite psb_quote_body. cbn [String.append].
    change (Ascii.eqb ":" ":") with true. cbv iota.
    rewrite ?append_assoc. cbn [String.append].
    rewrite (Px _ fuel) by (reflexivity || lia).
    change (Ascii.eqb "," ",") with true. cbv iota.
    rewrite IH by (discriminate || lia). reflexivity.
Qed.

Lemma Forall_clean_parses (xs : list value) :
  Forall (fun x => json_clean x = true -> parses x) xs ->
  forallb json_clean xs = true -> Forall parses xs.
Proof.
  induction 1 as [|x xs H _ IH]; intros C; [constructor|].
  cbn [forallb] in C. apply andb_true_iff in C. destruct C as [Cx C].
  constructor; auto.
Qed.

Lemma Forall_clean_parses_members (props : list (string * value)) :
  Forall (fun kx => json_clean (snd kx) = true -> parses (snd kx)) props ->
  forallb (fun kx => json_clean (snd kx)) props = true ->
  Forall (fun kx => parses (snd kx)) props.
Proof.
  induction 1 as [|x xs H _ IH]; intros C; [constructor|].
  cbn [forallb] in C. apply andb_true_iff in C. destruct C as [Cx C].
  constructor; auto.
Qed.

Lemma parse_value_text (v : value) : json_clean v = true -> parses v.
Proof.
  induction v using value_induction; intros C rest fuel E L;
    try discriminate; (destruct fuel as [|fuel]; [lia|]).
  - reflexivity.
  - destruct b; reflexivity.
  - change (elem_text (VNum n)) with (num_to_string n).
    destruct (num_to_string_head n rest) as [c [t [T H]]].
    rewrite T, parse_value_step.
    destruct (numeral_head c H) as [A1 [A2 [A3 [A4 [A5 [A6 _]]]]]].
    rewrite A1, A2, A3, A4, A5, A6. rewrite <- T.
    rewrite parse_number_text by exact E. reflexivity.
  - change (elem_text (VStr s)) with (QuoteJSONString s).
    rewrite QuoteJSONString_open, parse_value_step.
    change (Ascii.eqb dq "n") with false. change (Ascii.eqb dq "t") with false.
    change (Ascii.eqb dq "f") with false. change (Ascii.eqb dq dq) with true.
    cbv iota. rewrite psb_quote_body. reflexivity.
  - cbn [json_clean] in C.
    pose proof (Forall_clean_parses xs H C) as Pxs.
    unfold elem_text in *. rewrite serialize_array in *. unfold bracket in *.
    destruct xs as [|x xs]; [reflexivity|].
    change (String.eqb "" "") with true in *. cbv iota in *.
    remember (map elem_text (x :: xs)) as texts eqn:Tx.
    destruct texts as [|t0 texts]; [discriminate|]. rewrite Tx in *.
    cbn [String.append] in *. rewrite parse_value_step.
    change (Ascii.eqb "[" "n") with false. change (Ascii.eqb "[" "t") with false.
    change (Ascii.eqb "[" "f") with false. change (Ascii.eqb "[" dq) with false.
    change (Ascii.eqb "[" "[") with true. cbv iota.
    unfold join in *. rewrite append_assoc. cbn [String.append].
    cbn [String.length] in L. rewrite length_append in L.
    cbn [String.length] in L.
    pose proof (parse_elements_texts (x :: xs) Pxs ltac:(discriminate)
                  rest fuel ltac:(lia)) as R.
    remember (String.concat "," (map elem_text (x :: xs)) ++ String "]" rest)
      as body eqn:B.
    assert (Hd : exists c t, body = String c t /\ Ascii.eqb c "]" = false).
    { subst body. destruct (elem_text_head x) as [c [t [Hx Hc]]].
      destruct xs as [|y xs]; cbn [map String.concat]; rewrite Hx;
        cbn [String.append]; eexists; eexists; (split; [reflexivity|exact Hc]). }
    destruct Hd as [c [t [Hd Hc]]]. rewrite Hd in R |- *.
    rewrite Hc, R. reflexivity.
  - cbn [json_clean] in C.
    pose proof (Forall_clean_parses_members props H C) as Pxs.
    unfold elem_text in *. rewrite serialize_object in * by exact C.
    unfold bracket in *.
    destruct props as [|kx props]; [reflexivity|].
    change (String.eqb "" "") with true in *. cbv iota in *.
    remember (map member_text (kx :: props)) as texts eqn:Tx.
    destruct texts as [|t0 texts]; [discriminate|]. rewrite Tx in *.
    cbn [String.append] in *. rewrite parse_value_step.
    change (Ascii.eqb "{" "n") with false. change (Ascii.eqb "{" "t") with false.
    change (Ascii.eqb "{" "f") with false. change (Ascii.eqb "{" dq) with false.
    change (Ascii.eqb "{" "[") with false. change (Ascii.eqb "{" "{") with true.
    cbv iota.
    unfold join in *. rewrite append_assoc. cbn [String.append].
    cbn [String.length] in L. rewrite length_append in L.
    cbn [String.length] in L.
    pose proof (parse_members_texts (kx :: props) Pxs ltac:(discriminate)
                  rest fuel ltac:(lia)) as R.
    remember (String.concat "," (map member_text (kx :: props))
              ++ String "}" rest) as body eqn:B.
    assert (Hd : exists t, body = String dq t).
    { subst body.
      destruct props as [|ky props]; cbn [map String.concat];
        unfold member_text at 1; rewrite ?append_assoc, QuoteJSONString_open;
        eexists; reflexivity. }
    destruct Hd as [t Hd]. rewrite Hd in R |- *.
    change (Ascii.eqb dq "}") with false. cbv iota. rewrite R. reflexivity.
Qed.

(** [JSON.parse(JSON.stringify(v))] gives [v] back when [v] is a value JSON
    represents. *)
Lemma JSON_parse_stringify (v : value) :
  json_clean v = true ->
  exists text, JSON_stringify v = Some text /\ JSON_parse text = Some v.
Proof.
  intros C. exists (elem_text v). split.
  - apply clean_serialize. exact C.
  - unfold JSON_parse.
    pose proof (parse_value_text v C "" (S (String.length (elem_text v)))
                  eq_refl ltac:(lia)) as R.
    rewrite append_nil_r in R. rewrite R. reflexivity.
Qed.

End JSONFacts.

(* ================================================================== *)
(** * Properties of [buildQueryString] *)
(* ================================================================== *)

Section EncoderFacts.
Import JS Client QueryParsing JSONParse.

Lemma append_if_app (present : bool) (name text : string)
    (qp : URLSearchParams) :
  append_if present name text qp
  = (qp ++ (if present then [(name, text)] else []))%list.
Proof.
  unfold append_if, append. destruct present; [reflexivity|].
  symmetry. apply app_nil_r.
Qed.

(** The collected pairs, key by key. *)
Lemma collect_by_key (params : value) :
  collect params
  = flat_map (fun k => if emitted params k then [(k, rendered params k)]
                       else []) query_keys.
Proof.
  unfold collect. rewrite !append_if_app.
  cbn [flat_map query_keys]. rewrite app_nil_r, <- !app_assoc.
  reflexivity.
Qed.

Lemma In_by_key (e : string -> bool) (r : string -> string)
    (keys : list string) (k t : string) :
  In (k, t) (flat_map (fun k => if e k then [(k, r k)] else []) keys)
  <-> In k keys /\ e k = true /\ t = r k.
Proof.
  rewrite in_flat_map. split.
  - intros [k' [Hk H]]. destruct (e k') eqn:E; [|contradiction].
    destruct H as [H|[]]. injection H as -> ->. auto.
  - intros [Hk [E ->]]. exists k. rewrite E. split; [exact Hk|left; reflexivity].
Qed.

Lemma In_collect (params : value) (k t : string) :
  In (k, t) (collect params)
  <-> In k query_keys /\ emitted params k = true /\ t = rendered params k.
Proof. rewrite collect_by_key. apply In_by_key. Qed.

Lemma In_collect_key (params : value) (k : string) :
  In k (map fst (collect params))
  <-> In k query_keys /\ emitted params k = true.
Proof.
  rewrite in_map_iff. split.
  - intros [[k' t] [E H]]. cbn [fst] in E. subst k'.
    apply In_collect in H. tauto.
  - intros [Hk E]. exists (k, rendered params k). split; [reflexivity|].
    apply In_collect. auto.
Qed.

Lemma keys_of_collect (params : value) :
  map fst (collect params) = filter (emitted params) query_keys.
Proof.
  rewrite collect_by_key. induction query_keys as [|k keys IH]; [reflexivity|].
  cbn [flat_map filter]. rewrite map_app, IH.
  destruct (emitted params k); reflexivity.
Qed.

Lemma is_defined_spec (v : value) : is_defined v = true <-> v <> VUndefined.
Proof. destruct v; cbn; split; congruence. Qed.

End EncoderFacts.
(* ================================================================== *)
(** * The claims *)
(* ================================================================== *)

Section Claims.
Import JS Effects Client ToolHelpers QueryParsing JSONParse.





(** C3.  When [fetch] answers with a response whose [ok] is false,
    [request] rejects with [new Error("Directus API error: " + text)],
    where [text] is the first truthy of the error body's
    [errors[0].message] and [message], and the HTTP status text otherwise
    (the error body is [{}] when [response.json()] rejects).  The world
    after the call shows one call of [fetch] and one of [json()]: the
    failure is surfaced and nothing is retried. *)
Theorem C3_request_error_status (this : DirectusClient)
    (meth endpoint : string) (data : value) (w : World)
    (response : Response) (later : list (Completion Response)) :
  transport w = Normal response :: later ->
  ok response = false ->
  let body := error_body response in
  let remote := opt_get (opt_get0 (opt_get body "errors")) "message" in
  let generic := opt_get body "message" in
  let text := if truthy remote then to_string remote
              else if truthy generic then to_string generic
              else statusText response in
  request this meth endpoint data w
  = (Throw (new_Error ("Directus API error: " ++ text)),
     mkWorld later (heap w)
       (trace w ++ [EvFetch (baseUrl this ++ endpoint)
                      (request_options this meth data);
                    EvJson response])%list).
Proof.
  intros T K body remote generic text.
  rewrite (request_error_status this meth endpoint data w response later T K).
  do 3 f_equal. unfold text, best_message, or_else.
  fold body. fold remote. fold generic.
  destruct (truthy remote); [reflexivity|].
  destruct (truthy generic); reflexivity.
Qed.

Lemma C3_not_found_witness :
  request Demo.token_client "GET" "/items/articles" VUndefined
    (Demo.mock (Normal Demo.not_found))
  = (Throw (new_Error "Directus API error: Not found"),
     mkWorld [] []
       [EvFetch "https://directus.example.com/items/articles"
          (mkInit "GET" [("Content-Type", "application/json");
                         ("Authorization", "Bearer test-token")] None);
        EvJson Demo.not_found]).
Proof.
  exact (C3_request_error_status Demo.token_client "GET" "/items/articles"
           VUndefined (Demo.mock (Normal Demo.not_found)) Demo.not_found []
           eq_refl eq_refl).
Defined.

(** C4 (evaluation of [request] where it departs from the claim).  When
    [fetch] rejects with a value that has no string [message] - the string
    ['boom'], or [undefined] - the [catch] block fails on
    [error.message.includes] and the caller receives that [TypeError],
    not an error of the form [Directus API error: ...]. *)
Theorem C4_request_rejection_without_message :
  fst (request Demo.token_client "GET" "/items/articles" VUndefined
         (Demo.mock (Throw (VStr "boom"))))
  = Throw (TypeError "Cannot read properties of undefined (reading 'includes')")
  /\ fst (request Demo.token_client "GET" "/items/articles" VUndefined
            (Demo.mock (Throw VUndefined)))
     = Throw (TypeError "Cannot read properties of undefined (reading 'message')")
  /\ fst (request Demo.token_client "GET" "/items/articles" VUndefined
            (Demo.mock (Throw (new_Error "Network error"))))
     = Throw (new_Error "Directus API error: Network error").
Proof. repeat split; reflexivity. Qed.

(** C5.  When [fetch] answers with a response of status 204 (whose [ok]
    is what the Fetch standard makes it: true), [request] resolves to
    [{ success: true }]; the trace shows the call of [fetch] and no call
    of [response.json()]. *)
Theorem C5_request_no_content (this : DirectusClient)
    (meth endpoint : string) (data : value) (w : World)
    (response : Response) (later : list (Completion Response)) :
  transport w = Normal response :: later ->
  ok response = ok_status (status response) ->
  status response = 204%Z ->
  request this meth endpoint data w
  = (Normal (VObj [("success", VBool true)]),
     mkWorld later (heap w)
       (trace w ++ [EvFetch (baseUrl this ++ endpoint)
                      (request_options this meth data)])%list).
Proof.
  intros T K S. apply request_no_content with (response := response).
  - exact T.
  - rewrite K, S. reflexivity.
  - exact S.
Qed.

Lemma C5_delete_witness :
  request Demo.token_client "DELETE" "/items/articles/1" VUndefined
    (Demo.mock (Normal Demo.no_content))
  = (Normal (VObj [("success", VBool true)]),
     mkWorld [] []
       [EvFetch "https://directus.example.com/items/articles/1"
          (mkInit "DELETE" [("Content-Type", "application/json");
                            ("Authorization", "Bearer test-token")] None)]).
Proof.
  exact (C5_request_no_content Demo.token_client "DELETE"
           "/items/articles/1" VUndefined (Demo.mock (Normal Demo.no_content))
           Demo.no_content [] eq_refl eq_refl eq_refl).
Defined.

(** C7.  When the inner handler resolves to [V], the handler of the tool
    made by [createTool] resolves to an object whose [content] is one
    entry of type [text] whose text is [JSON.stringify(V, null, 2)] (which
    is [undefined] when [V] is), in the world the inner handler left; and
    [name], [description], [inputSchema] and [toolsets] are those of the
    definition. *)
Theorem C7_createTool_wraps_result (Schema : Type) (cfg : ToolConfig Schema)
    (client : DirectusClient) (args : ref) (w w' : World) (V : value) :
  cfg_handler cfg client args w = (Normal V, w') ->
  handler (createTool cfg) client args w
  = (Normal (VObj [("content",
                    VArr [VObj [("type", VStr "text");
                                ("text",
                                 of_option (JSON_stringify_indent V 2))]])]),
     w')
  /\ name (createTool cfg) = cfg_name cfg
  /\ description (createTool cfg) = cfg_description cfg
  /\ inputSchema (createTool cfg) = cfg_inputSchema cfg
  /\ toolsets (createTool cfg) = cfg_toolsets cfg.
Proof.
  intros H. repeat split.
  cbn [createTool handler]. unfold Effects.bind. rewrite H. reflexivity.
Qed.

Lemma C7_get_test_witness :
  handler (createTool Demo.get_test) Demo.token_client 0 Demo.with_args
  = (Normal (VObj [("content",
                    VArr [VObj [("type", VStr "text");
                                ("text",
                                 VStr ("{" ++ nl ++ "  " ++ dqs ++ "id" ++ dqs
                                       ++ ": 1," ++ nl ++ "  " ++ dqs ++ "name"
                                       ++ dqs ++ ": " ++ dqs ++ "Test Item"
                                       ++ dqs ++ nl ++ "}"))]])]),
     Demo.with_args).
Proof.
  exact (proj1 (C7_createTool_wraps_result unit Demo.get_test
                  Demo.token_client 0 Demo.with_args Demo.with_args
                  (VObj [("id", VNum 1); ("name", VStr "Test Item")])
                  eq_refl)).
Defined.



(** C6 (amended).  For every parameter bag, parsing the result of
    [buildQueryString] back - dropping the [?], splitting on [&] and on the
    first [=], and form-decoding both sides ([+] is a space, [%XX] a byte) -
    gives one pair for each key that passes its presence test, in the
    order of emission, and nothing else; an array under [fields], [sort] or
    [groupBy] comes back as its comma-joined elements; a truthy value under
    [filter], [aggregate] or [deep] that JSON represents comes back as a
    text that [JSON.parse] turns into that value again. *)
Theorem C6_form_round_trip (bag : list (string * value)) :
  exists q pairs,
    buildQueryString (VObj bag) = Normal q
    /\ parse_query form_decode q = Some pairs
    /\ map fst pairs = filter (emitted (VObj bag)) query_keys
    /\ (forall k xs, In k list_keys -> assoc k bag = VArr xs ->
                     In (k, array_join xs) pairs)
    /\ (forall k, In k json_keys ->
                  truthy (assoc k bag) = true ->
                  json_clean (assoc k bag) = true ->
                  exists text, In (k, text) pairs
                               /\ JSON_parse text = Some (assoc k bag)).
Proof.
  destruct (parse_query_render (VObj bag) eq_refl) as [q [B P]].
  exists q, (collect (VObj bag)). repeat split; try assumption.
  - apply keys_of_collect.
  - intros k xs Hk G. apply In_collect.
    assert (Q : In k query_keys).
    { cbn in Hk |- *. tauto. }
    split; [exact Q|].
    cbn in Hk. destruct Hk as [<-|[<-|[<-|[]]]];
      unfold emitted, rendered; cbn [includes existsb numeric_keys list_keys
        String.eqb Ascii.eqb Bool.eqb orb get]; rewrite G; split; reflexivity.
  - intros k Hk T C.
    destruct (JSON_parse_stringify (assoc k bag) C) as [text [S R]].
    exists text. split; [|exact R].
    apply In_collect.
    assert (Q : In k query_keys).
    { cbn in Hk |- *. tauto. }
    split; [exact Q|].
    cbn in Hk. destruct Hk as [<-|[<-|[<-|[]]]];
      unfold emitted, rendered, json_text;
      cbn [includes existsb numeric_keys list_keys json_keys
        String.eqb Ascii.eqb Bool.eqb orb get]; rewrite T, S;
      split; reflexivity.
Qed.

Lemma C6_scenario_witness :
  exists q pairs,
    buildQueryString (VObj Demo.published_titles) = Normal q
    /\ parse_query form_decode q = Some pairs
    /\ map fst pairs = ["fields"; "filter"; "limit"]
    /\ In ("fields", "id,title") pairs
    /\ In ("limit", "10") pairs
    /\ (exists text,
          In ("filter", text) pairs
          /\ JSON_parse text
             = Some (VObj [("status", VObj [("_eq", VStr "published")])])).
Proof.
  destruct (C6_form_round_trip Demo.published_titles)
    as [q [pairs [B [P [K [A J]]]]]].
  exists q, pairs. split; [exact B|]. split; [exact P|].
  split; [exact K|]. split; [|split].
  - exact (A "fields" [VStr "id"; VStr "title"] (or_introl eq_refl) eq_refl).
  - pose proof B as B'. vm_compute in B'. injection B' as <-.
    vm_compute in P. injection P as <-. right. right. left. reflexivity.
  - exact (J "filter" (or_introl eq_refl) eq_refl eq_refl).
Defined.

(** C6 (as stated, refuted).  With plain percent-decoding the round trip
    fails on two bags of declared types: [{search: ''}], whose key is not
    emitted at all, and [{fields: ['first name']}], whose space is rendered
    as [+] and stays a [+]. *)
Lemma C6_percent_round_trip_counterexample :
  ~ percent_round_trip [("search", VStr "")]
  /\ ~ percent_round_trip [("fields", VArr [VStr "first name"])].
Proof.
  split; intros [q [pairs [B [P [K A]]]]].
  - vm_compute in B. injection B as <-. vm_compute in P. injection P as <-.
    destruct (proj2 (K "search")); left; reflexivity.
  - vm_compute in B. injection B as <-. vm_compute in P. injection P as <-.
    specialize (A "fields" [VStr "first name"] (or_introl eq_refl) eq_refl).
    destruct A as [A|[]]. vm_compute in A. discriminate.
Qed.

(** C8 (amended).  When the inner handler resolves, the handler of the tool
    made by [createActionTool] resolves to a single text block whose text
    is [successMessage] applied to the argument object as the inner
    handler left it - which is the pre-handler content whenever the inner
    handler did not change that object - and [successMessage] is called
    once, after everything the inner handler did.  When the inner handler
    rejects, the rejection and the world are passed on as they are:
    [successMessage] is not called. *)
Theorem C8_createActionTool_message (Schema : Type)
    (cfg : ActionToolConfig Schema) (client : DirectusClient) (args : ref)
    (w : World) :
  (forall v w1,
      act_handler cfg client args w = (Normal v, w1) ->
      let current := nth args (heap w1) VUndefined in
      handler (createActionTool cfg) client args w
      = (Normal (VObj [("content",
                        VArr [VObj [("type", VStr "text");
                                    ("text",
                                     VStr (act_successMessage cfg current))]])]),
         mkWorld (transport w1) (heap w1)
           (trace w1 ++ [EvSuccessMessage current])%list)
      /\ (current = nth args (heap w) VUndefined ->
          fst (handler (createActionTool cfg) client args w)
          = Normal (text_content
                      (VStr (act_successMessage cfg
                               (nth args (heap w) VUndefined))))))
  /\ (forall e w1,
         act_handler cfg client args w = (Throw e, w1) ->
         handler (createActionTool cfg) client args w = (Throw e, w1)).
Proof.
  split.
  - intros v w1 H current.
    assert (R : handler (createActionTool cfg) client args w
                = (Normal (text_content (VStr (act_successMessage cfg current))),
                   mkWorld (transport w1) (heap w1)
                     (trace w1 ++ [EvSuccessMessage current])%list)).
    { cbn [createActionTool handler]. unfold Effects.bind at 1. rewrite H.
      reflexivity. }
    split; [exact R|]. intros E. rewrite R, <- E. reflexivity.
  - intros e w1 H. cbn [createActionTool handler]. unfold Effects.bind at 1.
    rewrite H. reflexivity.
Qed.

Lemma C8_delete_tool_witness :
  handler (createActionTool Demo.delete_tool) Demo.token_client 0 Demo.with_args
  = (Normal (VObj [("content",
                    VArr [VObj [("type", VStr "text");
                                ("text", VStr "Deleted item 1")]])]),
     mkWorld [] [VObj [("id", VNum 1)]]
       [EvSuccessMessage (VObj [("id", VNum 1)])])
  /\ handler (createActionTool Demo.error_tool) Demo.token_client 0
       Demo.with_args
     = (Throw (new_Error "Handler failed"), Demo.with_args).
Proof.
  split.
  - exact (proj1 (proj1 (C8_createActionTool_message unit Demo.delete_tool
                           Demo.token_client 0 Demo.with_args)
                        VUndefined Demo.with_args eq_refl)).
  - exact (proj2 (C8_createActionTool_message unit Demo.error_tool
                    Demo.token_client 0 Demo.with_args)
                 (new_Error "Handler failed") Demo.with_args eq_refl).
Defined.

(** C8 (as stated, refuted).  The inner handler of [Demo.renumbering_tool]
    assigns [args.id = 2] and resolves; called on the argument object
    [{id: 1}], the tool answers [Deleted item 2], not the message of the
    pre-handler arguments, [Deleted item 1]. *)
Lemma C8_renumbering_counterexample :
  ~ message_of_original_arguments Demo.renumbering_tool Demo.token_client 0
      Demo.with_args.
Proof.
  intros H.
  specialize (H VUndefined
                (mkWorld [] [VObj [("id", VNum 2)]] []) eq_refl).
  vm_compute in H. discriminate.
Qed.

(** C10 (amended).  In the query string of [buildQueryString] (read back
    by form-decoding), [limit], [offset] and [page] appear exactly when
    their value is not [undefined], with the [ToString] of the value, so
    that 0 appears as [0]; the nine other keys appear exactly when their
    value is truthy, so that an empty string, [null], 0 and [false] leave
    the key out; an array is truthy whatever it holds: under [fields],
    [sort] or [groupBy] it is emitted as its comma-joined elements, and the
    empty array as the key with an empty value. *)
Theorem C10_presence_tests (bag : list (string * value)) :
  exists q pairs,
    buildQueryString (VObj bag) = Normal q
    /\ parse_query form_decode q = Some pairs
    /\ (forall k, In k numeric_keys ->
          (In k (map fst pairs) <-> assoc k bag <> VUndefined)
          /\ (assoc k bag <> VUndefined ->
              In (k, to_string (assoc k bag)) pairs)
          /\ (assoc k bag = VNum 0 -> In (k, "0") pairs))
    /\ (forall k, In k truthy_keys ->
          (In k (map fst pairs) <-> truthy (assoc k bag) = true))
    /\ (forall k xs, In k list_keys -> assoc k bag = VArr xs ->
          In (k, array_join xs) pairs)
    /\ (forall k, In k list_keys -> assoc k bag = VArr [] ->
          In (k, "") pairs).
Proof.
  destruct (parse_query_render (VObj bag) eq_refl) as [q [B P]].
  exists q, (collect (VObj bag)).
  assert (L : forall k xs, In k list_keys -> assoc k bag = VArr xs ->
                           In (k, array_join xs) (collect (VObj bag))).
  { intros k xs Hk G. apply In_collect.
    assert (Q : In k query_keys) by (cbn in Hk |- *; tauto).
    split; [exact Q|].
    cbn in Hk. destruct Hk as [<-|[<-|[<-|[]]]];
      unfold emitted, rendered; cbn [includes existsb numeric_keys list_keys
        String.eqb Ascii.eqb Bool.eqb orb get]; rewrite G; split; reflexivity. }
  assert (D : forall k, In k numeric_keys ->
                        assoc k bag <> VUndefined ->
                        In (k, to_string (assoc k bag)) (collect (VObj bag))).
  { intros k Hk G. apply In_collect.
    assert (Q : In k query_keys) by (cbn in Hk |- *; tauto).
    split; [exact Q|]. apply is_defined_spec in G.
    cbn in Hk. destruct Hk as [<-|[<-|[<-|[]]]];
      unfold emitted, rendered; cbn [includes existsb numeric_keys list_keys
        json_keys String.eqb Ascii.eqb Bool.eqb orb get]; rewrite G;
      split; reflexivity. }
  split; [exact B|]. split; [exact P|]. split; [|split; [|split]].
  - intros k Hk. split; [|split].
    + rewrite In_collect_key, <- is_defined_spec.
      assert (Q : In k query_keys) by (cbn in Hk |- *; tauto).
      cbn in Hk. destruct Hk as [<-|[<-|[<-|[]]]];
        unfold emitted; cbn [includes existsb numeric_keys
          String.eqb Ascii.eqb Bool.eqb orb get]; tauto.
    + apply D. exact Hk.
    + intros Z. specialize (D k Hk). rewrite Z in D. apply D. discriminate.
  - intros k Hk. rewrite In_collect_key.
    assert (Q : In k query_keys) by (cbn in Hk |- *; tauto).
    cbn in Hk.
    destruct Hk as [<-|[<-|[<-|[<-|[<-|[<-|[<-|[<-|[<-|[]]]]]]]]]];
      unfold emitted; cbn [includes existsb numeric_keys
        String.eqb Ascii.eqb Bool.eqb orb get]; tauto.
  - exact L.
  - intros k Hk G. exact (L k [] Hk G).
Qed.

Lemma C10_zero_limit_witness :
  exists q pairs,
    buildQueryString (VObj Demo.zero_limit) = Normal q
    /\ parse_query form_decode q = Some pairs
    /\ In ("limit", "0") pairs
    /\ In ("fields", "") pairs
    /\ ~ In "search" (map fst pairs)
    /\ ~ In "offset" (map fst pairs).
Proof.
  destruct (C10_presence_tests Demo.zero_limit)
    as [q [pairs [B [P [D [T [_ E]]]]]]].
  exists q, pairs. split; [exact B|]. split; [exact P|].
  split; [|split; [|split]].
  - exact (proj2 (proj2 (D "limit" (or_introl eq_refl))) eq_refl).
  - exact (E "fields" (or_introl eq_refl) eq_refl).
  - intros H.
    apply (proj1 (T "search" (or_intror (or_intror (or_introl eq_refl))))) in H.
    discriminate.
  - intros H.
    apply (proj1 (proj1 (D "offset" (or_intror (or_introl eq_refl))))) in H.
    apply H. reflexivity.
Defined.

(** C10 (as stated, refuted).  An empty array joins to the empty string
    and yet its key is not omitted: [{fields: []}] gives [?fields=]. *)
Lemma C10_empty_array_counterexample :
  array_join [] = ""
  /\ buildQueryString (VObj [("fields", VArr [])]) = Normal "?fields="
  /\ buildQueryString (VObj [("fields", VArr [])]) <> Normal "".
Proof. repeat split. vm_compute. discriminate. Qed.
End Claims.

(* ================================================================== *)
(** * More properties of the resource client *)
(* ================================================================== *)

Section RequestFacts.
Import JS Effects Client.

Lemma request_catch_world (e : value) (w : World) :
  snd (request_catch e w) = w.
Proof.
  unfold request_catch, Effects.bind, lift, throw.
  destruct (get_strict e "message") as [m|x]; [|reflexivity].
  destruct (call_includes m "Directus API error:") as [b|x]; [|reflexivity].
  destruct b; reflexivity.
Qed.

(** Whatever happens, [request] calls [fetch] once, consumes one outcome
    of the transport, calls [json()] at most once and leaves the heap. *)
Lemma request_footprint (this : DirectusClient) (meth endpoint : string)
    (data : value) (w : World) :
  exists rest,
    snd (request this meth endpoint data w)
    = mkWorld (tl (transport w)) (heap w)
        (trace w ++ EvFetch (baseUrl this ++ endpoint)
                      (request_options this meth data) :: rest)%list
    /\ exchange w rest.
Proof.
  unfold request, try_catch. unfold Effects.bind at 1. unfold fetch.
  destruct (transport w) as [|outcome later] eqn:T.
  - exists []. split; [|left; reflexivity].
    rewrite request_catch_world. reflexivity.
  - destruct outcome as [response|e].
    + destruct (ok response) eqn:K; cbn [negb].
      * destruct (Z.eqb (status response) 204) eqn:S.
        -- exists []. split; [reflexivity|left; reflexivity].
        -- exists [EvJson response]. split.
           ++ unfold response_json, Effects.bind, emit, lift.
              cbn [transport heap trace].
              destruct (json response) as [v|e].
              ** rewrite <- app_assoc. reflexivity.
              ** rewrite request_catch_world. rewrite <- app_assoc.
                 reflexivity.
           ++ right. exists response, later. split; [exact T|reflexivity].
      * exists [EvJson response]. split.
        -- unfold Effects.bind at 1. unfold try_catch, response_json.
           unfold Effects.bind at 1. unfold emit, lift.
           cbn [transport heap trace].
           destruct (json response) as [v|e]; unfold ret, throw;
             rewrite request_catch_world; rewrite <- app_assoc;
             reflexivity.
        -- right. exists response, later. split; [exact T|reflexivity].
    + exists []. split; [|left; reflexivity].
      rewrite request_catch_world. reflexivity.
Qed.

Lemma fetches_app (xs ys : list Event) :
  fetches (xs ++ ys) = (fetches xs ++ fetches ys)%list.
Proof.
  induction xs as [|x xs IH]; [reflexivity|].
  rewrite <- app_comm_cons.
  destruct x; cbn [fetches]; rewrite IH; reflexivity.
Qed.

Lemma fetches_exchange (w : World) (rest : list Event) :
  exchange w rest -> fetches rest = [].
Proof.
  intros [->|[response [later [_ ->]]]]; reflexivity.
Qed.

(** The [fetch] calls of one [request]. *)
Lemma request_fetches (this : DirectusClient) (meth endpoint : string)
    (data : value) (w : World) :
  fetches (trace (snd (request this meth endpoint data w)))
  = (fetches (trace w)
     ++ [((baseUrl this ++ endpoint)%string,
          request_options this meth data)])%list.
Proof.
  destruct (request_footprint this meth endpoint data w) as [rest [E X]].
  rewrite E. cbn [trace]. rewrite fetches_app. cbn [fetches].
  rewrite (fetches_exchange w rest X). reflexivity.
Qed.

Lemma request_heap (this : DirectusClient) (meth endpoint : string)
    (data : value) (w : World) :
  heap (snd (request this meth endpoint data w)) = heap w.
Proof.
  destruct (request_footprint this meth endpoint data w) as [rest [E _]].
  rewrite E. reflexivity.
Qed.

Lemma request_success (this : DirectusClient) (meth endpoint : string)
    (data : value) (w : World) (response : Response)
    (later : list (Completion Response)) (v : value) :
  transport w = Normal response :: later ->
  ok response = true ->
  status response <> 204%Z ->
  json response = Normal v ->
  request this meth endpoint data w
  = (Normal v,
     mkWorld later (heap w)
       (trace w ++ [EvFetch (baseUrl this ++ endpoint)
                      (request_options this meth data);
                    EvJson response])%list).
Proof.
  intros T K S J. apply Z.eqb_neq in S.
  unfold request, try_catch. unfold Effects.bind at 1.
  unfold fetch. rewrite T, K, S. cbn [negb].
  unfold response_json, Effects.bind, emit, lift. cbn [transport heap trace].
  rewrite J. rewrite <- app_assoc. reflexivity.
Qed.

Lemma strip_slash_added (s : string) : strip_trailing_slash (s ++ "/") = s.
Proof.
  induction s as [|c s IH]; [reflexivity|].
  cbn [String.append strip_trailing_slash].
  destruct s as [|c' s'].
  - reflexivity.
  - cbn [String.append] in *. rewrite IH. reflexivity.
Qed.

Lemma strip_slash_absent (s : string) :
  (forall u, s <> u ++ "/") -> strip_trailing_slash s = s.
Proof.
  induction s as [|c s IH]; intros N; [reflexivity|].
  cbn [strip_trailing_slash]. destruct s as [|c' s'].
  - destruct (Ascii.eqb c "/") eqn:E; [|reflexivity].
    apply Ascii.eqb_eq in E. subst c. exfalso. apply (N ""). reflexivity.
  - rewrite IH; [reflexivity|].
    intros u E. apply (N (String c u)). cbn [String.append]. rewrite <- E.
    reflexivity.
Qed.

Lemma new_DirectusClient_inv (new_URL : string -> Completion unit)
    (cfg : DirectusConfig) (c : DirectusClient) (w w' : World) :
  new_DirectusClient new_URL cfg w = (Normal c, w') ->
  w' = w
  /\ config c = cfg
  /\ baseUrl c = strip_trailing_slash (url cfg)
  /\ authHeaders c
     = (if supplied (token cfg)
        then [("Authorization", "Bearer " ++ text_of (token cfg))]
        else [])
  /\ (supplied (token cfg) = true
      \/ supplied (email cfg) && supplied (password cfg) = true).
Proof.
  unfold new_DirectusClient, Effects.bind, lift, ret, initializeClient.
  destruct (new_URL (url cfg)) as [u|e]; [|discriminate].
  destruct (supplied (token cfg)) eqn:T.
  - intros H. injection H as <- <-. cbn. auto 6.
  - destruct (supplied (email cfg) && supplied (password cfg)) eqn:E.
    + intros H. injection H as <- <-. cbn. auto 6.
    + discriminate.
Qed.
End RequestFacts.

Section ResourceFacts.
Import JS Effects Client Resources.






(** With a truthy [export] they differ: only the later revision emits
    the key. *)
Lemma legacy_buildQueryString_export :
  Legacy.buildQueryString (VObj [("limit", VNum 2); ("export", VStr "csv")])
  = Normal "?limit=2"
  /\ buildQueryString (VObj [("limit", VNum 2); ("export", VStr "csv")])
     = Normal "?limit=2&export=csv".
Proof. split; reflexivity. Qed.

End ResourceFacts.

(* ================================================================== *)
(** * Properties of the tool listing and of the tool call handler *)
(* ================================================================== *)

Section ServerFacts.
Import JS Effects Client ToolHelpers Server.

Lemma getZodType_range :
  forall (z : Zod) (t : string), getZodType z = Normal t -> In t json_types.
Proof.
  fix IH 1. intros [tn d i o s] t. cbn [getZodType].
  destruct (String.eqb tn "ZodString");
    [intros H; injection H as <-; cbn; tauto|].
  destruct (String.eqb tn "ZodNumber");
    [intros H; injection H as <-; cbn; tauto|].
  destruct (String.eqb tn "ZodBoolean");
    [intros H; injection H as <-; cbn; tauto|].
  destruct (String.eqb tn "ZodArray");
    [intros H; injection H as <-; cbn; tauto|].
  destruct (String.eqb tn "ZodObject");
    [intros H; injection H as <-; cbn; tauto|].
  destruct (String.eqb tn "ZodOptional").
  { destruct i as [inner|]; [apply IH|discriminate]. }
  destruct (String.eqb tn "ZodUnion").
  { destruct o as [|first others]; [discriminate|apply IH]. }
  destruct (String.eqb tn "ZodRecord");
    intros H; injection H as <-; cbn; tauto.
Qed.

Lemma getZodType_built :
  forall z : Zod, zod_built z = true -> exists t, getZodType z = Normal t.
Proof.
  fix IH 1. intros [tn d i o s] B. cbn [zod_built] in B.
  apply andb_true_iff in B. destruct B as [B _].
  apply andb_true_iff in B. destruct B as [B BO].
  apply andb_true_iff in B. destruct B as [B BI].
  apply andb_true_iff in B. destruct B as [B1 B2].
  cbn [getZodType].
  destruct (String.eqb tn "ZodString"); [eexists; reflexivity|].
  destruct (String.eqb tn "ZodNumber"); [eexists; reflexivity|].
  destruct (String.eqb tn "ZodBoolean"); [eexists; reflexivity|].
  destruct (String.eqb tn "ZodArray"); [eexists; reflexivity|].
  destruct (String.eqb tn "ZodObject"); [eexists; reflexivity|].
  destruct (String.eqb tn "ZodOptional").
  { destruct i as [inner|]; [apply IH; exact BI|discriminate]. }
  destruct (String.eqb tn "ZodUnion").
  { destruct o as [|first others]; [discriminate|].
    cbn [forallb] in BO. apply andb_true_iff in BO. apply IH. apply BO. }
  destruct (String.eqb tn "ZodRecord"); eexists; reflexivity.
Qed.

Lemma zod_built_shape (z : Zod) (entries : list (string * Zod)) :
  zod_built z = true -> shape z = Some entries ->
  forallb (fun entry => zod_built (snd entry)) entries = true.
Proof.
  destruct z as [tn d i o s]. cbn [zod_built shape]. intros B E. subst s.
  apply andb_true_iff in B. apply B.
Qed.

Lemma property_schema_built (z : Zod) :
  zod_built z = true ->
  exists t, In t json_types
            /\ property_schema z
               = Normal (VObj [("type", VStr t);
                               ("description",
                                VStr match description z with
                                     | Some d => d
                                     | None => ""
                                     end)]).
Proof.
  intros B. destruct (getZodType_built z B) as [t E].
  exists t. split; [exact (getZodType_range z t E)|].
  unfold property_schema. rewrite E. reflexivity.
Qed.

Lemma properties_built (entries : list (string * Zod)) :
  forallb (fun entry => zod_built (snd entry)) entries = true ->
  exists props,
    properties entries = Normal props
    /\ map fst props = map fst entries
    /\ forall k p, In (k, p) props ->
                   exists t, get p "type" = VStr t /\ In t json_types.
Proof.
  induction entries as [|[k z] entries IH]; intros B.
  - exists []. repeat split. intros k p [].
  - cbn [forallb snd] in B. apply andb_true_iff in B. destruct B as [Bz B].
    destruct (IH B) as [props [E [K T]]].
    destruct (property_schema_built z Bz) as [t [R P]].
    eexists. cbn [properties]. rewrite P, E. split; [reflexivity|].
    split; [cbn [map fst]; rewrite K; reflexivity|].
    intros k' p' [H|H].
    + injection H as <- <-. exists t. split; [reflexivity|exact R].
    + exact (T k' p' H).
Qed.

Lemma required_spec (entries : list (string * Zod)) (k : string) :
  In k (required entries)
  <-> exists z, In (k, z) entries /\ typeName z <> "ZodOptional".
Proof.
  unfold required. rewrite in_map_iff. split.
  - intros [[k' z] [E H]]. cbn [fst] in E. subst k'.
    apply filter_In in H. destruct H as [H N]. cbn [snd] in N.
    exists z. split; [exact H|]. apply negb_true_iff in N.
    apply String.eqb_neq. exact N.
  - intros [z [H N]]. exists (k, z). split; [reflexivity|].
    apply filter_In. split; [exact H|]. cbn [snd]. apply negb_true_iff.
    apply String.eqb_neq. exact N.
Qed.

Lemma tool_entry_built (tool : MCPTool Zod) :
  zod_built (inputSchema tool) = true ->
  exists entry, tool_entry tool = Normal entry
                /\ get entry "name" = VStr (name tool).
Proof.
  intros B. unfold tool_entry.
  destruct (shape (inputSchema tool)) as [entries|] eqn:S.
  - destruct (properties_built entries (zod_built_shape _ _ B S))
      as [props [E _]].
    rewrite E. eexists. split; reflexivity.
  - eexists. split; reflexivity.
Qed.

Lemma tool_entries_built (tools : list (MCPTool Zod)) :
  Forall (fun tool => zod_built (inputSchema tool) = true) tools ->
  exists entries,
    tool_entries tools = Normal entries
    /\ map (fun entry => get entry "name") entries
       = map (fun tool => VStr (name tool)) tools.
Proof.
  induction 1 as [|tool tools B _ IH].
  - exists []. split; reflexivity.
  - destruct IH as [entries [E N]].
    destruct (tool_entry_built tool B) as [entry [T G]].
    exists (entry :: entries). cbn [tool_entries]. rewrite T, E.
    split; [reflexivity|]. cbn [map]. rewrite G, N. reflexivity.
Qed.

Lemma find_none_intro (A : Type) (p : A -> bool) (l : list A) :
  (forall x, In x l -> p x = false) -> find p l = None.
Proof.
  induction l as [|x l IH]; intros H; [reflexivity|].
  cbn [find]. rewrite (H x (or_introl eq_refl)).
  apply IH. intros y Hy. apply H. right. exact Hy.
Qed.

Lemma find_tool_filtered (tools : list (MCPTool Zod))
    (active : list Toolset) (n : string) :
  find_tool tools n = None ->
  find_tool (Index.filterToolsByToolsets tools active) n = None.
Proof.
  intros H. apply find_none_intro. intros x Hx.
  apply filter_In in Hx. destruct Hx as [Hx _].
  exact (find_none _ _ H x Hx).
Qed.
End ServerFacts.

(* ================================================================== *)
(** * Properties of the tool handlers *)
(* ================================================================== *)

Section ToolFacts.
Import JS Effects Client ToolHelpers Resources Tools.

Lemma assoc_put_same (k : string) (v : value) (props : list (string * value)) :
  assoc k (put k v props) = v.
Proof.
  induction props as [|[k0 v0] props IH]; cbn [put assoc].
  - rewrite String.eqb_refl. reflexivity.
  - destruct (String.eqb k k0) eqn:E; cbn [assoc].
    + rewrite String.eqb_refl. reflexivity.
    + rewrite E. exact IH.
Qed.

Lemma assoc_put_other (k k' : string) (v : value)
    (props : list (string * value)) :
  k <> k' -> assoc k (put k' v props) = assoc k props.
Proof.
  intros N. apply String.eqb_neq in N.
  induction props as [|[k0 v0] props IH]; cbn [put assoc].
  - rewrite N. reflexivity.
  - destruct (String.eqb k' k0) eqn:E; cbn [assoc].
    + apply String.eqb_eq in E. subst k0. rewrite N. reflexivity.
    + rewrite IH. reflexivity.
Qed.

Lemma nth_update (r : ref) (v d : value) (h : list value) :
  r < List.length h -> nth r (update r v h) d = v.
Proof.
  revert r. induction h as [|x h IH]; intros r L; [inversion L|].
  destruct r as [|r]; [reflexivity|].
  cbn [update nth]. apply IH. cbn [List.length] in L. lia.
Qed.

Lemma nth_defined (r : ref) (h : list value) (props : list (string * value)) :
  nth r h VUndefined = VObj props -> r < List.length h.
Proof.
  intros H. destruct (Nat.lt_ge_cases r (List.length h)) as [L|L];
    [exact L|].
  rewrite nth_overflow in H by exact L. discriminate.
Qed.

Lemma createCollection_request (client : DirectusClient) (data : value) :
  createCollection client data = request client "POST" "/collections" data.
Proof. reflexivity. Qed.

Lemma getRelations_request (client : DirectusClient) (w : World) :
  getRelations client w = request client "GET" "/relations" VUndefined w.
Proof. reflexivity. Qed.

Lemma deleteRelation_request (client : DirectusClient) (id : value) :
  deleteRelation client id
  = request client "DELETE" ("/relations/" ++ to_string id) VUndefined.
Proof. reflexivity. Qed.

(** The arguments object [create_collection] sends for [props]. *)
Lemma create_collection_sends (client : DirectusClient) (args : ref)
    (w : World) (props : list (string * value)) :
  nth args (heap w) VUndefined = VObj props ->
  truthy (assoc "schema" props) = false
  \/ (exists sprops, assoc "schema" props = VObj sprops) ->
  exists sent,
    create_collection client args w
    = request client "POST" "/collections" (VObj sent)
        (mkWorld (transport w)
           (if truthy (get (get (VObj props) "schema") "name") then heap w
            else update args (VObj sent) (heap w))
           (trace w))
    /\ (truthy (get (get (VObj props) "schema") "name") = true ->
        sent = props)
    /\ (truthy (get (get (VObj props) "schema") "name") = false ->
        get (get (VObj sent) "schema") "name" = assoc "collection" props)
    /\ (forall k, k <> "schema" -> assoc k sent = assoc k props)
    /\ (forall k, k <> "name" ->
                  get (assoc "schema" sent) k
                  = get (assoc "schema" props) k).
Proof.
  intros A S. pose proof (nth_defined _ _ _ A) as L.
  unfold create_collection. unfold Effects.bind at 1. unfold read at 1.
  rewrite A. unfold Effects.bind at 1. unfold lift at 1, get_strict.
  cbn [nullish get].
  destruct S as [S|[sprops S]].
  - rewrite S. cbn [negb].
    exists (put "schema" (VObj [("name", assoc "collection" props)]) props).
    split.
    + unfold Effects.bind, lift, assign, write, read.
      cbn [heap transport trace]. rewrite nth_update by exact L.
      assert (F : truthy (get (assoc "schema" props) "name") = false).
      { destruct (assoc "schema" props); try discriminate; reflexivity. }
      rewrite F. rewrite createCollection_request. reflexivity.
    + assert (F : truthy (get (assoc "schema" props) "name") = false).
      { destruct (assoc "schema" props); try discriminate; reflexivity. }
      rewrite F. split; [discriminate|]. split.
      * intros _. rewrite assoc_put_same. reflexivity.
      * split.
        -- intros k N. apply assoc_put_other. exact N.
        -- intros k N. rewrite assoc_put_same.
           assert (G : get (assoc "schema" props) k = VUndefined).
           { destruct (assoc "schema" props); try discriminate;
               reflexivity. }
           rewrite G. cbn [get assoc].
           apply String.eqb_neq in N. rewrite N. reflexivity.
  - rewrite S. cbn [truthy negb get].
    destruct (truthy (assoc "name" sprops)) eqn:Nm; cbn [negb].
    + exists props. split.
      * unfold Effects.bind, ret, read. rewrite A.
        rewrite createCollection_request. reflexivity.
      * split; [reflexivity|]. split; [discriminate|].
        split; [reflexivity|]. intros k N. rewrite ?S. reflexivity.
    + exists (put "schema"
                (VObj (put "name" (assoc "collection" props) sprops)) props).
      split.
      * unfold Effects.bind, lift, assign, write, read.
        cbn [heap transport trace]. rewrite nth_update by exact L.
        rewrite createCollection_request. reflexivity.
      * split; [discriminate|]. split.
        -- intros _. rewrite assoc_put_same. cbn [get].
           apply assoc_put_same.
        -- split.
           ++ intros k N. apply assoc_put_other. exact N.
           ++ intros k N. rewrite assoc_put_same, ?S. cbn [get].
              apply assoc_put_other. exact N.
Qed.

(** No element of [rs] is the relation of [a]. *)
Lemma find_relation_none (a : value) (rs : list value) :
  nullish a = false ->
  Forall (fun r => nullish r = false
                   /\ strict_equals (get r "collection") (get a "collection")
                      && strict_equals (get r "field") (get a "field")
                      = false) rs ->
  find_relation a rs = Normal VUndefined.
Proof.
  intros NA. induction 1 as [|r rs [NR M] _ IH]; [reflexivity|].
  cbn [find_relation]. unfold get_strict. rewrite NR, NA. cbv iota beta.
  rewrite M. exact IH.
Qed.

Lemma find_relation_first (a r : value) (before after : list value) :
  nullish a = false ->
  Forall (fun r => nullish r = false
                   /\ strict_equals (get r "collection") (get a "collection")
                      && strict_equals (get r "field") (get a "field")
                      = false) before ->
  nullish r = false ->
  strict_equals (get r "collection") (get a "collection")
  && strict_equals (get r "field") (get a "field") = true ->
  find_relation a (before ++ r :: after) = Normal r.
Proof.
  intros NA B NR M. induction B as [|x xs [NX MX] _ IH].
  - rewrite app_nil_l. cbn [find_relation]. unfold get_strict.
    rewrite NR, NA. cbv iota beta. rewrite M. reflexivity.
  - rewrite <- app_comm_cons. cbn [find_relation]. unfold get_strict.
    rewrite NX, NA. cbv iota beta. rewrite MX. exact IH.
Qed.

(** A relation whose [collection] is strictly equal to a string is an
    object, hence truthy. *)
Lemma matching_relation_truthy (a r : value) (c : string) :
  get a "collection" = VStr c ->
  strict_equals (get r "collection") (get a "collection")
  && strict_equals (get r "field") (get a "field") = true ->
  truthy r = true.
Proof.
  intros C M. rewrite C in M. apply andb_true_iff in M. destruct M as [M _].
  destruct r; try reflexivity; cbn [get strict_equals] in M; discriminate.
Qed.
End ToolFacts.

Section FlowToolFacts.
Import JS Effects Client ToolHelpers Resources Tools.



End FlowToolFacts.


(* ================================================================== *)
(** * More properties of the toolset selection and of the query encoder *)
(* ================================================================== *)

Section SelectionFacts.
Import JS ToolHelpers.
Variable trim : string -> string.
Variable toLowerCase : string -> string.

(** Every active toolset is in the vocabulary. *)
Lemma parseToolsets_valid (envValue : option string) (t : string) :
  In t (fst (Index.parseToolsets trim toLowerCase envValue)) ->
  In t Index.validToolsets.
Proof.
  destruct (unset trim envValue) eqn:U.
  - rewrite Index_parseToolsets_default by (left; exact U).
    intros [<-|[]]. cbn. tauto.
  - destruct (valid_tokens trim toLowerCase Index.validToolsets envValue)
      as [|x xs] eqn:V.
    + rewrite Index_parseToolsets_default by (right; exact V).
      intros [<-|[]]. cbn. tauto.
    + rewrite Index_parseToolsets_tokens; [|exact U|rewrite V; discriminate].
      unfold valid_tokens. intros H. apply filter_In in H.
      apply includes_In. apply H.
Qed.

Lemma parseToolsets_nonempty (envValue : option string) :
  fst (Index.parseToolsets trim toLowerCase envValue) <> [].
Proof.
  destruct (unset trim envValue) eqn:U.
  - rewrite Index_parseToolsets_default by (left; exact U). discriminate.
  - destruct (valid_tokens trim toLowerCase Index.validToolsets envValue)
      as [|x xs] eqn:V.
    + rewrite Index_parseToolsets_default by (right; exact V). discriminate.
    + rewrite Index_parseToolsets_tokens; [|exact U|rewrite V; discriminate].
      rewrite V. discriminate.
Qed.

End SelectionFacts.

Section QuerySafetyFacts.
Import JS Client.

Lemma every_char_app (p : ascii -> bool) (a b : string) :
  every_char p (a ++ b) = every_char p a && every_char p b.
Proof.
  induction a as [|c a IH]; [reflexivity|].
  cbn [String.append every_char]. rewrite IH. apply andb_assoc.
Qed.

Lemma urlencode_byte_safe (c : ascii) :
  every_char query_char (urlencode_byte c) = true.
Proof. destruct c as [[] [] [] [] [] [] [] []]; vm_compute; reflexivity. Qed.

Lemma urlencode_safe (s : string) : every_char query_char (urlencode s) = true.
Proof.
  induction s as [|c s IH]; [reflexivity|].
  cbn [urlencode]. rewrite every_char_app, urlencode_byte_safe, IH.
  reflexivity.
Qed.

Lemma toString_safe (qp : URLSearchParams) :
  every_char query_char (URLSearchParams_toString qp) = true.
Proof.
  rewrite toString_pieces.
  assert (P : forall nv, every_char query_char (QueryParsing.piece nv) = true).
  { intros nv. unfold QueryParsing.piece.
    rewrite !every_char_app, !urlencode_safe. reflexivity. }
  induction qp as [|nv qp IH]; [reflexivity|].
  destruct qp as [|nv' qp].
  - cbn [map String.concat]. apply P.
  - change (String.concat "&" (map QueryParsing.piece (nv :: nv' :: qp)))
      with (QueryParsing.piece nv
            ++ "&" ++ String.concat "&" (map QueryParsing.piece (nv' :: qp))).
    rewrite !every_char_app, P, IH. reflexivity.
Qed.
End QuerySafetyFacts.


(* ================================================================== *)
(** * Further properties of the code *)
(* ================================================================== *)

Section ClientProperties.
Import JS Effects Client Resources.

(** X1 ([request]).  Whatever the transport answers and whatever the
    arguments are, one call of [request] performs exactly one [fetch], to
    [baseUrl + endpoint] with the options built from the method and the
    data; it consumes that one outcome of the transport, calls [json()] at
    most once (on the response it received), and leaves the argument
    objects alone.  Nothing is retried on any path. *)
Theorem X1_request_single_exchange (this : DirectusClient)
    (meth endpoint : string) (data : value) (w : World) :
  exists rest,
    snd (request this meth endpoint data w)
    = mkWorld (tl (transport w)) (heap w)
        (trace w ++ EvFetch (baseUrl this ++ endpoint)
                      (request_options this meth data) :: rest)%list
    /\ exchange w rest
    /\ fetches (trace (snd (request this meth endpoint data w)))
       = (fetches (trace w)
          ++ [((baseUrl this ++ endpoint)%string,
               request_options this meth data)])%list.
Proof.
  destruct (request_footprint this meth endpoint data w) as [rest [E X]].
  exists rest. split; [exact E|]. split; [exact X|].
  apply request_fetches.
Qed.



(** X3 ([request]).  A successful response (not 204) whose body cannot be
    parsed is reported like an API error: when [json()] rejects with an
    [Error] whose message is not empty and does not contain the marker,
    [request] rejects with [Directus API error: <that message>]. *)
Theorem X3_request_unreadable_body (this : DirectusClient)
    (meth endpoint : string) (data : value) (w : World)
    (response : Response) (later : list (Completion Response))
    (kind msg : string) :
  transport w = Normal response :: later ->
  ok response = true ->
  status response <> 204%Z ->
  json response = Throw (VError kind msg []) ->
  msg <> "" ->
  str_includes "Directus API error:" msg = false ->
  request this meth endpoint data w
  = (Throw (new_Error (api_prefix ++ msg)),
     mkWorld later (heap w)
       (trace w ++ [EvFetch (baseUrl this ++ endpoint)
                      (request_options this meth data);
                    EvJson response])%list).
Proof.
  intros T K S J N I. apply Z.eqb_neq in S.
  unfold request, try_catch. unfold Effects.bind at 1.
  unfold fetch. rewrite T, K, S. cbn [negb].
  unfold response_json, Effects.bind, emit, lift. cbn [transport heap trace].
  rewrite J. unfold request_catch, Effects.bind, lift, get_strict.
  cbn [nullish get String.eqb Ascii.eqb Bool.eqb call_includes].
  rewrite I. unfold throw, best_message, opt_get, opt_get0.
  cbn [get String.eqb Ascii.eqb Bool.eqb assoc nullish get0 or_else truthy].
  destruct msg as [|c rest]; [congruence|].
  cbn. rewrite <- app_assoc. reflexivity.
Qed.

Lemma X3_html_body_witness :
  fst (request Demo.token_client "GET" "/items/articles" VUndefined
         (Demo.mock
            (Normal (mkResponse true 200 "OK"
                       (Throw (VError "SyntaxError"
                                 "Unexpected token < in JSON at position 0"
                                 []))))))
  = Throw (new_Error
             "Directus API error: Unexpected token < in JSON at position 0").
Proof.
  rewrite (X3_request_unreadable_body Demo.token_client "GET"
             "/items/articles" VUndefined _
             (mkResponse true 200 "OK"
                (Throw (VError "SyntaxError"
                          "Unexpected token < in JSON at position 0" [])))
             [] "SyntaxError" "Unexpected token < in JSON at position 0").
  - reflexivity.
  - reflexivity.
  - reflexivity.
  - discriminate.
  - reflexivity.
  - discriminate.
  - reflexivity.
Defined.

(** X4 (constructor).  The base URL is the configured URL without one
    trailing slash: a URL written with a trailing slash and the same URL
    written without it address the same endpoints, and only one slash is
    removed. *)
Theorem X4_base_url_drops_one_slash (new_URL : string -> Completion unit)
    (cfg : DirectusConfig) (c : DirectusClient) (w w' : World) :
  new_DirectusClient new_URL cfg w = (Normal c, w') ->
  (forall u, url cfg = u ++ "/" -> baseUrl c = u)
  /\ ((forall u, url cfg <> u ++ "/") -> baseUrl c = url cfg).
Proof.
  intros H. apply new_DirectusClient_inv in H.
  destruct H as [_ [_ [B _]]]. rewrite B. split.
  - intros u E. rewrite E. apply strip_slash_added.
  - apply strip_slash_absent.
Qed.

Lemma X4_base_url_witness :
  baseUrl Demo.token_client = "https://directus.example.com".
Proof.
  apply (proj1 (X4_base_url_drops_one_slash Demo.new_URL Demo.token_config
                  Demo.token_client (Demo.mock (Normal Demo.no_content))
                  (Demo.mock (Normal Demo.no_content)) eq_refl)
           "https://directus.example.com").
  reflexivity.
Defined.




End ClientProperties.

Section RevisionProperties.
Import JS Effects Client Resources.


End RevisionProperties.

Section SessionProperties.
Import JS Effects Client Resources.

(** X8 ([createDirectusClient]).  For a URL the SDK accepts, with a
    token and without a complete email and password pair, the client is
    returned without any login exchange and without any effect, whatever
    the SDK's login would do. *)
Theorem X8_token_client_never_logs_in (new_URL : string -> Completion unit)
    (login : string -> string -> M unit) (cfg : DirectusConfig) (w : World) :
  new_URL (url cfg) = Normal tt ->
  supplied (token cfg) = true ->
  supplied (email cfg) && supplied (password cfg) = false ->
  createDirectusClient new_URL login cfg w
  = (Normal (mkClient cfg (strip_trailing_slash (url cfg))
               [("Authorization", "Bearer " ++ text_of (token cfg))]
               (SdkStaticToken (url cfg) (text_of (token cfg)))),
     w).
Proof.
  intros U T E.
  unfold createDirectusClient, new_DirectusClient, initializeClient,
    Effects.bind, lift, ret. rewrite U, T. cbn [fst snd].
  unfold authenticate. cbn [config]. rewrite E. reflexivity.
Qed.

Lemma X8_token_witness :
  createDirectusClient Demo.new_URL Samples.refused Demo.token_config
    (Demo.mock (Normal Demo.not_found))
  = (Normal Demo.token_client, Demo.mock (Normal Demo.not_found)).
Proof.
  apply (X8_token_client_never_logs_in Demo.new_URL Samples.refused
           Demo.token_config (Demo.mock (Normal Demo.not_found)));
    reflexivity.
Defined.

(** X9 ([authenticate], [createDirectusClient]).  For a URL the SDK
    accepts, with email and password and no token, the client logs in
    once with these credentials.  If the login resolves the client is
    returned; if it rejects with [error], the caller receives
    [Authentication failed: <text>], where the text is [error.message]
    for an [Error] instance and [String(error)] otherwise (so
    [[object Object]] for the error objects of the SDK). *)
Theorem X9_session_login (new_URL : string -> Completion unit)
    (login : string -> string -> M unit) (cfg : DirectusConfig) (w : World) :
  new_URL (url cfg) = Normal tt ->
  supplied (token cfg) = false ->
  supplied (email cfg) = true ->
  supplied (password cfg) = true ->
  createDirectusClient new_URL login cfg w
  = match login (text_of (email cfg)) (text_of (password cfg)) w with
    | (Normal _, w') =>
        (Normal (mkClient cfg (strip_trailing_slash (url cfg)) []
                   (SdkAuthentication (url cfg) "json")), w')
    | (Throw error, w') =>
        (Throw (new_Error ("Authentication failed: " ++ failure_text error)),
         w')
    end.
Proof.
  intros U T E P.
  unfold createDirectusClient, new_DirectusClient, initializeClient,
    Effects.bind, lift, ret. rewrite U, T, E, P. cbn [andb fst snd].
  unfold authenticate. cbn [config client]. rewrite E, P. cbn [andb].
  unfold try_catch, client_login, throw.
  destruct (login (text_of (email cfg)) (text_of (password cfg)) w)
    as [[u|error] w']; reflexivity.
Qed.

Lemma X9_refused_witness :
  createDirectusClient Demo.new_URL Samples.refused Demo.login_config
    (Demo.mock (Normal Demo.not_found))
  = (Throw (new_Error "Authentication failed: [object Object]"),
     Demo.mock (Normal Demo.not_found)).
Proof.
  apply (X9_session_login Demo.new_URL Samples.refused Demo.login_config
           (Demo.mock (Normal Demo.not_found))); reflexivity.
Defined.

(** X10 ([createDirectusClient]).  For a URL the SDK accepts, when a
    token and an email and a password are all supplied, the client is
    built for the token (the SDK client composed with [staticToken],
    which has no [login]) but [authenticate] still tries to log in: the
    call fails with [Authentication failed: ...] before any login
    exchange takes place. *)
Theorem X10_token_and_password_fail (new_URL : string -> Completion unit)
    (login : string -> string -> M unit) (cfg : DirectusConfig) (w : World) :
  new_URL (url cfg) = Normal tt ->
  supplied (token cfg) = true ->
  supplied (email cfg) = true ->
  supplied (password cfg) = true ->
  createDirectusClient new_URL login cfg w
  = (Throw (new_Error
              "Authentication failed: this.client.login is not a function"),
     w).
Proof.
  intros U T E P.
  unfold createDirectusClient, new_DirectusClient, initializeClient,
    Effects.bind, lift, ret. rewrite U, T. cbn [fst snd].
  unfold authenticate. cbn [config client]. rewrite E, P. reflexivity.
Qed.

Lemma X10_all_credentials_witness :
  fst (createDirectusClient Demo.new_URL Samples.accepted
         (mkConfig "https://directus.example.com" (Some "test-token")
            (Some "test@example.com") (Some "test-password"))
         (Demo.mock (Normal Demo.not_found)))
  = Throw (new_Error
             "Authentication failed: this.client.login is not a function").
Proof.
  rewrite (X10_token_and_password_fail Demo.new_URL Samples.accepted
             (mkConfig "https://directus.example.com" (Some "test-token")
                (Some "test@example.com") (Some "test-password"))
             (Demo.mock (Normal Demo.not_found))); reflexivity.
Defined.
End SessionProperties.

Section ServerProperties.
Import JS Effects Client ToolHelpers Server.

(** X11 ([getZodType]).  On a schema as zod builds it, [getZodType]
    returns, and what it returns is one of the five JSON Schema type
    names [string], [number], [boolean], [array], [object]; on any schema
    object, whatever it returns is one of the five. *)
Theorem X11_getZodType_names (z : Zod) :
  (forall t, getZodType z = Normal t -> In t json_types)
  /\ (zod_built z = true ->
      exists t, getZodType z = Normal t /\ In t json_types).
Proof.
  split; [apply getZodType_range|].
  intros B. destruct (getZodType_built z B) as [t E].
  exists t. split; [exact E|exact (getZodType_range z t E)].
Qed.

Lemma X11_default_method_witness :
  exists t,
    getZodType (Samples.z_default
                  (Samples.z_optional (Samples.z_enum None) None) None)
    = Normal t
    /\ In t json_types.
Proof.
  apply (proj2 (X11_getZodType_names
                  (Samples.z_default
                     (Samples.z_optional (Samples.z_enum None) None) None))).
  reflexivity.
Defined.

(** X12 (the listing of one tool).  For a tool whose input schema is an
    object schema, the listed [properties] have the keys of the shape, in
    its order, each with one of the five type names; [required] lists the
    keys whose schema is not itself a [ZodOptional], so a key whose
    optional schema is wrapped again (a default) is listed as required. *)
Theorem X12_listed_input_schema (tool : MCPTool Zod)
    (entries : list (string * Zod)) :
  shape (inputSchema tool) = Some entries ->
  forallb (fun entry => zod_built (snd entry)) entries = true ->
  exists props,
    tool_entry tool
    = Normal
        (VObj [("name", VStr (name tool));
               ("description", VStr (ToolHelpers.description tool));
               ("inputSchema",
                VObj [("type", VStr "object");
                      ("properties", VObj props);
                      ("required", VArr (map VStr (required entries)))])])
    /\ map fst props = map fst entries
    /\ (forall k p, In (k, p) props ->
                    exists t, get p "type" = VStr t /\ In t json_types)
    /\ (forall k, In k (required entries)
                  <-> exists z, In (k, z) entries
                                /\ typeName z <> "ZodOptional").
Proof.
  intros S B. destruct (properties_built entries B) as [props [E [K T]]].
  exists props. unfold tool_entry. rewrite S, E.
  split; [reflexivity|]. split; [exact K|]. split; [exact T|].
  intros k. apply required_spec.
Qed.

Lemma X12_trigger_schema_witness :
  exists props,
    tool_entry Samples.trigger_tool
    = Normal
        (VObj [("name", VStr "trigger_flow");
               ("description", VStr "Trigger a flow");
               ("inputSchema",
                VObj [("type", VStr "object");
                      ("properties", VObj props);
                      ("required", VArr [VStr "id"; VStr "method"])])])
    /\ map fst props = ["id"; "method"; "limit"].
Proof.
  destruct (X12_listed_input_schema Samples.trigger_tool
              [("id", Samples.z_string (Some "Flow ID"));
               ("method",
                Samples.z_default
                  (Samples.z_optional (Samples.z_enum None) None) None);
               ("limit", Samples.z_optional (Samples.z_number None) None)]
              eq_refl eq_refl) as [props [E [K _]]].
  exists props. split; [exact E|exact K].
Defined.

(** X13 (the list handler).  When every registered input schema is as zod
    builds it, the listing succeeds without any effect, and it names
    exactly the tools that the toolset filter keeps, in registry order. *)
Theorem X13_listing_names_enabled_tools (allTools : list (MCPTool Zod))
    (enabledToolsets : list Toolset) (w : World) :
  Forall (fun tool => zod_built (inputSchema tool) = true) allTools ->
  exists entries,
    listTools allTools enabledToolsets w
    = (Normal (VObj [("tools", VArr entries)]), w)
    /\ map (fun entry => get entry "name") entries
       = map (fun tool => VStr (name tool))
             (Index.filterToolsByToolsets allTools enabledToolsets).
Proof.
  intros B.
  assert (B' : Forall (fun tool => zod_built (inputSchema tool) = true)
                 (enabledTools allTools enabledToolsets)).
  { apply Forall_forall. intros tool H.
    apply filter_In in H. destruct H as [H _].
    rewrite Forall_forall in B. exact (B tool H). }
  destruct (tool_entries_built _ B') as [entries [E N]].
  exists entries. unfold listTools, Effects.bind, lift, ret. rewrite E.
  split; [reflexivity|exact N].
Qed.

Lemma X13_schema_listing_witness :
  exists entries,
    listTools Samples.registry ["schema"] (Demo.mock (Normal Demo.not_found))
    = (Normal (VObj [("tools", VArr entries)]),
       Demo.mock (Normal Demo.not_found))
    /\ map (fun entry => get entry "name") entries
       = [VStr "get_schema_snapshot"].
Proof.
  apply (X13_listing_names_enabled_tools Samples.registry ["schema"]
           (Demo.mock (Normal Demo.not_found))).
  repeat constructor.
Defined.

(** X14 (the call handler).  A name no registered tool has is answered
    with [Tool not found: <name>]; nothing is validated, run or
    fetched. *)
Theorem X14_unknown_tool
    (parse : Zod -> value -> Completion value)
    (allTools : list (MCPTool Zod)) (enabledToolsets : list Toolset)
    (directusClient : DirectusClient)
    (n : string) (args : value) (w : World) :
  find_tool allTools n = None ->
  callTool parse allTools enabledToolsets directusClient n args w
  = (Throw (new_Error ("Tool not found: " ++ n)), w).
Proof.
  intros H. unfold callTool, enabledTools.
  rewrite (find_tool_filtered allTools enabledToolsets n H), H.
  reflexivity.
Qed.

Lemma X14_unknown_tool_witness :
  callTool Samples.accept Samples.registry ["default"] Demo.token_client
    "drop_database" (VObj []) (Demo.mock (Normal Demo.not_found))
  = (Throw (new_Error "Tool not found: drop_database"),
     Demo.mock (Normal Demo.not_found)).
Proof.
  apply (X14_unknown_tool Samples.accept Samples.registry ["default"]
           Demo.token_client "drop_database" (VObj [])
           (Demo.mock (Normal Demo.not_found))).
  reflexivity.
Defined.

(** X15 (the call handler).  In a registry without duplicate names, a
    registered tool none of whose toolsets is enabled cannot be called:
    the answer names its toolsets and the enabled ones, and its handler
    is not run. *)
Theorem X15_disabled_tool
    (parse : Zod -> value -> Completion value)
    (allTools : list (MCPTool Zod)) (enabledToolsets : list Toolset)
    (directusClient : DirectusClient)
    (tool : MCPTool Zod) (declared : list Toolset)
    (args : value) (w : World) :
  NoDup (map name allTools) ->
  In tool allTools ->
  toolsets tool = Some declared ->
  (forall t, In t declared -> ~ In t enabledToolsets) ->
  callTool parse allTools enabledToolsets directusClient (name tool) args w
  = (Throw (new_Error
              ("Tool " ++ dqs ++ name tool ++ dqs
               ++ " is not available. It belongs to toolsets: "
               ++ join ", " declared ++ ". Enabled toolsets: "
               ++ join ", " enabledToolsets)),
     w).
Proof.
  intros D I T N.
  assert (U : forall other, In other allTools ->
                            name other = name tool -> other = tool).
  { clear T N. induction allTools as [|x xs IH]; [contradiction|].
    cbn [map] in D. inversion D as [|? ? NI D']; subst.
    intros other Ho E. destruct I as [->|I], Ho as [->|Ho];
      try reflexivity.
    - exfalso. apply NI. rewrite <- E. apply in_map. exact Ho.
    - exfalso. apply NI. rewrite E. apply in_map. exact I.
    - apply IH; assumption. }
  assert (F : find_tool allTools (name tool) = Some tool).
  { unfold find_tool.
    destruct (find (fun t => String.eqb (name t) (name tool)) allTools)
      as [found|] eqn:E.
    - apply find_some in E. destruct E as [Hf Hn].
      apply String.eqb_eq in Hn. rewrite (U found Hf Hn). reflexivity.
    - exfalso. apply (find_none _ _ E) in I. rewrite String.eqb_refl in I.
      discriminate. }
  assert (G : find_tool (enabledTools allTools enabledToolsets) (name tool)
              = None).
  { apply find_none_intro. intros x Hx.
    apply Index_filter_spec in Hx. destruct Hx as [Hx [ts [t [E [Ht Ha]]]]].
    apply String.eqb_neq. intros Hn. rewrite (U x Hx Hn) in E.
    rewrite T in E. injection E as <-. exact (N t Ht Ha). }
  unfold callTool. rewrite G, F, T. reflexivity.
Qed.

Lemma X15_snapshot_disabled_witness :
  callTool Samples.accept Samples.registry ["default"] Demo.token_client
    "get_schema_snapshot" (VObj []) (Demo.mock (Normal Demo.not_found))
  = (Throw (new_Error
              ("Tool " ++ dqs ++ "get_schema_snapshot" ++ dqs
               ++ " is not available. It belongs to toolsets: schema"
               ++ ". Enabled toolsets: default")),
     Demo.mock (Normal Demo.not_found)).
Proof.
  apply (X15_disabled_tool Samples.accept Samples.registry ["default"]
           Demo.token_client Samples.get_snapshot ["schema"] (VObj [])
           (Demo.mock (Normal Demo.not_found))).
  - repeat constructor; cbn [In]; intuition discriminate.
  - right. left. reflexivity.
  - reflexivity.
  - intros t [<-|[]] [H|[]]. discriminate.
Defined.

(** X16 (the call handler).  When validation rejects the arguments of an
    enabled tool with a [ZodError] whose issues (objects of any shape)
    have the messages [texts], the answer is [Invalid arguments: ]
    followed by the messages joined with a comma and a space; the handler
    is not run and nothing is fetched. *)
Theorem X16_invalid_arguments
    (parse : Zod -> value -> Completion value)
    (allTools : list (MCPTool Zod)) (enabledToolsets : list Toolset)
    (directusClient : DirectusClient)
    (tool : MCPTool Zod) (n : string)
    (args error : value) (issues : list value) (texts : list string)
    (w : World) :
  find_tool (enabledTools allTools enabledToolsets) n = Some tool ->
  parse (inputSchema tool) args = Throw error ->
  get error "name" = VStr "ZodError" ->
  get error "errors" = VArr issues ->
  Forall2 issue_message issues texts ->
  callTool parse allTools enabledToolsets directusClient n args w
  = (Throw (new_Error ("Invalid arguments: " ++ join ", " texts)), w).
Proof.
  intros F P N E I. unfold callTool. rewrite F.
  unfold try_catch, Effects.bind at 1. unfold lift at 1. rewrite P.
  assert (NN : nullish error = false).
  { destruct error; try reflexivity; discriminate. }
  unfold call_catch, Effects.bind at 1. unfold lift at 1, get_strict.
  rewrite NN, N, E.
  assert (M : messages issues = Normal (map VStr texts)).
  { clear -I. induction I as [|issue text issues texts [NI G] _ IH];
      [reflexivity|].
    cbn [map messages]. unfold get_strict at 1. rewrite NI, G, IH.
    reflexivity. }
  unfold Effects.bind, lift. rewrite M. unfold throw, join_values.
  rewrite map_map. cbn [nullish to_string].
  rewrite map_id. reflexivity.
Qed.

Lemma X16_two_issues_witness :
  callTool Samples.reject Samples.registry ["flow"] Demo.token_client
    "trigger_flow" (VObj [("collection", VNum 5)])
    (Demo.mock (Normal Demo.not_found))
  = (Throw (new_Error
              "Invalid arguments: Expected string, received number, Required"),
     Demo.mock (Normal Demo.not_found)).
Proof.
  apply (X16_invalid_arguments Samples.reject Samples.registry ["flow"]
           Demo.token_client Samples.trigger_tool "trigger_flow"
           (VObj [("collection", VNum 5)]) Samples.zod_error
           Samples.zod_issues
           ["Expected string, received number"; "Required"]
           (Demo.mock (Normal Demo.not_found))).
  - reflexivity.
  - reflexivity.
  - reflexivity.
  - reflexivity.
  - repeat constructor.
Defined.

(** X17 (the call handler).  When the handler of an enabled tool rejects
    with an error that has a string message (and is not a [ZodError]),
    the answer is [Tool execution failed: <message>]; the handler ran on
    a fresh copy of the validated arguments. *)
Theorem X17_handler_failure
    (parse : Zod -> value -> Completion value)
    (allTools : list (MCPTool Zod)) (enabledToolsets : list Toolset)
    (directusClient : DirectusClient)
    (tool : MCPTool Zod) (n : string)
    (args validated error : value) (msg : string) (w w' : World) :
  find_tool (enabledTools allTools enabledToolsets) n = Some tool ->
  parse (inputSchema tool) args = Normal validated ->
  handler tool directusClient (List.length (heap w))
    (mkWorld (transport w) (heap w ++ [validated]) (trace w))
  = (Throw error, w') ->
  nullish error = false ->
  get error "name" <> VStr "ZodError" ->
  get error "message" = VStr msg ->
  callTool parse allTools enabledToolsets directusClient n args w
  = (Throw (new_Error ("Tool execution failed: " ++ msg)), w').
Proof.
  intros F P H NN N G. unfold callTool. rewrite F.
  unfold try_catch, Effects.bind at 1. unfold lift at 1. rewrite P.
  unfold Effects.bind at 1. unfold alloc at 1. rewrite H.
  unfold call_catch, Effects.bind, lift, get_strict. rewrite NN, G.
  destruct (get error "name") as [| |b|z|s|xs|props|nm m ex]; try reflexivity.
  destruct (String.eqb s "ZodError") eqn:E.
  - apply String.eqb_eq in E. subst s. contradiction.
  - assert (R : forall (A : Type) (x y : A),
               match s with "ZodError" => x | _ => y end = y).
    { intros A x y. clear -E.
      repeat (destruct s as [|[[] [] [] [] [] [] [] []] s];
              try reflexivity; try discriminate). }
    rewrite R. reflexivity.
Qed.
Lemma X17_api_error_witness :
  fst (callTool Samples.accept Samples.registry ["default"]
         Demo.token_client "failing" (VObj [])
         (Demo.mock (Normal Demo.not_found)))
  = Throw (new_Error
             "Tool execution failed: Directus API error: Not found").
Proof.
  rewrite (X17_handler_failure Samples.accept Samples.registry ["default"]
             Demo.token_client Samples.failing "failing" (VObj []) (VObj [])
             (new_Error "Directus API error: Not found")
             "Directus API error: Not found"
             (Demo.mock (Normal Demo.not_found))
             (mkWorld [] [VObj []]
                [EvFetch "https://directus.example.com/items/articles"
                   (mkInit "GET"
                      [("Content-Type", "application/json");
                       ("Authorization", "Bearer test-token")] None);
                 EvJson Demo.not_found])).
  - reflexivity.
  - reflexivity.
  - reflexivity.
  - reflexivity.
  - reflexivity.
  - discriminate.
  - reflexivity.
Defined.
End ServerProperties.

Section ToolProperties.
Import JS Effects Client ToolHelpers Resources Tools.

(** X18 ([create_collection]).  For an arguments object whose [schema] is
    absent (or falsy) or an object, the handler sends one request,
    [POST /collections], whose body is the arguments object with
    [schema.name] made truthy.  A truthy name that was given is kept, and
    then the arguments are sent exactly as given; when the schema or its
    name is missing (or falsy), the name that is filled in is the
    collection name.  Every other property of the arguments and of the
    schema is sent as given, and the caller's arguments object is left
    holding what was sent. *)
Theorem X18_create_collection_names_table (client : DirectusClient)
    (args : ref) (w : World) (props : list (string * value)) (c : string) :
  nth args (heap w) VUndefined = VObj props ->
  assoc "collection" props = VStr c ->
  c <> "" ->
  truthy (assoc "schema" props) = false
  \/ (exists sprops, assoc "schema" props = VObj sprops) ->
  exists sent,
    fetches (trace (snd (create_collection client args w)))
    = (fetches (trace w)
       ++ [((baseUrl client ++ "/collections")%string,
            mkInit "POST" (json_headers ++ authHeaders client)
              (JSON_stringify (VObj sent)))])%list
    /\ truthy (get (get (VObj sent) "schema") "name") = true
    /\ (truthy (get (assoc "schema" props) "name") = true -> sent = props)
    /\ (truthy (get (assoc "schema" props) "name") = false ->
        get (assoc "schema" sent) "name" = VStr c)
    /\ (forall k, k <> "schema" -> assoc k sent = assoc k props)
    /\ (forall k, k <> "name" ->
                  get (assoc "schema" sent) k = get (assoc "schema" props) k)
    /\ nth args (heap (snd (create_collection client args w))) VUndefined
       = VObj sent.
Proof.
  intros A C NE S.
  destruct (create_collection_sends client args w props A S)
    as [sent [E [Same [Named [Others Inner]]]]].
  exists sent. rewrite E. split; [rewrite request_fetches; reflexivity|].
  split.
  { destruct (truthy (get (get (VObj props) "schema") "name")) eqn:T.
    - rewrite (Same eq_refl). exact T.
    - rewrite (Named eq_refl), C. cbn [truthy].
      apply negb_true_iff. apply String.eqb_neq. exact NE. }
  split; [exact Same|].
  split; [intros T; rewrite <- C; exact (Named T)|].
  split; [exact Others|]. split; [exact Inner|].
  rewrite request_heap. cbn [heap].
  destruct (truthy (get (get (VObj props) "schema") "name")) eqn:T.
  - rewrite (Same eq_refl). exact A.
  - apply nth_update. exact (nth_defined _ _ _ A).
Qed.

Lemma X18_articles_witness :
  exists sent,
    fetches (trace (snd (create_collection Demo.token_client 0
                           (mkWorld [] [VObj [("collection", VStr "articles");
                                              ("schema", VObj [("comment",
                                                         VStr "Blog")])]]
                              []))))
    = [("https://directus.example.com/collections",
        mkInit "POST"
          [("Content-Type", "application/json");
           ("Authorization", "Bearer test-token")]
          (JSON_stringify (VObj sent)))]
    /\ get (assoc "schema" sent) "name" = VStr "articles"
    /\ get (assoc "schema" sent) "comment" = VStr "Blog".
Proof.
  destruct (X18_create_collection_names_table Demo.token_client 0
              (mkWorld [] [VObj [("collection", VStr "articles");
                                 ("schema", VObj [("comment", VStr "Blog")])]]
                 [])
              [("collection", VStr "articles");
               ("schema", VObj [("comment", VStr "Blog")])]
              "articles" eq_refl eq_refl)
    as [sent [F [_ [_ [N [_ [I _]]]]]]].
  - discriminate.
  - right. exists [("comment", VStr "Blog")]. reflexivity.
  - exists sent. split; [exact F|]. split; [exact (N eq_refl)|].
    rewrite (I "comment") by discriminate. reflexivity.
Defined.

(** X19 ([delete_relation]).  When the list of relations holds no
    relation of the given collection and field, the tool rejects with
    [Relation not found for <collection>.<field>] after its one
    [GET /relations]: no [DELETE] is sent and the success message is not
    produced. *)
Theorem X19_delete_relation_not_found (Schema : Type) (schema : Schema)
    (client : DirectusClient) (args : ref) (w : World)
    (props : list (string * value)) (response : Response)
    (later : list (Completion Response)) (relations : value)
    (rs : list value) :
  nth args (heap w) VUndefined = VObj props ->
  transport w = Normal response :: later ->
  ok response = true ->
  status response <> 204%Z ->
  json response = Normal relations ->
  get relations "data" = VArr rs ->
  Forall (other_relation (VObj props)) rs ->
  handler (delete_relation_tool schema) client args w
  = (Throw (new_Error ("Relation not found for "
                       ++ to_string (assoc "collection" props) ++ "."
                       ++ to_string (assoc "field" props))),
     mkWorld later (heap w)
       (trace w ++ [EvFetch (baseUrl client ++ "/relations")
                      (mkInit "GET" (json_headers ++ authHeaders client)
                         None);
                    EvJson response])%list).
Proof.
  intros A T K S J D O.
  assert (NR : nullish relations = false).
  { destruct relations; try reflexivity; discriminate. }
  unfold delete_relation_tool, createActionTool. cbn [handler act_handler].
  unfold Effects.bind at 1. unfold delete_relation.
  unfold Effects.bind at 1. rewrite getRelations_request.
  rewrite (request_success client "GET" "/relations" VUndefined w response
             later relations T K S J).
  unfold Effects.bind at 1. unfold read at 1. cbn [heap]. rewrite A.
  unfold Effects.bind at 1. unfold lift at 1, get_strict. rewrite NR, D.
  unfold Effects.bind at 1. unfold lift at 1.
  rewrite (find_relation_none (VObj props) rs eq_refl O).
  cbn [truthy negb]. reflexivity.
Qed.

Lemma X19_missing_relation_witness :
  handler (delete_relation_tool tt) Demo.token_client 0
    (mkWorld [Normal (Samples.ok_json Samples.relation_rows)]
       [VObj [("collection", VStr "articles"); ("field", VStr "editor")]] [])
  = (Throw (new_Error "Relation not found for articles.editor"),
     mkWorld []
       [VObj [("collection", VStr "articles"); ("field", VStr "editor")]]
       [EvFetch "https://directus.example.com/relations"
          (mkInit "GET"
             [("Content-Type", "application/json");
              ("Authorization", "Bearer test-token")] None);
        EvJson (Samples.ok_json Samples.relation_rows)]).
Proof.
  apply (X19_delete_relation_not_found unit tt Demo.token_client 0
           (mkWorld [Normal (Samples.ok_json Samples.relation_rows)]
              [VObj [("collection", VStr "articles");
                     ("field", VStr "editor")]] [])
           [("collection", VStr "articles"); ("field", VStr "editor")]
           (Samples.ok_json Samples.relation_rows) []
           Samples.relation_rows
           [VObj [("collection", VStr "articles");
                  ("field", VStr "author");
                  ("meta", VObj [("id", VNum 7)])];
            VObj [("id", VNum 3);
                  ("collection", VStr "articles");
                  ("field", VStr "category")]]).
  - reflexivity.
  - reflexivity.
  - reflexivity.
  - discriminate.
  - reflexivity.
  - reflexivity.
  - repeat constructor.
Defined.

(** X20 ([delete_relation]).  When the list holds a relation of the given
    collection and field, the handler sends [GET /relations] and then one
    [DELETE /relations/<id>] without a body, for the first such relation;
    the id is the relation's [id], or its [meta.id] when [id] is missing
    or falsy. *)
Theorem X20_delete_relation_by_id (client : DirectusClient) (args : ref)
    (w : World) (props : list (string * value)) (c : string)
    (response : Response) (later : list (Completion Response))
    (relations r : value) (before after : list value) :
  nth args (heap w) VUndefined = VObj props ->
  assoc "collection" props = VStr c ->
  transport w = Normal response :: later ->
  ok response = true ->
  status response <> 204%Z ->
  json response = Normal relations ->
  get relations "data" = VArr (before ++ r :: after) ->
  Forall (other_relation (VObj props)) before ->
  nullish r = false ->
  relation_of (VObj props) r = true ->
  fetches (trace (snd (delete_relation client args w)))
  = (fetches (trace w)
     ++ [((baseUrl client ++ "/relations")%string,
          mkInit "GET" (json_headers ++ authHeaders client) None);
         ((baseUrl client ++ "/relations/"
           ++ to_string (or_else (get r "id")
                                 (opt_get (get r "meta") "id")))%string,
          mkInit "DELETE" (json_headers ++ authHeaders client) None)])%list.
Proof.
  intros A C T K S J D O NR M.
  assert (NN : nullish relations = false).
  { destruct relations; try reflexivity; discriminate. }
  unfold delete_relation.
  unfold Effects.bind at 1. rewrite getRelations_request.
  rewrite (request_success client "GET" "/relations" VUndefined w response
             later relations T K S J).
  unfold Effects.bind at 1. unfold read at 1. cbn [heap]. rewrite A.
  unfold Effects.bind at 1. unfold lift at 1, get_strict. rewrite NN, D.
  unfold Effects.bind at 1. unfold lift at 1.
  rewrite (find_relation_first (VObj props) r before after eq_refl O NR M).
  rewrite (matching_relation_truthy (VObj props) r c C M). cbn [negb].
  rewrite deleteRelation_request, request_fetches. cbn [trace].
  rewrite fetches_app. cbn [fetches]. rewrite <- app_assoc. reflexivity.
Qed.

Lemma X20_author_relation_witness :
  fetches (trace (snd (delete_relation Demo.token_client 0
                         (mkWorld
                            [Normal (Samples.ok_json Samples.relation_rows);
                             Normal Demo.no_content]
                            [VObj [("collection", VStr "articles");
                                   ("field", VStr "author")]] []))))
  = [("https://directus.example.com/relations",
      mkInit "GET"
        [("Content-Type", "application/json");
         ("Authorization", "Bearer test-token")] None);
     ("https://directus.example.com/relations/7",
      mkInit "DELETE"
        [("Content-Type", "application/json");
         ("Authorization", "Bearer test-token")] None)].
Proof.
  apply (X20_delete_relation_by_id Demo.token_client 0
           (mkWorld [Normal (Samples.ok_json Samples.relation_rows);
                     Normal Demo.no_content]
              [VObj [("collection", VStr "articles");
                     ("field", VStr "author")]] [])
           [("collection", VStr "articles"); ("field", VStr "author")]
           "articles"
           (Samples.ok_json Samples.relation_rows) [Normal Demo.no_content]
           Samples.relation_rows
           (VObj [("collection", VStr "articles");
                  ("field", VStr "author");
                  ("meta", VObj [("id", VNum 7)])])
           []
           [VObj [("id", VNum 3);
                  ("collection", VStr "articles");
                  ("field", VStr "category")]]).
  - reflexivity.
  - reflexivity.
  - reflexivity.
  - reflexivity.
  - discriminate.
  - reflexivity.
  - reflexivity.
  - constructor.
  - reflexivity.
  - reflexivity.
Defined.
End ToolProperties.

Section FlowToolProperties.
Import JS Effects Client ToolHelpers Resources Tools.





(** X23 ([get_schema_snapshot] and [getSchemaSnapshot]).  The tool sends
    one [GET] to [/schema/snapshot]; of its arguments only a truthy
    [export] reaches the URL, form-encoded, as [?export=<format>]. *)
Theorem X23_schema_snapshot_export (client : DirectusClient) (args : ref)
    (w : World) (props : list (string * value)) :
  nth args (heap w) VUndefined = VObj props ->
  fetches (trace (snd (get_schema_snapshot client args w)))
  = (fetches (trace w)
     ++ [((baseUrl client ++ "/schema/snapshot"
           ++ (if truthy (assoc "export" props)
               then "?export=" ++ urlencode (to_string (assoc "export" props))
               else ""))%string,
          mkInit "GET" (json_headers ++ authHeaders client) None)])%list.
Proof.
  intros A. unfold get_schema_snapshot. unfold Effects.bind at 1.
  unfold read at 1. rewrite A. unfold Effects.bind at 1.
  unfold lift at 1, get_strict. cbn [nullish get].
  unfold getSchemaSnapshot, queryString.
  destruct (truthy (assoc "export" props)) eqn:T.
  - cbn [truthy]. unfold buildQueryString, collect. cbn [nullish get assoc].
    cbn [String.eqb Ascii.eqb Bool.eqb]. cbn [truthy is_defined append_if].
    rewrite T. unfold append_if, append. cbn [app].
    unfold URLSearchParams_toString. cbn [map String.concat fst snd].
    change (urlencode "export") with "export".
    cbn [String.append String.eqb negb].
    unfold Effects.bind, lift. rewrite request_fetches. reflexivity.
  - cbn [truthy]. unfold Effects.bind, ret. rewrite request_fetches.
    reflexivity.
Qed.

Lemma X23_yaml_export_witness :
  fetches (trace (snd (get_schema_snapshot Demo.token_client 0
                         (mkWorld [Normal Demo.no_content]
                            [VObj [("export", VStr "yaml");
                                   ("limit", VNum 5)]] []))))
  = [("https://directus.example.com/schema/snapshot?export=yaml",
      mkInit "GET"
        [("Content-Type", "application/json");
         ("Authorization", "Bearer test-token")] None)].
Proof.
  apply (X23_schema_snapshot_export Demo.token_client 0
           (mkWorld [Normal Demo.no_content]
              [VObj [("export", VStr "yaml"); ("limit", VNum 5)]] [])
           [("export", VStr "yaml"); ("limit", VNum 5)]).
  reflexivity.
Defined.
End FlowToolProperties.

Section SelectionProperties.
Import JS ToolHelpers.

(** X24 ([parseToolsets] of index.ts).  Whatever the configuration and
    whatever [trim] and [toLowerCase] do, the active set is never empty
    and every member of it is one of the seven toolset names of the
    vocabulary. *)
Theorem X24_active_set_valid_and_nonempty (trim toLowerCase : string -> string)
    (envValue : option string) :
  fst (Index.parseToolsets trim toLowerCase envValue) <> []
  /\ forall t, In t (fst (Index.parseToolsets trim toLowerCase envValue)) ->
               In t Index.validToolsets.
Proof.
  split; [apply parseToolsets_nonempty|].
  intros t. apply parseToolsets_valid.
Qed.

(** X25 ([parseToolsets] of index.ts).  At most one warning is written.
    None is written exactly when the configuration is unset or blank, or
    when it names at least one toolset and every name in it is valid; a
    configuration made of separators only is warned about. *)
Theorem X25_warning_condition (trim toLowerCase : string -> string)
    (envValue : option string) :
  let requested :=
    Index.requestedToolsets trim toLowerCase (env_text envValue) in
  List.length (snd (Index.parseToolsets trim toLowerCase envValue)) <= 1
  /\ (snd (Index.parseToolsets trim toLowerCase envValue) = []
      <-> unset trim envValue = true
          \/ (requested <> []
              /\ forall t, In t requested -> In t Index.validToolsets)).
Proof.
  cbv zeta. destruct envValue as [env|]; [|cbn; split; [lia|tauto]].
  unfold Index.parseToolsets, unset. cbn [env_text].
  destruct (String.eqb env "" || String.eqb (trim env) "") eqn:U.
  - cbn. split; [lia|tauto].
  - cbv zeta.
    set (requested := Index.requestedToolsets trim toLowerCase env).
    destruct (filter (fun t => includes Index.validToolsets t) requested)
      as [|x xs] eqn:F.
    + cbn [List.length Nat.eqb snd]. split; [lia|]. split; [discriminate|].
      intros [H|[NE V]]; [discriminate|]. exfalso.
      destruct requested as [|r rs]; [contradiction|].
      assert (I : In r (filter (fun t => includes Index.validToolsets t)
                          (r :: rs))).
      { apply filter_In. split; [left; reflexivity|].
        apply includes_In. apply V. left. reflexivity. }
      rewrite F in I. exact I.
    + cbn [List.length Nat.eqb snd].
      destruct (filter (fun t => negb (includes Index.validToolsets t))
                  requested) as [|y ys] eqn:G.
      * cbn [List.length Nat.ltb Nat.leb snd].
        split; [lia|]. split; [|reflexivity]. intros _. right. split.
        -- intros E. rewrite E in F. discriminate.
        -- intros t Ht. apply includes_In.
           destruct (includes Index.validToolsets t) eqn:I; [reflexivity|].
           exfalso.
           assert (B : In t (filter (fun t => negb (includes
                                                      Index.validToolsets t))
                               requested)).
           { apply filter_In. split; [exact Ht|]. rewrite I. reflexivity. }
           rewrite G in B. exact B.
      * cbn [List.length Nat.ltb Nat.leb snd].
        split; [lia|]. split; [discriminate|].
        intros [H|[NE V]]; [discriminate|]. exfalso.
        assert (B : In y (filter (fun t => negb (includes
                                                   Index.validToolsets t))
                            requested)) by (rewrite G; left; reflexivity).
        apply filter_In in B. destruct B as [B1 B2].
        apply V in B1. apply includes_In in B1. rewrite B1 in B2.
        discriminate.
Qed.

(** X26 ([parseToolsets] and [filterToolsByToolsets] of index.ts).  A
    tool all of whose toolsets are outside the vocabulary of index.ts
    (the panel tools, tagged [dashboards]) is exposed under no
    configuration. *)
Theorem X26_foreign_toolsets_never_exposed (Schema : Type)
    (trim toLowerCase : string -> string) (envValue : option string)
    (tools : list (MCPTool Schema)) (tool : MCPTool Schema)
    (declared : list Toolset) :
  toolsets tool = Some declared ->
  (forall t, In t declared -> ~ In t Index.validToolsets) ->
  ~ In tool (Index.filterToolsByToolsets tools
               (fst (Index.parseToolsets trim toLowerCase envValue))).
Proof.
  intros T N H. apply Index_filter_spec in H.
  destruct H as [_ [ts [t [E [Ht Ha]]]]].
  rewrite T in E. injection E as <-.
  apply (N t Ht). exact (parseToolsets_valid trim toLowerCase envValue t Ha).
Qed.

Lemma X26_panel_tool_witness :
  ~ In (mkMCPTool "list_panels" "List panels" tt (Some ["dashboards"])
          Demo.idle)
       (Index.filterToolsByToolsets
          [Demo.toolX;
           mkMCPTool "list_panels" "List panels" tt (Some ["dashboards"])
             Demo.idle]
          (fst (Index.parseToolsets ascii_trim ascii_toLowerCase
                  (Some "dashboards,schema")))).
Proof.
  apply (X26_foreign_toolsets_never_exposed unit ascii_trim
           ascii_toLowerCase (Some "dashboards,schema")
           [Demo.toolX;
            mkMCPTool "list_panels" "List panels" tt (Some ["dashboards"])
              Demo.idle]
           (mkMCPTool "list_panels" "List panels" tt (Some ["dashboards"])
              Demo.idle)
           ["dashboards"]).
  - reflexivity.
  - intros t [<-|[]]. cbn [In Index.validToolsets]. intuition discriminate.
Defined.

(** X27 ([filterToolsByToolsets] of index.ts).  Enabling toolsets is
    additive: with the union of two active sets, exactly the tools
    exposed by one of them are exposed; the filter keeps the registry
    order and exposes nothing for an empty active set. *)
Theorem X27_filter_is_additive (Schema : Type)
    (tools : list (MCPTool Schema)) (active active' : list Toolset)
    (tool : MCPTool Schema) :
  (In tool (Index.filterToolsByToolsets tools (active ++ active')%list)
   <-> In tool (Index.filterToolsByToolsets tools active)
       \/ In tool (Index.filterToolsByToolsets tools active'))
  /\ Index.filterToolsByToolsets tools [] = []
  /\ (forall more,
        Index.filterToolsByToolsets (tools ++ more)%list active
        = (Index.filterToolsByToolsets tools active
           ++ Index.filterToolsByToolsets more active)%list).
Proof.
  split; [|split].
  - rewrite !Index_filter_spec. unfold intersects. split.
    + intros [H [ts [t [E [Ht Ha]]]]]. apply in_app_or in Ha.
      destruct Ha as [Ha|Ha]; [left|right];
        (split; [exact H|exists ts, t; auto]).
    + intros [[H [ts [t [E [Ht Ha]]]]]|[H [ts [t [E [Ht Ha]]]]]];
        (split; [exact H|exists ts, t]); (split; [exact E|]);
        (split; [exact Ht|]); apply in_or_app; auto.
  - destruct (Index.filterToolsByToolsets tools []) as [|y ys] eqn:E;
      [reflexivity|].
    exfalso.
    assert (H : In y (Index.filterToolsByToolsets tools []))
      by (rewrite E; left; reflexivity).
    apply Index_filter_spec in H.
    destruct H as [_ [ts [t [_ [_ []]]]]].
  - intros more. unfold Index.filterToolsByToolsets. apply filter_app.
Qed.
End SelectionProperties.

Section QueryProperties.
Import JS Client.

(** X28 ([buildQueryString]).  For every parameter bag the query string
    is URL-safe: it consists of ASCII letters and digits, [*], [-], [.],
    [_], the escapes' [%] and [+], and the separators [?], [&] and [=];
    no space, quote, brace or non-ASCII byte is emitted raw. *)
Theorem X28_query_string_is_url_safe (bag : list (string * value))
    (q : string) :
  buildQueryString (VObj bag) = Normal q ->
  every_char query_char q = true.
Proof.
  unfold buildQueryString. cbn [nullish]. intros H. injection H as <-.
  destruct (negb (String.eqb (URLSearchParams_toString (collect (VObj bag)))
                             "")); [|reflexivity].
  cbn [String.append every_char]. rewrite toString_safe. reflexivity.
Qed.

Lemma X28_published_titles_witness :
  every_char query_char
    "?fields=id%2Ctitle&filter=%7B%22status%22%3A%7B%22_eq%22%3A%22published%22%7D%7D&limit=10"
  = true.
Proof.
  apply (X28_query_string_is_url_safe Demo.published_titles).
  vm_compute. reflexivity.
Defined.

(** X29 ([buildQueryString]).  Only the twelve known keys are read: two
    bags that agree on them give the same query string, so properties an
    arguments object carries besides them never reach the URL. *)
Theorem X29_unknown_keys_are_ignored (bag bag' : list (string * value)) :
  same_query_keys bag bag' ->
  buildQueryString (VObj bag) = buildQueryString (VObj bag').
Proof.
  intros H. unfold buildQueryString. cbn [nullish].
  assert (C : collect (VObj bag) = collect (VObj bag')).
  { unfold collect. cbn [get].
    rewrite (H "fields"), (H "filter"), (H "search"), (H "sort"),
      (H "limit"), (H "offset"), (H "page"), (H "aggregate"), (H "groupBy"),
      (H "deep"), (H "meta"), (H "export")
      by (cbn [In query_keys]; tauto).
    reflexivity. }
  rewrite C. reflexivity.
Qed.

Lemma X29_extra_key_witness :
  buildQueryString (VObj [("id", VStr "f1"); ("limit", VNum 5)])
  = buildQueryString (VObj [("limit", VNum 5)]).
Proof.
  apply (X29_unknown_keys_are_ignored
           [("id", VStr "f1"); ("limit", VNum 5)] [("limit", VNum 5)]).
  intros k H. cbn [In query_keys] in H.
  repeat (destruct H as [<-|H]; [reflexivity|]). contradiction.
Defined.
End QueryProperties.

Section TestCopyProperties.
Import JS ToolHelpers.

(** X30 (the copies in index.test.ts against index.ts).  The copies of
    [parseToolsets] and [filterToolsByToolsets] that the test suite
    exercises agree with the functions of index.ts exactly away from the
    two tags index.ts does not know: for a configuration that names
    neither [all] nor [dashboards] both parsers give the same active set,
    and for an active set without [all] both filters expose the same
    tools. *)
Theorem X30_test_copies_agree (Schema : Type)
    (trim toLowerCase : string -> string) (envValue : option string)
    (tools : list (MCPTool Schema)) (active : list Toolset) :
  (~ In "all" (Index.requestedToolsets trim toLowerCase (env_text envValue))
   -> ~ In "dashboards"
         (Index.requestedToolsets trim toLowerCase (env_text envValue))
   -> IndexTest.parseToolsets trim toLowerCase envValue
      = fst (Index.parseToolsets trim toLowerCase envValue))
  /\ (~ In "all" active ->
      IndexTest.filterToolsByToolsets tools active
      = Index.filterToolsByToolsets tools active).
Proof.
  split.
  - intros NA ND. destruct envValue as [env|]; [|reflexivity].
    cbn [env_text] in NA, ND.
    unfold IndexTest.parseToolsets, Index.parseToolsets.
    destruct (String.eqb env "" || String.eqb (trim env) "");
      [reflexivity|].
    cbv zeta.
    change (IndexTest.requestedToolsets trim toLowerCase env)
      with (Index.requestedToolsets trim toLowerCase env).
    set (requested := Index.requestedToolsets trim toLowerCase env) in *.
    assert (E : filter (fun t => includes IndexTest.validToolsets t) requested
                = filter (fun t => includes Index.validToolsets t) requested).
    { apply filter_ext_in. intros t Ht.
      unfold includes, IndexTest.validToolsets, Index.validToolsets.
      cbn [existsb].
      assert (A : String.eqb t "all" = false).
      { apply String.eqb_neq. intros ->. exact (NA Ht). }
      assert (D : String.eqb t "dashboards" = false).
      { apply String.eqb_neq. intros ->. exact (ND Ht). }
      rewrite A, D. rewrite !orb_false_r. reflexivity. }
    rewrite E.
    set (filtered := filter (fun t => includes Index.validToolsets t)
                       requested).
    assert (I : includes filtered "all" = false).
    { destruct (includes filtered "all") eqn:I; [|reflexivity].
      exfalso. apply includes_In in I. apply filter_In in I.
      exact (NA (proj1 I)). }
    rewrite I. destruct filtered; reflexivity.
  - intros NA. unfold IndexTest.filterToolsByToolsets.
    destruct (includes active "all") eqn:I; [|reflexivity].
    exfalso. apply includes_In in I. exact (NA I).
Qed.

Lemma X30_schema_content_witness :
  IndexTest.parseToolsets ascii_trim ascii_toLowerCase
    (Some "Schema, content")
  = fst (Index.parseToolsets ascii_trim ascii_toLowerCase
           (Some "Schema, content")).
Proof.
  apply (proj1 (X30_test_copies_agree unit ascii_trim ascii_toLowerCase
                  (Some "Schema, content") [] [])).
  - vm_compute. intuition discriminate.
  - vm_compute. intuition discriminate.
Defined.
End TestCopyProperties.
